(** * client-metadata: user-agent classification, fingerprinting,
      IP geolocation and their aggregation

    A shallow embedding of [uaParser.ts], [fingerprint.ts] (the
    self-composed generator and its ClientJS-delegating variant),
    [location.ts] and [metadata.ts], followed by the properties established
    about them.

    - Synchronous code is a function into [result]: it returns or throws.
    - [async] code, and code that writes to the console, is a function in
      the monad [M]: it threads the console, the list of requests sent and
      a clock in milliseconds, and resolves or rejects.
    - Whatever the code reads from its surroundings ([navigator], [screen],
      the canvas, the clock, the network) comes from an explicit
      environment [Browser.Env]. *)

From Stdlib Require Import String Ascii List Bool ZArith QArith Lia.
From Stdlib Require Import DecimalString.
Import ListNotations.

Set Warnings "-register-all".

Open Scope string_scope.
Open Scope Z_scope.

(* ================================================================== *)
(** ** The JavaScript runtime, as far as the library relies on it     *)
(* ================================================================== *)

Module JS.

(** What a [throw] carries: an [Error] instance with its [name] and
    [message], or any other thrown value (rendered as text). *)
Inductive exn : Type :=
| JsError (name message : string)
| JsThrown (v : string).

(** Outcome of evaluating a synchronous expression. *)
Inductive result (A : Type) : Type :=
| Ok (a : A)
| Throw (e : exn).
Arguments Ok {A} a.
Arguments Throw {A} e.

Definition rbind {A B} (r : result A) (k : A -> result B) : result B :=
  match r with
  | Ok a => k a
  | Throw e => Throw e
  end.

Definition ReferenceError (ident : string) : exn :=
  JsError "ReferenceError" (ident ++ " is not defined").

Definition TypeError (msg : string) : exn := JsError "TypeError" msg.

Definition Error (msg : string) : exn := JsError "Error" msg.

(** *** Strings

    A string is a sequence of code units below 256 (ASCII and Latin-1),
    which is what [Stdlib]'s [string] holds. *)

Definition between (lo hi n : nat) : bool := (lo <=? n)%nat && (n <=? hi)%nat.

(** [String.prototype.toLowerCase] on one code unit: [A-Z] and the Latin-1
    capitals (U+00C0..U+00DE, the multiplication sign excepted) move up by
    32, everything else is unchanged. *)
Definition lowerChar (c : ascii) : ascii :=
  let n := nat_of_ascii c in
  if between 65 90 n || (between 192 222 n && negb (n =? 215)%nat)
  then ascii_of_nat (n + 32)
  else c.

Fixpoint toLowerCase (s : string) : string :=
  match s with
  | EmptyString => EmptyString
  | String c s' => String (lowerChar c) (toLowerCase s')
  end.

(** Case folding of the [i] flag of a regular expression without the [u]
    flag: two code units match when their canonical forms agree, and no
    code unit outside ASCII is canonically equal to an ASCII letter, so
    against the ASCII patterns of this library only [A-Z] folds. *)
Definition foldChar (c : ascii) : ascii :=
  let n := nat_of_ascii c in
  if between 65 90 n then ascii_of_nat (n + 32) else c.

Fixpoint foldCase (s : string) : string :=
  match s with
  | EmptyString => EmptyString
  | String c s' => String (foldChar c) (foldCase s')
  end.

(** [s.includes(pat)]: [pat] occurs in [s] as a contiguous substring. *)
Fixpoint includes (pat s : string) : bool :=
  match s with
  | EmptyString => prefix pat EmptyString
  | String _ s' => prefix pat s || includes pat s'
  end.

(** The regular expressions of the library are alternations of literal
    substrings ([/iphone|ipod/], [/windows nt 6\.3/], [/edg\//i]): a list
    of alternatives and the [i] flag. *)
Record RegExp : Type := mkRegExp {
  alternatives : list string;
  ignoreCase : bool
}.

Definition re (alts : list string) : RegExp := mkRegExp alts false.
Definition rei (alts : list string) : RegExp := mkRegExp alts true.

(** [pattern.test(s)] *)
Definition test (p : RegExp) (s : string) : bool :=
  if ignoreCase p
  then existsb (fun a => includes (foldCase a) (foldCase s)) (alternatives p)
  else existsb (fun a => includes a s) (alternatives p).

(** *** Numbers

    An IEEE double is [NaN], an infinity, or a finite value, which denotes
    a rational; comparing two finite doubles is comparing the rationals
    they denote. *)
Inductive number : Type :=
| NaN
| PosInf
| NegInf
| Fin (q : Q).

Definition isNaN (n : number) : bool :=
  match n with NaN => true | _ => false end.

(** [a < b] on numbers: false as soon as one side is [NaN]. *)
Definition lt (a b : number) : bool :=
  match a, b with
  | NaN, _ | _, NaN => false
  | PosInf, _ => false
  | _, NegInf => false
  | NegInf, _ => true
  | _, PosInf => true
  | Fin x, Fin y => negb (Qle_bool y x)
  end.

Definition gt (a b : number) : bool := lt b a.

(** [a !== b] on numbers. *)
Definition strictNeq (a b : number) : bool :=
  match a, b with
  | NaN, _ | _, NaN => true
  | PosInf, PosInf | NegInf, NegInf => false
  | Fin x, Fin y => negb (Qeq_bool x y)
  | _, _ => true
  end.

Definition ofZ (z : Z) : number := Fin (inject_Z z).

(** *** Values of type [any], as [response.json()] produces them *)
Inductive value : Type :=
| VUndefined
| VNull
| VBool (b : bool)
| VNum (n : number)
| VStr (s : string)
| VObj (props : list (string * value)).

(** [!!v] *)
Definition truthy (v : value) : bool :=
  match v with
  | VUndefined | VNull => false
  | VBool b => b
  | VNum NaN => false
  | VNum (Fin q) => negb (Qeq_bool q 0%Q)
  | VNum _ => true
  | VStr s => negb (s =? "")%string
  | VObj _ => true
  end.

(** [typeof v === 'object'] *)
Definition typeofObject (v : value) : bool :=
  match v with VNull | VObj _ => true | _ => false end.

(** [typeof v === 'number'] *)
Definition typeofNumber (v : value) : bool :=
  match v with VNum _ => true | _ => false end.

(** [v !== undefined] *)
Definition defined (v : value) : bool :=
  match v with VUndefined => false | _ => true end.

Fixpoint lookup (k : string) (props : list (string * value)) : value :=
  match props with
  | [] => VUndefined
  | (k', v) :: rest => if (k =? k')%string then v else lookup k rest
  end.

(** [data.k] for a [data] that is neither [null] nor [undefined]: the own
    property, [undefined] when there is none. *)
Definition get (data : value) (k : string) : value :=
  match data with
  | VObj props => lookup k props
  | _ => VUndefined
  end.

(** [a || b] *)
Definition or (a b : value) : value := if truthy a then a else b.

(** *** Rendering integers *)

(** [String(n)] for an integral number below 10^21 in magnitude, which is
    where the numbers this library renders lie (screen sizes, time zone
    offsets, HTTP status codes, timeouts); from 10^21 on JavaScript writes
    an exponent, which is not modelled. *)
Definition decimal (n : Z) : string := NilZero.string_of_int (Z.to_int n).

Definition hexDigit (d : Z) : ascii :=
  if d <? 10 then ascii_of_nat (Z.to_nat d + 48)
  else ascii_of_nat (Z.to_nat d + 87).

Fixpoint hexDigits (fuel : nat) (n : Z) (acc : string) : string :=
  match fuel with
  | O => String (hexDigit (n mod 16)) acc
  | S fuel' =>
      if n <? 16 then String (hexDigit n) acc
      else hexDigits fuel' (n / 16) (String (hexDigit (n mod 16)) acc)
  end.

(** [n.toString(16)] for an integral [n]. *)
Definition toString16 (n : Z) : string :=
  let digits := hexDigits (Z.to_nat (Z.log2 (Z.abs n))) (Z.abs n) "" in
  if n <? 0 then "-" ++ digits else digits.

(** [ToInt32]: what a bitwise operator makes of its operand. *)
Definition toInt32 (z : Z) : Z := (z + 2147483648) mod 4294967296 - 2147483648.

(** *** Timers *)

Definition TIMEOUT_MAX : Z := 2147483647.

(** The delay, in milliseconds, after which [setTimeout(callback, ms)] runs
    its callback. A delay between 1 and [TIMEOUT_MAX] is taken as it is.
    Any other delay is not honoured: the callback runs as soon as the
    event loop gets to it (Node.js sets such a delay to 1; a browser
    converts it to a 32-bit integer first and runs the callback at once
    when the outcome is not positive). *)
Definition timerDelay (ms : Z) : Z :=
  if (ms <? 1) || (TIMEOUT_MAX <? ms) then 1 else ms.

End JS.

Import JS.

Declare Scope js_scope.
Delimit Scope js_scope with js.
Notation "'let*' x ':=' c 'in' k" :=
  (rbind c (fun x => k))
  (at level 10, x pattern, c at level 100, k at level 200) : js_scope.
Open Scope js_scope.


(* ================================================================== *)
(** ** The ambient browser environment                                 *)
(* ================================================================== *)

Module Browser.

(** Reading a property of a host object: the getter may throw, and the
    property may be missing ([undefined], or [null] where the platform
    says so). *)
Definition prop (A : Type) : Type := result (option A).

Record Navigator : Type := {
  userAgent : prop string;
  language : prop string;
  languages : prop (list string);
  platform : prop string;
  cookieEnabled : prop bool;
  doNotTrack : prop string;
  hardwareConcurrency : prop Z;
  maxTouchPoints : prop Z;
  vendorSub : prop string;
  productSub : prop string;
  (** [navigator.userAgentData?.platform] *)
  userAgentDataPlatform : prop string
}.

Record Screen : Type := {
  width : prop Z;
  height : prop Z;
  colorDepth : prop Z;
  pixelDepth : prop Z
}.

(** A 2D rendering context: the drawing calls of the canvas probe taken
    together, and the width [measureText] reports for the probe text under
    a given [font] setting. *)
Record Context2D : Type := {
  draw : result unit;
  measureText : string -> result number
}.

(** The [WEBGL_debug_renderer_info] extension: the two parameters read
    through it, as the template literal renders them. *)
Record DebugRendererInfo : Type := {
  unmaskedVendor : result string;
  unmaskedRenderer : result string
}.

Record WebGLContext : Type := {
  getExtension : result (option DebugRendererInfo)
}.

(** A canvas element: [getContext('2d')], [getContext('webgl')] (each may
    be [null]) and [toDataURL()]. *)
Record Canvas : Type := {
  getContext2d : result (option Context2D);
  getContextWebgl : result (option WebGLContext);
  toDataURL : result string
}.

(** What [client.getFingerprint()] of the ClientJS library hands back. *)
Inductive RawFingerprint : Type :=
| RawString (s : string)
| RawNumber (n : Z)
| RawNull
| RawUndefined.

(** How a [fetch] of one URL ends: the promise of [fetch] rejects, or it
    resolves to a response, whose [json()] in turn resolves to the parsed
    body or rejects. *)
Inductive FetchOutcome : Type :=
| FetchRejected (e : exn)
| FetchResponded (ok : bool) (status : Z) (statusText : string)
                 (json : result value).

(** One exchange with a server: [latency] is the time, in milliseconds,
    after which the promise of [fetch] settles (the response head has
    arrived, or the request has failed); [bodyLatency] is the time
    [response.json()] then takes to settle (the body has been read). *)
Record Exchange : Type := {
  latency : Z;
  bodyLatency : Z;
  outcome : FetchOutcome
}.

(** The globals the library reads. A global that does not exist is [None]:
    naming it raises a [ReferenceError]. *)
Record Env : Type := {
  navigator : option Navigator;
  screen : option Screen;
  (** [document.createElement('canvas')] *)
  createCanvas : result Canvas;
  (** [new Date().getTimezoneOffset()] *)
  timezoneOffset : Z;
  (** [Date.now()] *)
  now : Z;
  (** [new ClientJS()] followed by [client.getFingerprint()] *)
  clientJS : result RawFingerprint;
  (** the network, as [fetch] sees it: every URL of the provider list is
      requested at most once per call. The globals [AbortController],
      [setTimeout] and [fetch] themselves are taken to exist. *)
  network : string -> Exchange
}.

Definition global {A} (ident : string) (g : option A) : result A :=
  match g with
  | Some a => Ok a
  | None => Throw (ReferenceError ident)
  end.

End Browser.

(* ================================================================== *)
(** ** [src/uaParser.ts]                                               *)
(* ================================================================== *)

Module UaParser.

Record Entry : Type := mkEntry {
  pattern : RegExp;
  name : string
}.

(** [for (const e of table) if (e.pattern.test(ua)) return e.name;
     return "Unknown"] *)
Fixpoint firstMatch (table : list Entry) (ua : string) : string :=
  match table with
  | [] => "Unknown"
  | e :: rest => if test (pattern e) ua then name e else firstMatch rest ua
  end.

Definition platforms : list Entry := [
  mkEntry (re ["windows nt 10"]) "Windows 10/11";
  mkEntry (re ["windows nt 6.3"]) "Windows 8.1";
  mkEntry (re ["windows nt 6.2"]) "Windows 8";
  mkEntry (re ["windows nt 6.1"]) "Windows 7";
  mkEntry (re ["windows"]) "Windows";
  mkEntry (re ["iphone"; "ipod"]) "iOS";
  mkEntry (re ["ipad"]) "iPadOS";
  mkEntry (re ["macintosh"; "mac os x"]) "macOS";
  mkEntry (re ["android"]) "Android";
  mkEntry (re ["ubuntu"]) "Ubuntu";
  mkEntry (re ["debian"]) "Debian";
  mkEntry (re ["fedora"]) "Fedora";
  mkEntry (re ["centos"]) "CentOS";
  mkEntry (re ["linux"]) "Linux";
  mkEntry (re ["chromeos"]) "Chrome OS";
  mkEntry (re ["freebsd"]) "FreeBSD";
  mkEntry (re ["openbsd"]) "OpenBSD";
  mkEntry (re ["netbsd"]) "NetBSD";
  mkEntry (re ["sunos"]) "Solaris"
].

Definition detectPlatform (userAgent : string) : string :=
  let ua := toLowerCase userAgent in
  firstMatch platforms ua.

Definition browsers : list Entry := [
  mkEntry (rei ["edg/"]) "Edge";
  mkEntry (rei ["edge/"]) "Edge Legacy";
  mkEntry (rei ["opr/"]) "Opera";
  mkEntry (rei ["brave/"]) "Brave";
  mkEntry (rei ["vivaldi/"]) "Vivaldi";
  mkEntry (rei ["chrome/"]) "Chrome";
  mkEntry (rei ["firefox/"]) "Firefox";
  mkEntry (rei ["safari/"]) "Safari";
  mkEntry (rei ["msie"; "trident"]) "Internet Explorer";
  mkEntry (rei ["samsung"]) "Samsung Internet";
  mkEntry (rei ["ucbrowser"]) "UC Browser"
].

Definition detectBrowser (userAgent : string) : string :=
  let ua := toLowerCase userAgent in
  if test (rei ["safari"]) userAgent && negb (test (rei ["chrome"]) userAgent)
  then "Safari"
  else firstMatch browsers ua.

Definition detectDeviceType (userAgent : string) : string :=
  let ua := toLowerCase userAgent in
  if test (rei ["ipad"; "tablet"; "kindle"; "playbook"; "silk"]) ua
  then "tablet"
  else if test (rei ["mobile"; "android"; "iphone"; "ipod"; "blackberry";
                     "opera mini"; "iemobile"; "wpdesktop"]) ua
  then "mobile"
  else "desktop".

Record UserAgentInfo : Type := {
  userAgent : string;
  platform : string;
  browser : string;
  deviceType : string
}.

(** [parseUserAgent()]: reads [navigator.userAgent]; naming a missing
    [navigator], a throwing getter, or calling [toLowerCase] on a missing
    user agent raises. *)
Definition parseUserAgent (env : Browser.Env) : result UserAgentInfo :=
  rbind (Browser.global "navigator" (Browser.navigator env)) (fun nav =>
  rbind (Browser.userAgent nav) (fun ua =>
  match ua with
  | None =>
      Throw (TypeError
        "Cannot read properties of undefined (reading 'toLowerCase')")
  | Some ua =>
      Ok {| userAgent := ua;
            platform := detectPlatform ua;
            browser := detectBrowser ua;
            deviceType := detectDeviceType ua |}
  end)).

End UaParser.


(* ================================================================== *)
(** ** Observable effects: the console, the requests sent, the clock   *)
(* ================================================================== *)

Module Effect.

Inductive LogArg : Type :=
| Text (s : string)
| Thrown (e : exn).

Inductive LogEntry : Type :=
| ConsoleWarn (args : list LogArg)
| ConsoleLog (args : list LogArg).

(** What a call has done so far, each entry stamped with the clock (in
    milliseconds) at which it happened. *)
Record Effects : Type := mkEffects {
  console : list (Z * LogEntry);
  requests : list (Z * string);
  clock : Z
}.

Definition start : Effects := mkEffects [] [] 0.

(** A computation that may touch the effects and either returns or
    throws (an [async] function: resolves or rejects). *)
Definition M (A : Type) : Type := Effects -> result A * Effects.

Definition ret {A} (a : A) : M A := fun s => (Ok a, s).

Definition bind {A B} (m : M A) (k : A -> M B) : M B :=
  fun s =>
    match m s with
    | (Ok a, s') => k a s'
    | (Throw e, s') => (Throw e, s')
    end.

Definition throw {A} (e : exn) : M A := fun s => (Throw e, s).

Definition lift {A} (r : result A) : M A := fun s => (r, s).

(** [try { body } catch (error) { handler }] *)
Definition tryCatch {A} (body : M A) (handler : exn -> M A) : M A :=
  fun s =>
    match body s with
    | (Ok a, s') => (Ok a, s')
    | (Throw e, s') => handler e s'
    end.

Definition emit (entry : LogEntry) : M unit :=
  fun s =>
    (Ok tt, mkEffects (console s ++ [(clock s, entry)]) (requests s) (clock s)).

Definition warn (args : list LogArg) : M unit := emit (ConsoleWarn args).
Definition log (args : list LogArg) : M unit := emit (ConsoleLog args).

(** Sending a request to [url] that settles [ms] milliseconds later. *)
Definition request (url : string) (ms : Z) : M unit :=
  fun s =>
    (Ok tt, mkEffects (console s) (requests s ++ [(clock s, url)]) (clock s + ms)).

(** Waiting for a promise that settles [ms] milliseconds later. *)
Definition wait (ms : Z) : M unit :=
  fun s => (Ok tt, mkEffects (console s) (requests s) (clock s + ms)).

End Effect.

Import Effect.

Declare Scope effect_scope.
Delimit Scope effect_scope with effect.
Notation "x <- c ;; k" :=
  (bind c (fun x => k))
  (at level 61, c at next level, right associativity) : effect_scope.
Notation "c ;; k" :=
  (bind c (fun _ => k))
  (at level 61, right associativity) : effect_scope.
Open Scope effect_scope.

(* ================================================================== *)
(** ** [src/fingerprint.ts]                                            *)
(* ================================================================== *)

Module Fingerprint.

(** An element of the [(string | number)[]] that gets hashed; a property
    the environment lacks is stored as [undefined]. *)
Inductive characteristic : Type :=
| CStr (s : string)
| CNum (n : Z)
| CUndefined.

Definition ofString (p : option string) : characteristic :=
  match p with Some s => CStr s | None => CUndefined end.

Definition ofNumber (p : option Z) : characteristic :=
  match p with Some n => CNum n | None => CUndefined end.

(** [s || fallback] on an optional string *)
Definition stringOr (p : option string) (fallback : string) : string :=
  match p with
  | Some s => if (s =? "")%string then fallback else s
  | None => fallback
  end.

(** [n || fallback] on an optional number *)
Definition numberOr (p : option Z) (fallback : characteristic) : characteristic :=
  match p with
  | Some n => if n =? 0 then fallback else CNum n
  | None => fallback
  end.

(** How [Array.prototype.join] renders an element. *)
Definition render (c : characteristic) : string :=
  match c with
  | CStr s => s
  | CNum n => decimal n
  | CUndefined => ""
  end.

(** The loop [hash = ((hash << 5) - hash) + char; hash = hash & hash]
    over the code units of [data]. *)
Definition rollingHash (data : string) : Z :=
  fold_left
    (fun hash char =>
       toInt32 ((toInt32 (hash * 32) - hash) + Z.of_nat (nat_of_ascii char)))
    (list_ascii_of_string data) 0.

Definition hashCharacteristics (characteristics : list characteristic) : string :=
  let fingerprintData := String.concat "|" (map render characteristics) in
  let hash := rollingHash fingerprintData in
  toString16 (Z.abs hash).

Definition getFastFingerprint (env : Browser.Env) : result string :=
  let* nav := Browser.global "navigator" (Browser.navigator env) in
  let* userAgent := Browser.userAgent nav in
  let* language := Browser.language nav in
  let* platform := Browser.platform nav in
  let* scr := Browser.global "screen" (Browser.screen env) in
  let* width := Browser.width scr in
  let* height := Browser.height scr in
  let* colorDepth := Browser.colorDepth scr in
  let* hardwareConcurrency := Browser.hardwareConcurrency nav in
  let* maxTouchPoints := Browser.maxTouchPoints nav in
  Ok (hashCharacteristics [
    ofString userAgent;
    ofString language;
    ofString platform;
    ofNumber width;
    ofNumber height;
    ofNumber colorDepth;
    CNum (Browser.timezoneOffset env);
    numberOr hardwareConcurrency (CStr "unknown");
    numberOr maxTouchPoints (CNum 0)
  ]).

Definition getBasicCharacteristics (env : Browser.Env)
  : result (list characteristic) :=
  let* nav := Browser.global "navigator" (Browser.navigator env) in
  let* userAgent := Browser.userAgent nav in
  let* language := Browser.language nav in
  let* languages := Browser.languages nav in
  let* platform := Browser.platform nav in
  let* cookieEnabled := Browser.cookieEnabled nav in
  let* doNotTrack := Browser.doNotTrack nav in
  let* scr := Browser.global "screen" (Browser.screen env) in
  let* width := Browser.width scr in
  let* height := Browser.height scr in
  let* colorDepth := Browser.colorDepth scr in
  let* pixelDepth := Browser.pixelDepth scr in
  let* hardwareConcurrency := Browser.hardwareConcurrency nav in
  let* maxTouchPoints := Browser.maxTouchPoints nav in
  let* vendorSub := Browser.vendorSub nav in
  let* productSub := Browser.productSub nav in
  Ok [
    ofString userAgent;
    ofString language;
    CStr (stringOr (option_map (String.concat ",") languages) "");
    ofString platform;
    CStr (match cookieEnabled with Some true => "true" | _ => "false" end);
    CStr (stringOr doNotTrack "");
    ofNumber width;
    ofNumber height;
    ofNumber colorDepth;
    ofNumber pixelDepth;
    CNum (Browser.timezoneOffset env);
    numberOr hardwareConcurrency (CNum 0);
    numberOr maxTouchPoints (CNum 0);
    CStr (stringOr vendorSub "");
    CStr (stringOr productSub "")
  ].

(** [try { ... } catch { return sentinel }] around a probe *)
Definition orSentinel (probe : result string) (sentinel : string) : string :=
  match probe with
  | Ok s => s
  | Throw _ => sentinel
  end.

Definition getCanvasFingerprint (env : Browser.Env) : string :=
  orSentinel
    (let* canvas := Browser.createCanvas env in
     let* ctx := Browser.getContext2d canvas in
     match ctx with
     | None => Ok "no-canvas"
     | Some ctx =>
         let* _ := Browser.draw ctx in
         Browser.toDataURL canvas
     end)
    "canvas-error".

Definition getWebGLFingerprint (env : Browser.Env) : string :=
  orSentinel
    (let* canvas := Browser.createCanvas env in
     let* gl := Browser.getContextWebgl canvas in
     match gl with
     | None => Ok "no-webgl"
     | Some gl =>
         let* info := Browser.getExtension gl in
         match info with
         | None => Ok "no-webgl-info"
         | Some info =>
             let* vendor := Browser.unmaskedVendor info in
             let* renderer := Browser.unmaskedRenderer info in
             Ok (vendor ++ "~" ++ renderer)
         end
     end)
    "webgl-error".

Definition fontList : list string := [
  "Arial"; "Arial Black"; "Arial Narrow"; "Comic Sans MS"; "Courier";
  "Courier New"; "Georgia"; "Helvetica"; "Impact"; "Lucida Console";
  "Times"; "Times New Roman"; "Trebuchet MS"; "Verdana"
].

(** The loop over [fontList]: a font is available when the probe text is
    not as wide as under the bare monospace font. *)
Fixpoint probeFonts (context : Browser.Context2D) (baseWidth : number)
    (fonts : list string) : result (list string) :=
  match fonts with
  | [] => Ok []
  | font :: rest =>
      let* width := Browser.measureText context ("72px" ++ " " ++ font ++ ", monospace") in
      let* availableFonts := probeFonts context baseWidth rest in
      Ok (if strictNeq width baseWidth
          then font :: availableFonts
          else availableFonts)
  end.

Definition getFontFingerprint (env : Browser.Env) : string :=
  orSentinel
    (let* canvas := Browser.createCanvas env in
     let* context := Browser.getContext2d canvas in
     match context with
     | None => Ok "no-canvas"
     | Some context =>
         let* baseWidth := Browser.measureText context ("72px" ++ " monospace") in
         let* availableFonts := probeFonts context baseWidth fontList in
         Ok (String.concat "," availableFonts)
     end)
    "font-error".

Definition getComprehensiveFingerprint (env : Browser.Env) : result string :=
  let* basic := getBasicCharacteristics env in
  Ok (hashCharacteristics
        (basic ++ [CStr (getCanvasFingerprint env);
                   CStr (getWebGLFingerprint env);
                   CStr (getFontFingerprint env)])).

(** [getFingerprint(comprehensive = false)]; the argument is [None] when
    the caller passes none. Whatever the chosen strategy throws is caught
    and thrown again under the library's own message. *)
Definition getFingerprint (env : Browser.Env) (comprehensive : option bool)
  : result string :=
  let comprehensive := match comprehensive with Some b => b | None => false end in
  match (if comprehensive
         then getComprehensiveFingerprint env
         else getFastFingerprint env) with
  | Ok fingerprint => Ok fingerprint
  | Throw (JsError _ message) =>
      Throw (Error ("Fingerprint generation failed: " ++ message))
  | Throw (JsThrown _) =>
      Throw (Error "Fingerprint generation failed: Unknown error")
  end.

End Fingerprint.

(* ================================================================== *)
(** ** The ClientJS-delegating variant of [fingerprint.ts]             *)
(* ================================================================== *)

Module FingerprintClientJS.

(** [fingerprint.toString()] *)
Definition toStringOf (fingerprint : Browser.RawFingerprint) : result string :=
  match fingerprint with
  | Browser.RawString s => Ok s
  | Browser.RawNumber n => Ok (decimal n)
  | Browser.RawNull =>
      Throw (TypeError "Cannot read properties of null (reading 'toString')")
  | Browser.RawUndefined =>
      Throw (TypeError "Cannot read properties of undefined (reading 'toString')")
  end.

Definition components (env : Browser.Env) : result (list Fingerprint.characteristic) :=
  let* nav := Browser.global "navigator" (Browser.navigator env) in
  let* userAgent := Browser.userAgent nav in
  let* language := Browser.language nav in
  let* scr := Browser.global "screen" (Browser.screen env) in
  let* width := Browser.width scr in
  let* height := Browser.height scr in
  let* colorDepth := Browser.colorDepth scr in
  let* platform := Browser.userAgentDataPlatform nav in
  Ok [
    Fingerprint.CStr (Fingerprint.stringOr userAgent "unknown");
    Fingerprint.CStr (Fingerprint.stringOr language "unknown");
    Fingerprint.numberOr width (Fingerprint.CNum 0);
    Fingerprint.numberOr height (Fingerprint.CNum 0);
    Fingerprint.numberOr colorDepth (Fingerprint.CNum 0);
    Fingerprint.CNum (Browser.timezoneOffset env);
    Fingerprint.CStr (Fingerprint.stringOr platform "unknown-platform")
  ].

Definition generateFallbackFingerprint (env : Browser.Env) : M string :=
  tryCatch
    (components <- lift (components env) ;;
     let combined := String.concat "|" (map Fingerprint.render components) in
     let hash := Fingerprint.rollingHash combined in
     ret (toString16 (Z.abs hash)))
    (fun error =>
       warn [Text "Fallback fingerprinting also failed:"; Thrown error] ;;
       ret ("fallback_" ++ toString16 (Browser.now env))).

Definition getFingerprint (env : Browser.Env) : M string :=
  tryCatch
    (fingerprint <- lift (Browser.clientJS env) ;;
     fingerprintString <- lift (toStringOf fingerprint) ;;
     if (fingerprintString =? "")%string
     then throw (Error "Generated fingerprint is empty")
     else ret fingerprintString)
    (fun error =>
       warn [Text "Browser fingerprinting failed:"; Thrown error] ;;
       generateFallbackFingerprint env).

End FingerprintClientJS.

(* ================================================================== *)
(** ** [src/location.ts]                                               *)
(* ================================================================== *)

Module Location.

(** The object a provider's parser builds. Its fields hold whatever the
    provider's JSON held; a property the object literal does not set
    reads as [undefined]. *)
Record LocationData : Type := {
  ip : value;
  country : value;
  city : value;
  latitude : value;
  longitude : value
}.

Record LocationProvider : Type := {
  name : string;
  url : string;
  parser : value -> LocationData
}.

Definition LOCATION_PROVIDERS : list LocationProvider := [
  {| name := "ipapi.co";
     url := "https://ipapi.co/json/";
     parser := fun data =>
       {| ip := VUndefined;
          country := or (get data "country_name") (get data "country");
          city := get data "city";
          latitude := get data "latitude";
          longitude := get data "longitude" |} |};
  {| name := "ip-api.com";
     url := "http://ip-api.com/json/";
     parser := fun data =>
       {| ip := VUndefined;
          country := get data "country";
          city := get data "city";
          latitude := get data "lat";
          longitude := get data "lon" |} |}
].

Definition REQUEST_TIMEOUT : Z := 5000.

(** A response: [json] is the method [response.json()], an asynchronous
    read of the body. *)
Record Response : Type := {
  ok : bool;
  status : Z;
  statusText : string;
  json : M value
}.

(** [new AbortController()], [setTimeout(() => controller.abort(),
    REQUEST_TIMEOUT)], [await fetch(url, { signal, headers })] and
    [clearTimeout(timeoutId)]. When the promise of [fetch] has not settled
    after [REQUEST_TIMEOUT] the controller aborts the request and the
    promise rejects with an [AbortError]. When it resolves in time the
    timer is cleared: reading the body, later, is under no timer. *)
Definition fetch (network : string -> Browser.Exchange) (url : string)
  : M Response :=
  let exchange := network url in
  if REQUEST_TIMEOUT <? Browser.latency exchange
  then
    request url REQUEST_TIMEOUT ;;
    throw (JsError "AbortError" "The operation was aborted.")
  else
    request url (Browser.latency exchange) ;;
    match Browser.outcome exchange with
    | Browser.FetchRejected e => throw e
    | Browser.FetchResponded ok status statusText body =>
        ret {| ok := ok; status := status; statusText := statusText;
               json := wait (Browser.bodyLatency exchange) ;; lift body |}
    end.

Definition fetchFromProvider (network : string -> Browser.Exchange)
    (provider : LocationProvider) : M (option LocationData) :=
  tryCatch
    (response <- fetch network (url provider) ;;
     if negb (ok response)
     then throw (Error ("HTTP " ++ decimal (status response) ++ ": "
                        ++ statusText response))
     else
       data <- json response ;;
       if negb (truthy data) || negb (typeofObject data)
       then throw (Error "Invalid response data format")
       else
         let locationData := parser provider data in
         if negb (truthy (country locationData))
            || negb (truthy (city locationData))
         then throw (Error "Missing required location fields")
         else ret (Some locationData))
    (fun error =>
       match error with
       | JsError errorName message =>
           if (errorName =? "AbortError")%string
           then warn [Text ("Location request to " ++ name provider
                            ++ " timed out after " ++ decimal REQUEST_TIMEOUT
                            ++ "ms")]
           else warn [Text ("Failed to fetch location from " ++ name provider
                            ++ ":");
                      Text message]
       | JsThrown _ =>
           warn [Text ("Unknown error fetching location from "
                       ++ name provider ++ ":");
                 Thrown error]
       end ;;
       ret None).

Definition validateLocationData (location : LocationData) : bool :=
  if negb (truthy (country location)) || negb (truthy (city location))
  then false
  else if defined (latitude location) || defined (longitude location)
  then
    match latitude location, longitude location with
    | VNum lat, VNum lon =>
        if isNaN lat || isNaN lon
           || lt lat (ofZ (-90)) || gt lat (ofZ 90)
           || lt lon (ofZ (-180)) || gt lon (ofZ 180)
        then false
        else true
    | _, _ => false
    end
  else true.

(** [for (const provider of providers) { ... }] followed by the final
    warning *)
Fixpoint tryProviders (network : string -> Browser.Exchange)
    (providers : list LocationProvider) : M (option LocationData) :=
  match providers with
  | [] =>
      warn [Text "All location providers failed. Location data unavailable."] ;;
      ret None
  | provider :: rest =>
      locationData <- fetchFromProvider network provider ;;
      match locationData with
      | Some data =>
          if validateLocationData data
          then
            log [Text ("Successfully retrieved location from "
                       ++ name provider)] ;;
            ret (Some data)
          else tryProviders network rest
      | None => tryProviders network rest
      end
  end.

Definition getLocation (network : string -> Browser.Exchange)
  : M (option LocationData) :=
  tryProviders network LOCATION_PROVIDERS.

(** What a call has added to a log that held [before] when it began. *)
Definition added {A} (before after : list A) : list A :=
  skipn (length before) after.

(** [Promise.race([getLocation(), timer])], with the effects visible when
    the race settles. [getLocation()] is called first and runs on
    whatever the timer does. The provider sequence wins the race when it
    settles before the timer is due; otherwise the timer resolves the race
    to [undefined], and of what the abandoned sequence does only what it
    did before that is visible. When both are due in the same millisecond
    the order is up to the event loop; the timer is given precedence
    here. *)
Definition getLocationWithTimeout (network : string -> Browser.Exchange)
    (timeoutMs : Z) : M (option LocationData) :=
  fun s =>
    let (settled, s') := getLocation network s in
    let deadline := clock s + timerDelay timeoutMs in
    if clock s' <? deadline
    then (settled, s')
    else
      (Ok None,
       mkEffects
         (console s
          ++ filter (fun entry => fst entry <? deadline)
                    (added (console s) (console s'))
          ++ [(deadline,
               ConsoleWarn [Text ("Location request timed out after "
                                  ++ decimal timeoutMs ++ "ms")])])
         (requests s
          ++ filter (fun entry => fst entry <? deadline)
                    (added (requests s) (requests s')))
         deadline).

End Location.

(* ================================================================== *)
(** ** [src/metadata.ts]                                               *)
(* ================================================================== *)

Module Metadata.

Record Options : Type := {
  includeLocation : option bool;
  includeFingerprint : option bool;
  locationTimeout : option Z
}.

(** [collectMetadata()] without an argument: [options = {}] *)
Definition noOptions : Options :=
  {| includeLocation := None; includeFingerprint := None;
     locationTimeout := None |}.

(** [{ key = dflt } = options] *)
Definition orDefault {A} (given : option A) (dflt : A) : A :=
  match given with Some a => a | None => dflt end.

(** The [location] object of the result; a coordinate key is there only
    when the coordinate is not [undefined]. *)
Record LocationInfo : Type := {
  country : value;
  city : value;
  latitude : option value;
  longitude : option value
}.

(** The resolved object. [ipAddress] is a key the object literal always
    sets, to whatever the expression evaluates to; [fingerprint] and
    [location] are keys that may be missing. *)
Record ClientMetadata : Type := {
  userAgent : string;
  platform : string;
  browser : string;
  deviceType : string;
  ipAddress : value;
  fingerprint : option string;
  location : option LocationInfo
}.

Inductive Settled (A : Type) : Type :=
| Fulfilled (v : A)
| Rejected (reason : exn).
Arguments Fulfilled {A} v.
Arguments Rejected {A} reason.

(** One promise under [Promise.allSettled]. *)
Definition settle {A} (promise : M A) : M (Settled A) :=
  fun s =>
    match promise s with
    | (Ok a, s') => (Ok (Fulfilled a), s')
    | (Throw e, s') => (Ok (Rejected e), s')
    end.

Definition present (v : value) : option value :=
  if defined v then Some v else None.

(** [collectMetadata(options = {})].

    [getLocation(locationTimeout)] hands [getLocation] an argument it does
    not declare, so nothing reaches it. Both promises are created before
    either runs on: [getLocation()] is called first and sends its first
    request at once, then the fingerprint callback runs as a microtask,
    before any task in which a response of the network arrives. The console
    line of the callback is therefore written here ahead of the lines of the
    provider sequence; where exactly it falls among them when an attempt
    fails without waiting for the network depends on the order of the
    microtasks and is not modelled. *)
Definition collectMetadata (env : Browser.Env) (options : Options)
  : M ClientMetadata :=
  let includeLocation := orDefault (includeLocation options) false in
  let includeFingerprint := orDefault (includeFingerprint options) true in
  let locationTimeout := orDefault (locationTimeout options) 2000 in
  uaInfo <- lift (UaParser.parseUserAgent env) ;;
  fingerprint <-
    settle
      (if includeFingerprint
       then
         tryCatch
           (fp <- lift (Fingerprint.getFingerprint env (Some false)) ;;
            ret (Some fp))
           (fun error =>
              warn [Text "Failed to generate fingerprint:"; Thrown error] ;;
              ret None)
       else ret None) ;;
  locationData <-
    settle
      (if includeLocation
       then (fun _ => Location.getLocation (Browser.network env)) locationTimeout
       else ret None) ;;
  let location :=
    match locationData with Fulfilled v => v | Rejected _ => None end in
  let fp :=
    match fingerprint with Fulfilled v => v | Rejected _ => None end in
  ret {| userAgent := UaParser.userAgent uaInfo;
         platform := UaParser.platform uaInfo;
         browser := UaParser.browser uaInfo;
         deviceType := UaParser.deviceType uaInfo;
         ipAddress :=
           match location with
           | Some l => Location.ip l
           | None => VStr ""
           end;
         fingerprint :=
           match fp with
           | Some fp => if (fp =? "")%string then None else Some fp
           | None => None
           end;
         location :=
           match location with
           | Some l =>
               Some {| country := Location.country l;
                       city := Location.city l;
                       latitude := present (Location.latitude l);
                       longitude := present (Location.longitude l) |}
           | None => None
           end |}.

End Metadata.

(* ================================================================== *)
(** ** Vocabulary of the statements                                    *)
(* ================================================================== *)

Module Spec.

(** The user agent [ua] contains [marker], letter case apart. *)
Definition contains (marker ua : string) : bool := test (rei [marker]) ua.

(** A pattern made of ASCII code units none of which is a capital. *)
Definition plain (p : string) : bool :=
  forallb (fun c => let n := nat_of_ascii c in
                    (n <? 128)%nat && negb (between 65 90 n))
          (list_ascii_of_string p).

(** [e], read on the original user agent, letter case apart. *)
Definition matches (e : UaParser.Entry) (ua : string) : bool :=
  test (rei (alternatives (UaParser.pattern e))) ua.

Definition isOk {A} (r : result A) : bool :=
  match r with Ok _ => true | Throw _ => false end.

(** No entry of [table] matches [s] with the pattern as it is written. *)
Definition unmatched (table : list UaParser.Entry) (s : string) : bool :=
  forallb (fun e => negb (test (UaParser.pattern e) s)) table.

(** Every alternative of the entry's pattern is plain. *)
Definition plainEntry (e : UaParser.Entry) : bool :=
  forallb plain (alternatives (UaParser.pattern e)).

(** The Chrome OS entry of the platform table. *)
Definition chromeOsEntry : UaParser.Entry :=
  UaParser.mkEntry (re ["chromeos"]) "Chrome OS".

(** Every read [getFastFingerprint] makes of the environment succeeds. *)
Definition fastReadable (env : Browser.Env) : bool :=
  match Browser.navigator env, Browser.screen env with
  | Some nav, Some scr =>
      isOk (Browser.userAgent nav) && isOk (Browser.language nav)
      && isOk (Browser.platform nav)
      && isOk (Browser.width scr) && isOk (Browser.height scr)
      && isOk (Browser.colorDepth scr)
      && isOk (Browser.hardwareConcurrency nav)
      && isOk (Browser.maxTouchPoints nav)
  | _, _ => false
  end.

(** Every read [getBasicCharacteristics] makes of the environment succeeds. *)
Definition basicReadable (env : Browser.Env) : bool :=
  match Browser.navigator env, Browser.screen env with
  | Some nav, Some scr =>
      isOk (Browser.userAgent nav) && isOk (Browser.language nav)
      && isOk (Browser.languages nav) && isOk (Browser.platform nav)
      && isOk (Browser.cookieEnabled nav) && isOk (Browser.doNotTrack nav)
      && isOk (Browser.width scr) && isOk (Browser.height scr)
      && isOk (Browser.colorDepth scr) && isOk (Browser.pixelDepth scr)
      && isOk (Browser.hardwareConcurrency nav)
      && isOk (Browser.maxTouchPoints nav)
      && isOk (Browser.vendorSub nav) && isOk (Browser.productSub nav)
  | _, _ => false
  end.

(** What [provider] yields on [network], whatever was done before. *)
Definition attempt (network : string -> Browser.Exchange)
    (provider : Location.LocationProvider) : option Location.LocationData :=
  match fst (Location.fetchFromProvider network provider start) with
  | Ok yielded => yielded
  | Throw _ => None
  end.

(** [provider] yields a record that passes validation. *)
Definition accepted (network : string -> Browser.Exchange)
    (provider : Location.LocationProvider) : bool :=
  match attempt network provider with
  | Some data => Location.validateLocationData data
  | None => false
  end.

(** The record of the first accepted provider of the list, if any. *)
Fixpoint firstAccepted (network : string -> Browser.Exchange)
    (providers : list Location.LocationProvider)
  : option Location.LocationData :=
  match providers with
  | [] => None
  | provider :: rest =>
      if accepted network provider
      then attempt network provider
      else firstAccepted network rest
  end.

(** The providers of the list up to and including the first accepted one. *)
Fixpoint consulted (network : string -> Browser.Exchange)
    (providers : list Location.LocationProvider)
  : list Location.LocationProvider :=
  match providers with
  | [] => []
  | provider :: rest =>
      provider :: (if accepted network provider
                   then []
                   else consulted network rest)
  end.

(** The record [getLocation] resolves to under [options], if location is
    asked for at all. *)
Definition resolvedLocation (env : Browser.Env) (options : Metadata.Options)
  : option Location.LocationData :=
  if Metadata.orDefault (Metadata.includeLocation options) false
  then firstAccepted (Browser.network env) Location.LOCATION_PROVIDERS
  else None.

(** The string [getFingerprint(false)] returns under [options], if a
    fingerprint is asked for and the call does not raise. *)
Definition resolvedFingerprint (env : Browser.Env) (options : Metadata.Options)
  : option string :=
  if Metadata.orDefault (Metadata.includeFingerprint options) true
  then match Fingerprint.getFingerprint env (Some false) with
       | Ok fingerprint => Some fingerprint
       | Throw _ => None
       end
  else None.

(** The resolved record as the ClientMetadata interface declares it:
    [ipAddress] holds a string. *)
Definition ipAddressIsString (metadata : Metadata.ClientMetadata) : bool :=
  match Metadata.ipAddress metadata with VStr _ => true | _ => false end.

End Spec.

Import Spec.

(* ================================================================== *)
(** ** Sample inputs                                                   *)
(* ================================================================== *)

Module Sample.

(** Samsung Internet on Android, the user agent of the parser's test suite. *)
Definition samsungInternet : string :=
  "Mozilla/5.0 (Linux; Android 11; SM-G991B) AppleWebKit/537.36 (KHTML, like Gecko) SamsungBrowser/14.2 Chrome/87.0.4280.141 Mobile Safari/537.36".

(** A user agent that names both Linux and Chrome OS. *)
Definition linuxChromeOs : string :=
  "Mozilla/5.0 (X11; Linux x86_64; ChromeOS 14541.0.0) AppleWebKit/537.36 (KHTML, like Gecko) Chrome/91.0.4472.124 Safari/537.36".

(** A user agent that names Chrome OS and none of the other platforms. *)
Definition chromeOsOnly : string :=
  "Mozilla/5.0 (X11; ChromeOS x86_64 14541.0.0) AppleWebKit/537.36 (KHTML, like Gecko) Chrome/91.0.4472.124 Safari/537.36".

(** A WebKit user agent that mentions Chrome without a version. *)
Definition safariOnChromebook : string :=
  "Mozilla/5.0 (X11; Chromebook) AppleWebKit/605.1.15 (KHTML, like Gecko) Version/14.1.1 Safari/605.1.15".

(** A network on which every request fails. *)
Definition offline : string -> Browser.Exchange :=
  fun _ => {| Browser.latency := 10;
              Browser.bodyLatency := 0;
              Browser.outcome := Browser.FetchRejected (Error "Network error") |}.

(** A canvas as jsdom provides it: no rendering context of any kind. *)
Definition blankCanvas : Browser.Canvas :=
  {| Browser.getContext2d := Ok None;
     Browser.getContextWebgl := Ok None;
     Browser.toDataURL := Ok "data:," |}.

(** The environment the test setup installs. *)
Definition desktop : Browser.Env :=
  {| Browser.navigator := Some
       {| Browser.userAgent := Ok (Some
            "Mozilla/5.0 (Macintosh; Intel Mac OS X 10_15_7) AppleWebKit/537.36 (KHTML, like Gecko) Chrome/91.0.4472.124 Safari/537.36");
          Browser.language := Ok (Some "en-US");
          Browser.languages := Ok (Some ["en-US"; "en"]);
          Browser.platform := Ok (Some "MacIntel");
          Browser.cookieEnabled := Ok (Some true);
          Browser.doNotTrack := Ok None;
          Browser.hardwareConcurrency := Ok (Some 8);
          Browser.maxTouchPoints := Ok (Some 0);
          Browser.vendorSub := Ok None;
          Browser.productSub := Ok None;
          Browser.userAgentDataPlatform := Ok (Some "macOS") |};
     Browser.screen := Some
       {| Browser.width := Ok (Some 1920);
          Browser.height := Ok (Some 1080);
          Browser.colorDepth := Ok (Some 24);
          Browser.pixelDepth := Ok (Some 24) |};
     Browser.createCanvas := Ok blankCanvas;
     Browser.timezoneOffset := -120;
     Browser.now := 1700000000000;
     Browser.clientJS := Ok (Browser.RawNumber 123456789);
     Browser.network := offline |}.

(** No browser globals at all, as under server-side rendering. *)
Definition serverSide : Browser.Env :=
  {| Browser.navigator := None;
     Browser.screen := None;
     Browser.createCanvas := Throw (ReferenceError "document");
     Browser.timezoneOffset := 0;
     Browser.now := 1700000000000;
     Browser.clientJS := Throw (ReferenceError "window");
     Browser.network := offline |}.

(** A record with country and city, and the given coordinates. *)
Definition place (lat lon : value) : Location.LocationData :=
  {| Location.ip := VUndefined;
     Location.country := VStr "Test Country";
     Location.city := VStr "Test City";
     Location.latitude := lat;
     Location.longitude := lon |}.

(** An exchange that ends, after 10 ms, with a 200 response carrying
    [body] (read at once), with the response [status statusText], or with a
    rejection. *)
Definition responding (body : value) : Browser.Exchange :=
  {| Browser.latency := 10;
     Browser.bodyLatency := 0;
     Browser.outcome := Browser.FetchResponded true 200 "OK" (Ok body) |}.

Definition refusing (status : Z) (statusText : string) : Browser.Exchange :=
  {| Browser.latency := 10;
     Browser.bodyLatency := 0;
     Browser.outcome :=
       Browser.FetchResponded false status statusText (Ok VNull) |}.

Definition failing (e : exn) : Browser.Exchange :=
  {| Browser.latency := 10;
     Browser.bodyLatency := 0;
     Browser.outcome := Browser.FetchRejected e |}.

(** The network on which the two providers behave as given. *)
Definition providers (first second : Browser.Exchange)
  : string -> Browser.Exchange :=
  fun url => if (url =? "https://ipapi.co/json/")%string then first else second.

(** The body ip-api.com answers with in the test suite. *)
Definition toronto : value :=
  VObj [("country", VStr "Canada");
        ("city", VStr "Toronto");
        ("lat", VNum (Fin 43.6532%Q));
        ("lon", VNum (Fin (-79.3832)%Q))].

(** The body ipapi.co answers with. *)
Definition newYork : value :=
  VObj [("ip", VStr "203.0.113.7");
        ("country_name", VStr "United States");
        ("city", VStr "New York");
        ("latitude", VNum (Fin 40.7128%Q));
        ("longitude", VNum (Fin (-74.006)%Q))].

(** A network on which the first provider answers after [ms] milliseconds
    and the second cannot be reached. *)
Definition answering (ms : Z) : string -> Browser.Exchange :=
  fun url =>
    if (url =? "https://ipapi.co/json/")%string
    then {| Browser.latency := ms;
            Browser.bodyLatency := 0;
            Browser.outcome :=
              Browser.FetchResponded true 200 "OK" (Ok newYork) |}
    else offline url.

Definition withNetwork (env : Browser.Env)
    (network : string -> Browser.Exchange) : Browser.Env :=
  {| Browser.navigator := Browser.navigator env;
     Browser.screen := Browser.screen env;
     Browser.createCanvas := Browser.createCanvas env;
     Browser.timezoneOffset := Browser.timezoneOffset env;
     Browser.now := Browser.now env;
     Browser.clientJS := Browser.clientJS env;
     Browser.network := network |}.

(** [{ includeLocation: true, locationTimeout: ms }] *)
Definition withLocation (ms : option Z) : Metadata.Options :=
  {| Metadata.includeLocation := Some true;
     Metadata.includeFingerprint := None;
     Metadata.locationTimeout := ms |}.

End Sample.

(* ================================================================== *)
(** ** The React hook [useClientMetadata]                            *)
(* ================================================================== *)

Module ReactHook.

Record UseClientMetadataOptions : Type := {
  includeLocation : option bool;
  includeFingerprint : option bool;
  locationTimeout : option Z;
  immediate : option bool
}.

(** The three [useState] cells of the hook. *)
Record HookState : Type := {
  metadata : option Metadata.ClientMetadata;
  loading : bool;
  error : option string
}.

Definition setMetadata (v : option Metadata.ClientMetadata) (st : HookState)
  : HookState :=
  {| metadata := v; loading := loading st; error := error st |}.

Definition setLoading (v : bool) (st : HookState) : HookState :=
  {| metadata := metadata st; loading := v; error := error st |}.

Definition setError (v : option string) (st : HookState) : HookState :=
  {| metadata := metadata st; loading := loading st; error := v |}.

(** The cells as [useState] initialises them. *)
Definition initialState (options : UseClientMetadataOptions) : HookState :=
  {| metadata := None;
     loading := Metadata.orDefault (immediate options) true;
     error := None |}.

(** [collectData]: the state updates it makes, in order, around the call of
    [collectMetadata]; [try], [catch] and [finally]. *)
Definition collectData (env : Browser.Env) (options : UseClientMetadataOptions)
    (st : HookState) : M HookState :=
  let includeLocation := Metadata.orDefault (includeLocation options) false in
  let includeFingerprint :=
    Metadata.orDefault (includeFingerprint options) true in
  let locationTimeout := Metadata.orDefault (locationTimeout options) 2000 in
  let st := setLoading true st in
  let st := setError None st in
  st <-
    tryCatch
      (data <- Metadata.collectMetadata env
                 {| Metadata.includeLocation := Some includeLocation;
                    Metadata.includeFingerprint := Some includeFingerprint;
                    Metadata.locationTimeout := Some locationTimeout |} ;;
       ret (setMetadata (Some data) st))
      (fun err =>
         let errorMessage :=
           match err with
           | JsError _ message => message
           | JsThrown _ => "Unknown error occurred"
           end in
         warn [Text "Failed to collect client metadata:"; Thrown err] ;;
         ret (setMetadata None (setError (Some errorMessage) st))) ;;
  ret (setLoading false st).

(** The state after the mount effect has run to its end: [collectData] when
    [immediate], nothing otherwise. *)
Definition useClientMetadata (env : Browser.Env)
    (options : UseClientMetadataOptions) : M HookState :=
  if Metadata.orDefault (immediate options) true
  then collectData env options (initialState options)
  else ret (initialState options).

End ReactHook.

(* ================================================================== *)
(** ** [src/location.ts], continued: [isLocationServiceAvailable]      *)
(* ================================================================== *)

Module LocationService.

(** [window.location], as far as the probe reads it: two properties, each
    holding whatever the host has put there. *)
Record PageLocation : Type := {
  protocol : value;
  hostname : value
}.

(** [window.location] is [None] when it is missing ([undefined], [null]). *)
Record Window : Type := {
  location : option PageLocation
}.

(** The two globals the probe asks for: [typeof window] and [typeof fetch]
    are ['undefined'] when they do not exist. *)
Record Globals : Type := {
  window : option Window;
  fetchDefined : bool
}.

(** [receiver.startsWith(searchString)]: a method strings have; on
    [undefined] and [null] reading it throws, on any other value it is
    [undefined] and calling it throws. *)
Definition startsWith (receiver : value) (searchString : string)
  : result bool :=
  match receiver with
  | VStr s => Ok (prefix searchString s)
  | VUndefined =>
      Throw (TypeError
        "Cannot read properties of undefined (reading 'startsWith')")
  | VNull =>
      Throw (TypeError "Cannot read properties of null (reading 'startsWith')")
  | _ => Throw (TypeError "window.location.protocol.startsWith is not a function")
  end.

(** [v !== s] for a string [s] *)
Definition isNot (v : value) (s : string) : bool :=
  match v with
  | VStr s' => negb (s' =? s)%string
  | _ => true
  end.

Definition isLocationServiceAvailable (globals : Globals) : M bool :=
  match window globals with
  | None => ret false
  | Some win =>
      if negb (fetchDefined globals)
      then ret false
      else
        match location win with
        | Some loc =>
            secure <- lift (startsWith (protocol loc) "https:") ;;
            if negb secure && isNot (hostname loc) "localhost"
            then warn [Text "Location services may not work reliably on non-HTTPS sites"]
            else ret tt
        | None => ret tt
        end ;;
        ret true
  end.

End LocationService.

(* ================================================================== *)
(** ** Further vocabulary and sample inputs                            *)
(* ================================================================== *)

Module Notions.

(** One of [0-9a-f]. *)
Definition isLowerHex (c : ascii) : bool :=
  let n := nat_of_ascii c in between 48 57 n || between 97 102 n.

(** The value of a hexadecimal digit. *)
Definition hexValueOf (c : ascii) : Z :=
  let n := Z.of_nat (nat_of_ascii c) in
  if n <? 58 then n - 48 else n - 87.

(** [parseInt(s, 16)] for a string of hexadecimal digits. *)
Definition parseHex (s : string) : Z :=
  fold_left (fun v c => 16 * v + hexValueOf c) (list_ascii_of_string s) 0.

(** The code unit of a character, as [charCodeAt] gives it. *)
Definition charCode (c : ascii) : Z := Z.of_nat (nat_of_ascii c).

(** A signed 32-bit integer. *)
Definition int32 (z : Z) : Prop := -2147483648 <= z < 2147483648.

(** The user agent carries one of the tablet markers of
    [detectDeviceType]. *)
Definition tabletMarked (ua : string) : bool :=
  contains "ipad" ua || contains "tablet" ua || contains "kindle" ua
  || contains "playbook" ua || contains "silk" ua.

(** The user agent carries one of the mobile markers. *)
Definition mobileMarked (ua : string) : bool :=
  contains "mobile" ua || contains "android" ua || contains "iphone" ua
  || contains "ipod" ua || contains "blackberry" ua
  || contains "opera mini" ua || contains "iemobile" ua
  || contains "wpdesktop" ua.

(** The five names the platform table gives to Windows. *)
Definition windowsNames : list string :=
  ["Windows 10/11"; "Windows 8.1"; "Windows 8"; "Windows 7"; "Windows"].

(** The warning that closes a provider sequence in which every provider
    failed. *)
Definition allFailed : LogEntry :=
  ConsoleWarn [Text "All location providers failed. Location data unavailable."].

(** The first accepted provider of the list, if any. *)
Fixpoint winner (network : string -> Browser.Exchange)
    (providers : list Location.LocationProvider)
  : option Location.LocationProvider :=
  match providers with
  | [] => None
  | provider :: rest =>
      if accepted network provider then Some provider
      else winner network rest
  end.

(** The console line that closes a provider sequence. *)
Definition closing (network : string -> Browser.Exchange)
    (providers : list Location.LocationProvider) : LogEntry :=
  match winner network providers with
  | Some provider =>
      ConsoleLog [Text ("Successfully retrieved location from "
                        ++ Location.name provider)]
  | None => allFailed
  end.

(** A warning other than the closing one. *)
Definition attemptWarning (entry : Z * LogEntry) : Prop :=
  exists args, snd entry = ConsoleWarn args /\ ConsoleWarn args <> allFailed.

(** The coordinates of a record are both missing, or both finite numbers
    within the bounds of latitude and longitude. *)
Definition coordinatesOk (lat lon : value) : Prop :=
  (lat = VUndefined /\ lon = VUndefined)
  \/ exists x y, lat = VNum (Fin x) /\ lon = VNum (Fin y)
                 /\ (-90 <= x <= 90)%Q /\ (-180 <= y <= 180)%Q.

(** The effects once the fingerprint callback of [collectMetadata] has
    run: unchanged, or one warning more when [getFingerprint] was called and
    raised. *)
Definition afterFingerprint (env : Browser.Env) (options : Metadata.Options)
    (s : Effects) : Effects :=
  if Metadata.orDefault (Metadata.includeFingerprint options) true
  then match Fingerprint.getFingerprint env (Some false) with
       | Ok _ => s
       | Throw e =>
           mkEffects
             (console s
              ++ [(clock s,
                   ConsoleWarn [Text "Failed to generate fingerprint:";
                                Thrown e])])
             (requests s) (clock s)
       end
  else s.

(** The message the hook keeps of what [collectMetadata] rejected with. *)
Definition messageOf (e : exn) : string :=
  match e with
  | JsError _ message => message
  | JsThrown _ => "Unknown error occurred"
  end.

(** The [font] setting under which [getFontFingerprint] measures [font]. *)
Definition probeFont (font : string) : string :=
  "72px " ++ font ++ ", monospace".

(** Every call the canvas probe makes of the environment succeeds. *)
Definition canvasReadable (env : Browser.Env) : bool :=
  match Browser.createCanvas env with
  | Ok canvas =>
      match Browser.getContext2d canvas with
      | Ok (Some ctx) =>
          isOk (Browser.draw ctx) && isOk (Browser.toDataURL canvas)
      | Ok None => true
      | Throw _ => false
      end
  | Throw _ => false
  end.

(** Every call the WebGL probe makes succeeds. *)
Definition webglReadable (env : Browser.Env) : bool :=
  match Browser.createCanvas env with
  | Ok canvas =>
      match Browser.getContextWebgl canvas with
      | Ok (Some gl) =>
          match Browser.getExtension gl with
          | Ok (Some info) =>
              isOk (Browser.unmaskedVendor info)
              && isOk (Browser.unmaskedRenderer info)
          | Ok None => true
          | Throw _ => false
          end
      | Ok None => true
      | Throw _ => false
      end
  | Throw _ => false
  end.

(** Every call the font probe makes succeeds. *)
Definition fontReadable (env : Browser.Env) : bool :=
  match Browser.createCanvas env with
  | Ok canvas =>
      match Browser.getContext2d canvas with
      | Ok (Some context) =>
          isOk (Browser.measureText context "72px monospace")
          && forallb (fun font =>
                        isOk (Browser.measureText context (probeFont font)))
                     Fingerprint.fontList
      | Ok None => true
      | Throw _ => false
      end
  | Throw _ => false
  end.

(** What the [catch] clause of the ClientJS-delegating [getFingerprint]
    receives as [error]: what [new ClientJS()] or [client.getFingerprint()]
    threw, what [fingerprint.toString()] threw, or the library's own error
    for an empty fingerprint. *)
Definition caught (env : Browser.Env) (error : exn) : Prop :=
  Browser.clientJS env = Throw error
  \/ (exists raw, Browser.clientJS env = Ok raw
                  /\ FingerprintClientJS.toStringOf raw = Throw error)
  \/ (exists raw, Browser.clientJS env = Ok raw
                  /\ FingerprintClientJS.toStringOf raw = Ok ""
                  /\ error = Error "Generated fingerprint is empty").

(** How long one exchange keeps [fetchFromProvider] waiting for the
    promise of [fetch]: until it settles, or until the abort timer fires. *)
Definition headWait (exchange : Browser.Exchange) : Z :=
  Z.min (Browser.latency exchange) Location.REQUEST_TIMEOUT.

(** How long it then keeps it waiting for the body: [response.json()] is
    called only on a response that came in time and with an ok status. *)
Definition bodyWait (exchange : Browser.Exchange) : Z :=
  if Browser.latency exchange <=? Location.REQUEST_TIMEOUT
  then match Browser.outcome exchange with
       | Browser.FetchResponded true _ _ _ => Browser.bodyLatency exchange
       | _ => 0
       end
  else 0.

(** The time the attempts on the given providers take, one after the
    other. *)
Definition waits (network : string -> Browser.Exchange)
    (providers : list Location.LocationProvider) : Z :=
  fold_right Z.add 0
    (map (fun provider =>
            headWait (network (Location.url provider))
            + bodyWait (network (Location.url provider)))
         providers).

(** The value is a string. *)
Definition isString (v : value) : bool :=
  match v with VStr _ => true | _ => false end.

(** The warning [collectMetadata] writes when [getFingerprint] raises. *)
Definition fingerprintWarning (error : exn) : LogEntry :=
  ConsoleWarn [Text "Failed to generate fingerprint:"; Thrown error].

End Notions.

Import Notions.

Module Sample2.

(** Chrome on an Android phone, from the parser's test suite. *)
Definition androidPhone : string :=
  "Mozilla/5.0 (Linux; Android 11; SM-G991B) AppleWebKit/537.36 (KHTML, like Gecko) Chrome/91.0.4472.124 Mobile Safari/537.36".

(** A 2D context under which the probe text is 720 wide in the bare
    monospace font, wider in Arial and Verdana, and 720 in every other
    font. *)
Definition twoFonts : Browser.Context2D :=
  {| Browser.draw := Ok tt;
     Browser.measureText := fun font =>
       if (font =? "72px Arial, monospace")%string then Ok (ofZ 803)
       else if (font =? "72px Verdana, monospace")%string then Ok (ofZ 912)
       else Ok (ofZ 720) |}.

Definition withCanvas (env : Browser.Env) (canvas : result Browser.Canvas)
  : Browser.Env :=
  {| Browser.navigator := Browser.navigator env;
     Browser.screen := Browser.screen env;
     Browser.createCanvas := canvas;
     Browser.timezoneOffset := Browser.timezoneOffset env;
     Browser.now := Browser.now env;
     Browser.clientJS := Browser.clientJS env;
     Browser.network := Browser.network env |}.

(** The test-setup environment with a canvas that has that 2D context. *)
Definition drawing : Browser.Env :=
  withCanvas Sample.desktop
    (Ok {| Browser.getContext2d := Ok (Some twoFonts);
           Browser.getContextWebgl := Ok None;
           Browser.toDataURL := Ok "data:image/png;base64,iVBORw0KGgo=" |}).

(** A network on which the first provider sends the head of its response
    after [ms] milliseconds and the body [body] milliseconds later. *)
Definition trickling (ms body : Z) : string -> Browser.Exchange :=
  fun url =>
    if (url =? "https://ipapi.co/json/")%string
    then {| Browser.latency := ms;
            Browser.bodyLatency := body;
            Browser.outcome :=
              Browser.FetchResponded true 200 "OK" (Ok Sample.newYork) |}
    else Sample.offline url.

(** A page served over plain HTTP from a host other than localhost. *)
Definition insecurePage : LocationService.Globals :=
  {| LocationService.window := Some
       {| LocationService.location := Some
            {| LocationService.protocol := VStr "http:";
               LocationService.hostname := VStr "example.com" |} |};
     LocationService.fetchDefined := true |}.

(** The hook's options left out: [useClientMetadata()]. *)
Definition hookDefaults : ReactHook.UseClientMetadataOptions :=
  {| ReactHook.includeLocation := None;
     ReactHook.includeFingerprint := None;
     ReactHook.locationTimeout := None;
     ReactHook.immediate := None |}.

End Sample2.

(* ================================================================== *)
(** ** Strings and patterns                                       *)
(* ================================================================== *)

Section CaseFolding.

Lemma lowerChar_foldChar_ascii (a c : ascii) :
  (nat_of_ascii a <? 128)%nat = true ->
  (a = lowerChar c <-> a = foldChar c).
Proof.
  destruct a as [a0 a1 a2 a3 a4 a5 a6 a7].
  destruct a7.
  { intros H. destruct a0, a1, a2, a3, a4, a5, a6; vm_compute in H; discriminate H. }
  intros _.
  destruct c as [c0 c1 c2 c3 c4 c5 c6 c7].
  destruct c7.
  - (* outside ASCII: neither image is an ASCII code unit *)
    destruct c0, c1, c2, c3, c4, c5, c6; vm_compute; split; discriminate 1.
  - destruct c0, c1, c2, c3, c4, c5, c6; vm_compute; split; exact (fun e => e).
Qed.

Lemma foldChar_lowerChar (c : ascii) : foldChar (lowerChar c) = lowerChar c.
Proof.
  destruct c as [c0 c1 c2 c3 c4 c5 c6 c7].
  destruct c0, c1, c2, c3, c4, c5, c6, c7; vm_compute; reflexivity.
Qed.

Lemma foldChar_plain (c : ascii) :
  (nat_of_ascii c <? 128)%nat && negb (between 65 90 (nat_of_ascii c)) = true ->
  foldChar c = c.
Proof.
  unfold foldChar. intros H. apply andb_true_iff in H as [_ H].
  apply negb_true_iff in H. rewrite H. reflexivity.
Qed.

Lemma foldCase_plain (p : string) : plain p = true -> foldCase p = p.
Proof.
  unfold plain. induction p as [| c p IH]; simpl; [reflexivity |].
  intros H. apply andb_true_iff in H as [Hc Hp].
  rewrite (foldChar_plain c Hc), (IH Hp). reflexivity.
Qed.

(** Whether an ASCII pattern is a prefix does not depend on which of the two
    lowerings the subject went through. *)
Lemma prefix_toLowerCase (p s : string) :
  plain p = true -> prefix p (toLowerCase s) = prefix p (foldCase s).
Proof.
  unfold plain. revert s.
  induction p as [| a p IH]; intros s H.
  - destruct s; reflexivity.
  - simpl in H. apply andb_true_iff in H as [Ha Hp].
    apply andb_true_iff in Ha as [Ha _].
    destruct s as [| c s]; simpl; [reflexivity |].
    destruct (ascii_dec a (lowerChar c)) as [E | N];
      destruct (ascii_dec a (foldChar c)) as [E' | N'].
    + apply IH, Hp.
    + exfalso. apply N'. apply (lowerChar_foldChar_ascii a c Ha), E.
    + exfalso. apply N. apply (lowerChar_foldChar_ascii a c Ha), E'.
    + reflexivity.
Qed.

Lemma includes_toLowerCase (p s : string) :
  plain p = true -> includes p (toLowerCase s) = includes p (foldCase s).
Proof.
  intros H. induction s as [| c s IH].
  - reflexivity.
  - change (toLowerCase (String c s)) with (String (lowerChar c) (toLowerCase s)).
    change (foldCase (String c s)) with (String (foldChar c) (foldCase s)).
    cbn [includes].
    rewrite IH.
    change (String (lowerChar c) (toLowerCase s)) with (toLowerCase (String c s)).
    change (String (foldChar c) (foldCase s)) with (foldCase (String c s)).
    rewrite (prefix_toLowerCase p (String c s) H). reflexivity.
Qed.

Lemma foldCase_toLowerCase (s : string) : foldCase (toLowerCase s) = toLowerCase s.
Proof.
  induction s as [| c s IH]; simpl; [reflexivity |].
  rewrite foldChar_lowerChar, IH. reflexivity.
Qed.

(** A pattern of the tables, tried on the lower-cased user agent as the code
    does, decides whether the user agent contains one of its alternatives,
    letter case apart. *)
Lemma test_toLowerCase (r : RegExp) (ua : string) :
  forallb plain (alternatives r) = true ->
  test r (toLowerCase ua) = test (rei (alternatives r)) ua.
Proof.
  unfold test, rei. cbn [ignoreCase alternatives].
  induction (alternatives r) as [| a alts IH]; intros H.
  - destruct (ignoreCase r); reflexivity.
  - cbn [forallb] in H. apply andb_true_iff in H as [Ha Halts].
    specialize (IH Halts).
    destruct (ignoreCase r); cbn [existsb]; rewrite IH; f_equal.
    + rewrite foldCase_toLowerCase, (foldCase_plain a Ha).
      apply includes_toLowerCase, Ha.
    + rewrite (foldCase_plain a Ha). apply includes_toLowerCase, Ha.
Qed.

End CaseFolding.

Section PatternTables.

Lemma firstMatch_split (before after : list UaParser.Entry) (e : UaParser.Entry)
    (s : string) :
  unmatched before s = true ->
  test (UaParser.pattern e) s = true ->
  UaParser.firstMatch (before ++ e :: after)%list s = UaParser.name e.
Proof.
  intros Hb He. induction before as [| b before IH]; cbn [app UaParser.firstMatch].
  - rewrite He. reflexivity.
  - cbn [unmatched forallb] in Hb. apply andb_true_iff in Hb as [Hb Hrest].
    apply negb_true_iff in Hb. rewrite Hb. apply IH, Hrest.
Qed.

Lemma firstMatch_inv (table : list UaParser.Entry) (s : string) :
  (UaParser.firstMatch table s = "Unknown" /\ unmatched table s = true)
  \/ exists before e after,
       table = (before ++ e :: after)%list
       /\ unmatched before s = true
       /\ test (UaParser.pattern e) s = true
       /\ UaParser.firstMatch table s = UaParser.name e.
Proof.
  induction table as [| e table IH]; cbn [UaParser.firstMatch].
  - left. split; reflexivity.
  - destruct (test (UaParser.pattern e) s) eqn:He.
    + right. exists [], e, table. repeat split. exact He.
    + destruct IH as [[Hu Hn] | (before & e' & after & Ht & Hb & He' & Hr)].
      * left. split; [exact Hu |]. cbn [unmatched forallb]. rewrite He. exact Hn.
      * right. exists (e :: before), e', after. subst table. repeat split.
        -- cbn [unmatched forallb]. rewrite He. exact Hb.
        -- exact He'.
        -- exact Hr.
Qed.

Lemma platforms_plain : forallb plainEntry UaParser.platforms = true.
Proof. vm_compute. reflexivity. Qed.

Lemma browsers_plain : forallb plainEntry UaParser.browsers = true.
Proof. vm_compute. reflexivity. Qed.

Lemma test_entry (e : UaParser.Entry) (ua : string) :
  plainEntry e = true ->
  test (UaParser.pattern e) (toLowerCase ua) = matches e ua.
Proof. intros H. apply test_toLowerCase, H. Qed.

Lemma unmatched_matches (table : list UaParser.Entry) (ua : string) :
  forallb plainEntry table = true ->
  unmatched table (toLowerCase ua)
  = forallb (fun e => negb (matches e ua)) table.
Proof.
  induction table as [| e table IH]; cbn [unmatched forallb]; [reflexivity |].
  intros H. apply andb_true_iff in H as [He Ht].
  rewrite (test_entry e ua He). f_equal. apply IH, Ht.
Qed.

Lemma forallb_app_inv {A} (f : A -> bool) (l1 l2 : list A) :
  forallb f (l1 ++ l2)%list = true -> forallb f l1 = true /\ forallb f l2 = true.
Proof. rewrite forallb_app. apply andb_true_iff. Qed.

End PatternTables.

Section UserAgentClassifier.

Lemma prefix_app_l (p q s : string) :
  prefix (p ++ q) s = true -> prefix p s = true.
Proof.
  revert s. induction p as [| a p IH]; intros s H.
  - destruct s; reflexivity.
  - destruct s as [| c s]; [discriminate H |].
    cbn [append prefix] in *.
    destruct (ascii_dec a c); [apply IH, H | discriminate H].
Qed.

Lemma includes_app_l (p q s : string) :
  includes (p ++ q) s = true -> includes p s = true.
Proof.
  induction s as [| c s IH]; cbn [includes]; intros H.
  - apply (prefix_app_l p q), H.
  - apply orb_true_iff in H as [H | H]; apply orb_true_iff.
    + left. apply (prefix_app_l p q), H.
    + right. apply IH, H.
Qed.

Lemma contains_chrome_slash (ua : string) :
  contains "chrome/" ua = true -> contains "chrome" ua = true.
Proof.
  unfold contains, test, rei. cbn [ignoreCase alternatives existsb].
  rewrite !orb_false_r.
  apply (includes_app_l "chrome" "/").
Qed.

(** A marker of the browser table, tried on the lower-cased user agent. *)
Lemma test_marker (m ua : string) :
  plain m = true -> test (rei [m]) (toLowerCase ua) = contains m ua.
Proof.
  intros Hm. apply (test_toLowerCase (rei [m])). cbn. rewrite Hm. reflexivity.
Qed.

Lemma detectBrowser_with_chrome (ua : string) :
  contains "chrome" ua = true ->
  UaParser.detectBrowser ua =
    if contains "edg/" ua then "Edge"
    else if contains "edge/" ua then "Edge Legacy"
    else if contains "opr/" ua then "Opera"
    else if contains "brave/" ua then "Brave"
    else if contains "vivaldi/" ua then "Vivaldi"
    else if contains "chrome/" ua then "Chrome"
    else UaParser.firstMatch (skipn 6 UaParser.browsers) (toLowerCase ua).
Proof.
  intros Hc. unfold UaParser.detectBrowser.
  fold (contains "chrome" ua). rewrite Hc, andb_false_r.
  unfold UaParser.browsers. cbn [UaParser.firstMatch UaParser.pattern UaParser.name skipn].
  rewrite (test_marker "edg/" ua eq_refl), (test_marker "edge/" ua eq_refl),
    (test_marker "opr/" ua eq_refl), (test_marker "brave/" ua eq_refl),
    (test_marker "vivaldi/" ua eq_refl), (test_marker "chrome/" ua eq_refl).
  reflexivity.
Qed.

(** Every entry of the platform table up to and including the Linux entry
    stands before the Chrome OS entry. *)
Lemma detectPlatform_with_linux (ua : string) :
  contains "linux" ua = true ->
  In (UaParser.detectPlatform ua)
     (map UaParser.name (firstn 14 UaParser.platforms)).
Proof.
  intros Hl.
  assert (Hlinux : test (re ["linux"]) (toLowerCase ua) = true).
  { rewrite (test_toLowerCase (re ["linux"]) ua eq_refl). exact Hl. }
  unfold UaParser.detectPlatform, UaParser.platforms.
  cbn [UaParser.firstMatch UaParser.pattern UaParser.name firstn map].
  rewrite Hlinux.
  repeat match goal with
         | |- context [if test ?r ?x then _ else _] => destruct (test r x)
         end;
    cbn; tauto.
Qed.

End UserAgentClassifier.

(* ================================================================== *)
(** ** The user-agent classifier                                  *)
(* ================================================================== *)

Section UserAgentClaims.

(** C5 (as the code has it). The Samsung Internet user agent of the parser's
    own test suite carries both the Samsung marker and the Chrome marker, and
    [detectBrowser] answers "Chrome": in the browser table the Samsung entry
    stands after the Chrome entry. More generally no user agent with a
    [chrome/] marker is ever classified as Samsung Internet. *)
Theorem detectBrowser_samsung_resolves_to_chrome :
  contains "samsung" Sample.samsungInternet = true
  /\ contains "chrome/" Sample.samsungInternet = true
  /\ UaParser.detectBrowser Sample.samsungInternet = "Chrome"
  /\ (forall ua, contains "chrome/" ua = true ->
                 UaParser.detectBrowser ua <> "Samsung Internet").
Proof.
  split; [vm_compute; reflexivity |].
  split; [vm_compute; reflexivity |].
  split; [vm_compute; reflexivity |].
  intros ua H.
  rewrite (detectBrowser_with_chrome ua (contains_chrome_slash ua H)), H.
  repeat match goal with
         | |- context [if ?b then _ else _] => destruct b
         end; discriminate.
Qed.

(** X2. The markers of Edge, Opera, Brave and Vivaldi do take precedence
    over the Chrome marker. *)
Theorem detectBrowser_chromium_derivatives (ua : string) :
  contains "chrome" ua = true ->
  (contains "edg/" ua = true -> UaParser.detectBrowser ua = "Edge")
  /\ (contains "edg/" ua || contains "edge/" ua || contains "opr/" ua
      || contains "brave/" ua || contains "vivaldi/" ua = true ->
      In (UaParser.detectBrowser ua)
         ["Edge"; "Edge Legacy"; "Opera"; "Brave"; "Vivaldi"]).
Proof.
  intros Hc. rewrite (detectBrowser_with_chrome ua Hc). split.
  - intros ->. reflexivity.
  - destruct (contains "edg/" ua); [intros _; cbn; tauto |].
    destruct (contains "edge/" ua); [intros _; cbn; tauto |].
    destruct (contains "opr/" ua); [intros _; cbn; tauto |].
    destruct (contains "brave/" ua); [intros _; cbn; tauto |].
    destruct (contains "vivaldi/" ua); [intros _; cbn; tauto |].
    discriminate 1.
Qed.

Lemma detectBrowser_chromium_derivatives_witness :
  UaParser.detectBrowser
    "Mozilla/5.0 (Windows NT 10.0; Win64; x64) AppleWebKit/537.36 (KHTML, like Gecko) Chrome/91.0.4472.124 Safari/537.36 Edg/91.0.864.59"
  = "Edge".
Proof.
  refine (proj1 (detectBrowser_chromium_derivatives _ _) _);
    vm_compute; reflexivity.
Defined.

(** C6 (as the code has it). In the platform table the generic Linux entry
    is declared one place before the Chrome OS entry, so a user agent that
    matches both patterns is classified as "Linux": no user agent that
    matches the Linux pattern is ever classified as "Chrome OS". *)
Theorem detectPlatform_linux_and_chrome_os :
  contains "chromeos" Sample.linuxChromeOs = true
  /\ contains "linux" Sample.linuxChromeOs = true
  /\ UaParser.detectPlatform Sample.linuxChromeOs = "Linux"
  /\ UaParser.detectPlatform Sample.linuxChromeOs <> "Chrome OS"
  /\ (forall ua, contains "linux" ua = true ->
                 UaParser.detectPlatform ua <> "Chrome OS")
  /\ (exists before after,
        UaParser.platforms
        = (before ++ UaParser.mkEntry (re ["linux"]) "Linux"
                  :: chromeOsEntry :: after)%list).
Proof.
  split; [vm_compute; reflexivity |].
  split; [vm_compute; reflexivity |].
  split; [vm_compute; reflexivity |].
  split; [vm_compute; discriminate 1 |].
  split.
  - intros ua Hl H.
    pose proof (detectPlatform_with_linux ua Hl) as Hin.
    rewrite H in Hin. cbn in Hin.
    repeat (destruct Hin as [Hin | Hin]; [discriminate Hin |]).
    exact Hin.
  - exists (firstn 13 UaParser.platforms), (skipn 15 UaParser.platforms).
    reflexivity.
Qed.

(** The first-match law of the platform table: the platform is the name of
    the first entry, in declared order, whose pattern the user agent
    matches; it is "Chrome OS" exactly when the user agent matches the
    Chrome OS pattern and no entry declared before the Chrome OS entry. *)
Lemma detectPlatform_table_order (ua : string) :
  (forall before e after,
      UaParser.platforms = (before ++ e :: after)%list ->
      forallb (fun e' => negb (matches e' ua)) before = true ->
      matches e ua = true ->
      UaParser.detectPlatform ua = UaParser.name e)
  /\ (UaParser.detectPlatform ua = "Chrome OS" <->
      exists before after,
        UaParser.platforms = (before ++ chromeOsEntry :: after)%list
        /\ forallb (fun e' => negb (matches e' ua)) before = true
        /\ contains "chromeos" ua = true).
Proof.
  assert (first_wins : forall before e after,
      UaParser.platforms = (before ++ e :: after)%list ->
      forallb (fun e' => negb (matches e' ua)) before = true ->
      matches e ua = true ->
      UaParser.detectPlatform ua = UaParser.name e).
  { intros before e after Ht Hb He.
    pose proof platforms_plain as Hp. rewrite Ht in Hp.
    apply forallb_app_inv in Hp as [Hpb Hpe].
    cbn [forallb] in Hpe. apply andb_true_iff in Hpe as [Hpe _].
    unfold UaParser.detectPlatform. rewrite Ht.
    apply firstMatch_split.
    - rewrite (unmatched_matches before ua Hpb). exact Hb.
    - rewrite (test_entry e ua Hpe). exact He. }
  split; [exact first_wins |]. split.
  - intros H. unfold UaParser.detectPlatform in H.
    destruct (firstMatch_inv UaParser.platforms (toLowerCase ua))
      as [[Hu _] | (before & e & after & Ht & Hb & He & Hr)].
    + rewrite Hu in H. discriminate H.
    + rewrite Hr in H.
      assert (e = chromeOsEntry) as ->.
      { assert (Hin : In e UaParser.platforms)
          by (rewrite Ht; apply in_elt).
        cbn in Hin.
        repeat (destruct Hin as [<- | Hin]; [try discriminate H; try reflexivity |]).
        destruct Hin. }
      pose proof platforms_plain as Hp. rewrite Ht in Hp.
      apply forallb_app_inv in Hp as [Hpb _].
      exists before, after. split; [exact Ht |]. split.
      * rewrite <- (unmatched_matches before ua Hpb). exact Hb.
      * rewrite (test_entry chromeOsEntry ua eq_refl) in He. exact He.
  - intros (before & after & Ht & Hb & Hc).
    apply (first_wins before chromeOsEntry after Ht Hb Hc).
Qed.

Lemma detectPlatform_table_order_witness :
  UaParser.detectPlatform Sample.chromeOsOnly = "Chrome OS".
Proof.
  apply (proj2 (proj2 (detectPlatform_table_order Sample.chromeOsOnly))).
  exists (firstn 14 UaParser.platforms), (skipn 15 UaParser.platforms).
  repeat split; vm_compute; reflexivity.
Defined.

(** C7 (as the code has it). A user agent with a Safari marker and no Chrome
    marker is classified as "Safari"; but so is one in which both markers are
    present, when "chrome" is not followed by a slash and the table scan gets
    as far as the [safari/] entry. *)
Theorem detectBrowser_safari_carve_out :
  (forall ua, contains "safari" ua = true -> contains "chrome" ua = false ->
              UaParser.detectBrowser ua = "Safari")
  /\ contains "safari" Sample.safariOnChromebook = true
  /\ contains "chrome" Sample.safariOnChromebook = true
  /\ UaParser.detectBrowser Sample.safariOnChromebook = "Safari".
Proof.
  split.
  - intros ua Hs Hc. unfold UaParser.detectBrowser.
    fold (contains "safari" ua). fold (contains "chrome" ua).
    rewrite Hs, Hc. reflexivity.
  - repeat split; vm_compute; reflexivity.
Qed.

(** C10. Classification is total: for every user agent the device type is
    one of desktop, mobile and tablet, and [parseUserAgent] returns the
    record of the three classifications whenever [navigator.userAgent] reads
    as that string; for the empty string the record is Unknown, Unknown,
    desktop. *)
Theorem parseUserAgent_total (ua : string) :
  In (UaParser.detectDeviceType ua) ["desktop"; "mobile"; "tablet"]
  /\ (forall env nav,
         Browser.navigator env = Some nav ->
         Browser.userAgent nav = Ok (Some ua) ->
         UaParser.parseUserAgent env
         = Ok {| UaParser.userAgent := ua;
                 UaParser.platform := UaParser.detectPlatform ua;
                 UaParser.browser := UaParser.detectBrowser ua;
                 UaParser.deviceType := UaParser.detectDeviceType ua |})
  /\ (forall env nav,
         Browser.navigator env = Some nav ->
         Browser.userAgent nav = Ok (Some "") ->
         UaParser.parseUserAgent env
         = Ok {| UaParser.userAgent := "";
                 UaParser.platform := "Unknown";
                 UaParser.browser := "Unknown";
                 UaParser.deviceType := "desktop" |}).
Proof.
  split; [| split].
  - unfold UaParser.detectDeviceType.
    destruct (test _ _); [cbn; tauto |].
    destruct (test _ _); cbn; tauto.
  - intros env nav Hn Hu. unfold UaParser.parseUserAgent.
    rewrite Hn. cbn [Browser.global rbind]. rewrite Hu. reflexivity.
  - intros env nav Hn Hu. unfold UaParser.parseUserAgent.
    rewrite Hn. cbn [Browser.global rbind]. rewrite Hu. reflexivity.
Qed.

Lemma parseUserAgent_total_witness :
  UaParser.parseUserAgent Sample.desktop
  = Ok {| UaParser.userAgent :=
            "Mozilla/5.0 (Macintosh; Intel Mac OS X 10_15_7) AppleWebKit/537.36 (KHTML, like Gecko) Chrome/91.0.4472.124 Safari/537.36";
          UaParser.platform := "macOS";
          UaParser.browser := "Chrome";
          UaParser.deviceType := "desktop" |}.
Proof.
  refine (eq_trans
            (proj1 (proj2 (parseUserAgent_total _)) Sample.desktop _
                   eq_refl eq_refl) _).
  vm_compute. reflexivity.
Defined.

End UserAgentClaims.

(* ================================================================== *)
(** ** The fingerprint generator                                  *)
(* ================================================================== *)

Section FingerprintFacts.

Lemma hexDigits_nonempty (fuel : nat) (n : Z) (acc : string) :
  hexDigits fuel n acc <> "".
Proof.
  revert n acc. induction fuel as [| fuel IH]; intros n acc; cbn [hexDigits].
  - discriminate.
  - destruct (n <? 16); [discriminate | apply IH].
Qed.

Lemma toString16_nonempty (n : Z) : toString16 n <> "".
Proof.
  unfold toString16. destruct (n <? 0).
  - discriminate.
  - apply hexDigits_nonempty.
Qed.

Lemma hashCharacteristics_nonempty (cs : list Fingerprint.characteristic) :
  Fingerprint.hashCharacteristics cs <> "".
Proof. apply toString16_nonempty. Qed.

Ltac read_property :=
  match goal with
  | |- context [rbind ?r _] =>
      let v := fresh "v" in let e := fresh "e" in
      destruct r as [v | e]; cbn [rbind isOk andb]
  end.

Ltac unreadable :=
  try match goal with
      | |- context [Browser.screen ?env] => destruct (Browser.screen env)
      end;
  cbn [isOk andb]; rewrite ?andb_false_r; reflexivity.

Lemma getFastFingerprint_spec (env : Browser.Env) :
  match Fingerprint.getFastFingerprint env with
  | Ok fingerprint => fingerprint <> "" /\ fastReadable env = true
  | Throw _ => fastReadable env = false
  end.
Proof.
  unfold Fingerprint.getFastFingerprint, fastReadable.
  destruct (Browser.navigator env) as [nav |]; cbn [Browser.global rbind];
    [| reflexivity].
  do 3 (read_property; [| unreadable]).
  destruct (Browser.screen env) as [scr |]; cbn [Browser.global rbind];
    [| reflexivity].
  do 5 (read_property; [| unreadable]).
  split; [apply hashCharacteristics_nonempty | reflexivity].
Qed.

Lemma getBasicCharacteristics_spec (env : Browser.Env) :
  isOk (Fingerprint.getBasicCharacteristics env) = basicReadable env.
Proof.
  unfold Fingerprint.getBasicCharacteristics, basicReadable.
  destruct (Browser.navigator env) as [nav |]; cbn [Browser.global rbind isOk];
    [| reflexivity].
  do 6 (read_property; [| unreadable]).
  destruct (Browser.screen env) as [scr |]; cbn [Browser.global rbind isOk];
    [| reflexivity].
  do 8 (read_property; [| unreadable]).
  reflexivity.
Qed.

Lemma getComprehensiveFingerprint_spec (env : Browser.Env) :
  match Fingerprint.getComprehensiveFingerprint env with
  | Ok fingerprint => fingerprint <> "" /\ basicReadable env = true
  | Throw _ => basicReadable env = false
  end.
Proof.
  unfold Fingerprint.getComprehensiveFingerprint.
  rewrite <- getBasicCharacteristics_spec.
  destruct (Fingerprint.getBasicCharacteristics env); cbn [rbind isOk].
  - split; [apply hashCharacteristics_nonempty | reflexivity].
  - reflexivity.
Qed.

Lemma probeFonts_unreadable (context : Browser.Context2D) (baseWidth : number)
    (fonts : list string) :
  forallb (fun font => isOk (Browser.measureText context (probeFont font)))
          fonts = false ->
  isOk (Fingerprint.probeFonts context baseWidth fonts) = false.
Proof.
  induction fonts as [| font rest IH]; cbn [forallb Fingerprint.probeFonts];
    [discriminate 1 |].
  change ("72px" ++ " " ++ font ++ ", monospace") with (probeFont font).
  destruct (Browser.measureText context (probeFont font)) as [width | e];
    cbn [isOk andb rbind]; [| reflexivity].
  intros H. specialize (IH H).
  destruct (Fingerprint.probeFonts context baseWidth rest); cbn [rbind isOk] in *;
    [discriminate IH | reflexivity].
Qed.

(** A probe one of whose calls fails is demoted to its sentinel. *)
Lemma probes_demoted (env : Browser.Env) :
  (canvasReadable env = false ->
   Fingerprint.getCanvasFingerprint env = "canvas-error")
  /\ (webglReadable env = false ->
      Fingerprint.getWebGLFingerprint env = "webgl-error")
  /\ (fontReadable env = false ->
      Fingerprint.getFontFingerprint env = "font-error").
Proof.
  unfold canvasReadable, webglReadable, fontReadable,
    Fingerprint.getCanvasFingerprint, Fingerprint.getWebGLFingerprint,
    Fingerprint.getFontFingerprint.
  destruct (Browser.createCanvas env) as [canvas | e];
    cbn [rbind Fingerprint.orSentinel]; [| repeat split].
  split; [| split].
  - destruct (Browser.getContext2d canvas) as [[ctx |] | e];
      cbn [rbind Fingerprint.orSentinel]; try discriminate 1; [| reflexivity].
    destruct (Browser.draw ctx); cbn [rbind isOk andb Fingerprint.orSentinel];
      [| reflexivity].
    destruct (Browser.toDataURL canvas); cbn [isOk Fingerprint.orSentinel];
      [discriminate 1 | reflexivity].
  - destruct (Browser.getContextWebgl canvas) as [[gl |] | e];
      cbn [rbind Fingerprint.orSentinel]; try discriminate 1; [| reflexivity].
    destruct (Browser.getExtension gl) as [[info |] | e];
      cbn [rbind Fingerprint.orSentinel]; try discriminate 1; [| reflexivity].
    destruct (Browser.unmaskedVendor info);
      cbn [rbind isOk andb Fingerprint.orSentinel]; [| reflexivity].
    destruct (Browser.unmaskedRenderer info);
      cbn [rbind isOk Fingerprint.orSentinel]; [discriminate 1 | reflexivity].
  - destruct (Browser.getContext2d canvas) as [[context |] | e];
      cbn [rbind Fingerprint.orSentinel]; try discriminate 1; [| reflexivity].
    change ("72px" ++ " monospace") with "72px monospace".
    destruct (Browser.measureText context "72px monospace") as [baseWidth | e];
      cbn [rbind isOk andb Fingerprint.orSentinel]; [| reflexivity].
    intros H. apply (probeFonts_unreadable context baseWidth) in H.
    destruct (Fingerprint.probeFonts context baseWidth Fingerprint.fontList);
      cbn [rbind isOk Fingerprint.orSentinel] in *;
      [discriminate H | reflexivity].
Qed.

End FingerprintFacts.

Section FingerprintClaims.

(** C1 (counterexample). Where the [navigator] global does not exist,
    [getFingerprint] raises, with and without the comprehensive flag. *)
Lemma getFingerprint_raises_without_navigator :
  Fingerprint.getFingerprint Sample.serverSide None
  = Throw (Error "Fingerprint generation failed: navigator is not defined")
  /\ Fingerprint.getFingerprint Sample.serverSide (Some true)
     = Throw (Error "Fingerprint generation failed: navigator is not defined").
Proof. split; vm_compute; reflexivity. Qed.

(** C1 (amended). [getFingerprint], with or without the comprehensive flag,
    either returns a non-empty string or raises an [Error] whose message
    starts with "Fingerprint generation failed: ". It returns exactly when
    every read of the navigator and screen characteristics of the chosen
    strategy succeeds: there is no fallback tier. Only the canvas, WebGL and
    font probes of comprehensive mode are caught: a probe one of whose calls
    fails is demoted to its sentinel ("canvas-error", "webgl-error",
    "font-error"), the sentinel is hashed with the basic characteristics
    like any other answer of the probe, and so the probes never decide
    whether the call returns. *)
Theorem getFingerprint_returns_or_raises
    (env : Browser.Env) (comprehensive : option bool) :
  let readable :=
    match comprehensive with
    | Some true => basicReadable env
    | _ => fastReadable env
    end in
  match Fingerprint.getFingerprint env comprehensive with
  | Ok fingerprint => fingerprint <> "" /\ readable = true
  | Throw e =>
      (exists reason, e = Error ("Fingerprint generation failed: " ++ reason))
      /\ readable = false
  end
  /\ (forall basic,
         Fingerprint.getBasicCharacteristics env = Ok basic ->
         Fingerprint.getFingerprint env (Some true)
         = Ok (Fingerprint.hashCharacteristics
                 (basic ++ [Fingerprint.CStr (Fingerprint.getCanvasFingerprint env);
                            Fingerprint.CStr (Fingerprint.getWebGLFingerprint env);
                            Fingerprint.CStr (Fingerprint.getFontFingerprint env)])))
  /\ (canvasReadable env = false ->
      Fingerprint.getCanvasFingerprint env = "canvas-error")
  /\ (webglReadable env = false ->
      Fingerprint.getWebGLFingerprint env = "webgl-error")
  /\ (fontReadable env = false ->
      Fingerprint.getFontFingerprint env = "font-error").
Proof.
  cbv zeta. split; [| split; [| apply probes_demoted]].
  2:{ intros basic Hbasic.
      unfold Fingerprint.getFingerprint, Fingerprint.getComprehensiveFingerprint.
      rewrite Hbasic. reflexivity. }
  unfold Fingerprint.getFingerprint.
  destruct comprehensive as [[|] |]; cbv zeta.
  - pose proof (getComprehensiveFingerprint_spec env) as H.
    destruct (Fingerprint.getComprehensiveFingerprint env) as [fp | [n m | v]].
    + exact H.
    + split; [exists m; reflexivity | exact H].
    + split; [exists "Unknown error"; reflexivity | exact H].
  - pose proof (getFastFingerprint_spec env) as H.
    destruct (Fingerprint.getFastFingerprint env) as [fp | [n m | v]].
    + exact H.
    + split; [exists m; reflexivity | exact H].
    + split; [exists "Unknown error"; reflexivity | exact H].
  - pose proof (getFastFingerprint_spec env) as H.
    destruct (Fingerprint.getFastFingerprint env) as [fp | [n m | v]].
    + exact H.
    + split; [exists m; reflexivity | exact H].
    + split; [exists "Unknown error"; reflexivity | exact H].
Qed.

Lemma generateFallbackFingerprint_total (env : Browser.Env) (s : Effects) :
  exists fingerprint s',
    FingerprintClientJS.generateFallbackFingerprint env s = (Ok fingerprint, s')
    /\ fingerprint <> "".
Proof.
  unfold FingerprintClientJS.generateFallbackFingerprint, tryCatch, bind, lift,
    ret, warn, emit.
  destruct (FingerprintClientJS.components env) as [cs | e].
  - eexists _, _. split; [reflexivity | apply toString16_nonempty].
  - eexists _, _. split; [reflexivity | discriminate].
Qed.

(** X1. The ClientJS-delegating [getFingerprint] does have the fallback
    ladder: it never raises and always returns a non-empty string. When
    ClientJS hands back a fingerprint that renders to a non-empty string,
    that string is returned. Whatever else happens in the [try] block (the
    library throws, the fingerprint is [null] or [undefined], or it renders
    to the empty string) is caught and demoted to
    [generateFallbackFingerprint]: the hash of the basic components when
    they can be read, and when reading them throws as well, the token
    "fallback_" followed by [Date.now()] in hexadecimal. *)
Theorem clientjs_getFingerprint_never_raises (env : Browser.Env) (s : Effects) :
  (exists fingerprint s',
      FingerprintClientJS.getFingerprint env s = (Ok fingerprint, s')
      /\ fingerprint <> "")
  /\ (forall raw fingerprintString,
         Browser.clientJS env = Ok raw ->
         FingerprintClientJS.toStringOf raw = Ok fingerprintString ->
         fingerprintString <> "" ->
         fst (FingerprintClientJS.getFingerprint env s) = Ok fingerprintString)
  /\ (forall error,
         caught env error ->
         fst (FingerprintClientJS.getFingerprint env s)
         = Ok match FingerprintClientJS.components env with
              | Ok components => Fingerprint.hashCharacteristics components
              | Throw _ => "fallback_" ++ toString16 (Browser.now env)
              end)
  /\ ((exists raw fingerprintString,
          Browser.clientJS env = Ok raw
          /\ FingerprintClientJS.toStringOf raw = Ok fingerprintString
          /\ fingerprintString <> "")
      \/ exists error, caught env error).
Proof.
  assert (Hfallback : forall error,
    fst ((warn [Text "Browser fingerprinting failed:"; Thrown error] ;;
          FingerprintClientJS.generateFallbackFingerprint env) s)
    = Ok match FingerprintClientJS.components env with
         | Ok components => Fingerprint.hashCharacteristics components
         | Throw _ => "fallback_" ++ toString16 (Browser.now env)
         end).
  { intros error.
    unfold FingerprintClientJS.generateFallbackFingerprint, tryCatch, bind,
      lift, ret, warn, emit.
    destruct (FingerprintClientJS.components env); reflexivity. }
  split; [| split; [| split]].
  - unfold FingerprintClientJS.getFingerprint, tryCatch, bind, lift, throw, ret.
    destruct (Browser.clientJS env) as [raw | e].
    + destruct (FingerprintClientJS.toStringOf raw) as [str | e].
      * destruct (str =? "")%string eqn:E.
        -- apply generateFallbackFingerprint_total.
        -- eexists _, _. split; [reflexivity |].
           intros ->. discriminate E.
      * apply generateFallbackFingerprint_total.
    + apply generateFallbackFingerprint_total.
  - intros raw str Hraw Hstr Hne.
    unfold FingerprintClientJS.getFingerprint.
    unfold tryCatch at 1, bind at 1, lift at 1. rewrite Hraw.
    unfold bind at 1, lift at 1. rewrite Hstr.
    apply String.eqb_neq in Hne. rewrite Hne. reflexivity.
  - intros error [Hc | [(raw & Hraw & Hstr) | (raw & Hraw & Hstr & ->)]];
      unfold FingerprintClientJS.getFingerprint;
      unfold tryCatch at 1, bind at 1, lift at 1.
    + rewrite Hc. apply Hfallback.
    + rewrite Hraw. unfold bind at 1, lift at 1. rewrite Hstr. apply Hfallback.
    + rewrite Hraw. unfold bind at 1, lift at 1. rewrite Hstr.
      cbn [String.eqb throw]. apply Hfallback.
  - unfold caught.
    destruct (Browser.clientJS env) as [raw | e];
      [| right; exists e; left; reflexivity].
    destruct (FingerprintClientJS.toStringOf raw) as [str | e] eqn:Hstr;
      [| right; exists e; right; left; exists raw; split; [reflexivity | exact Hstr]].
    destruct (string_dec str "") as [-> | Hne].
    + right. eexists. right. right. exists raw.
      split; [reflexivity |]. split; [exact Hstr | reflexivity].
    + left. exists raw, str. split; [reflexivity |]. split; assumption.
Qed.

End FingerprintClaims.

(* ================================================================== *)
(** ** The geolocation resolver                                   *)
(* ================================================================== *)

Section LocationFacts.

Lemma lt_Fin (x y : Q) : lt (Fin x) (Fin y) = false <-> (y <= x)%Q.
Proof.
  cbn [lt]. rewrite negb_false_iff. apply Qle_bool_iff.
Qed.

Lemma in_range (x : Q) (lo hi : Z) :
  lt (Fin x) (ofZ lo) || gt (Fin x) (ofZ hi) = false
  <-> (inject_Z lo <= x <= inject_Z hi)%Q.
Proof.
  unfold gt, ofZ. rewrite orb_false_iff, !lt_Fin. tauto.
Qed.

(** C9. [validateLocationData] accepts a record exactly when country and
    city are non-empty (truthy; for a string: not the empty string) and the
    coordinates are either both absent or both finite numbers with the
    latitude in [-90, 90] and the longitude in [-180, 180], bounds included.
    Latitude 90 with longitude -180 is accepted; latitude 200, latitude -95,
    longitude 200 and NaN coordinates are rejected although country and city
    are there. *)
Theorem validateLocationData_accepts_iff :
  (forall location,
      Location.validateLocationData location = true <->
      truthy (Location.country location) = true
      /\ truthy (Location.city location) = true
      /\ ((Location.latitude location = VUndefined
           /\ Location.longitude location = VUndefined)
          \/ exists lat lon,
               Location.latitude location = VNum (Fin lat)
               /\ Location.longitude location = VNum (Fin lon)
               /\ (-90 <= lat <= 90)%Q
               /\ (-180 <= lon <= 180)%Q))
  /\ (forall s, truthy (VStr s) = true <-> s <> "")
  /\ Location.validateLocationData
       (Sample.place (VNum (ofZ 90)) (VNum (ofZ (-180)))) = true
  /\ Location.validateLocationData
       (Sample.place (VNum (ofZ 200)) (VNum (Fin (-74.006)%Q))) = false
  /\ Location.validateLocationData
       (Sample.place (VNum (ofZ (-95))) (VNum (Fin (-74.006)%Q))) = false
  /\ Location.validateLocationData
       (Sample.place (VNum (Fin 40.7128%Q)) (VNum (ofZ 200))) = false
  /\ Location.validateLocationData
       (Sample.place (VNum NaN) (VNum NaN)) = false.
Proof.
  split; [| split; [| repeat split; vm_compute; reflexivity]].
  - intros [ip country city latitude longitude].
    unfold Location.validateLocationData.
    cbn [Location.country Location.city Location.latitude Location.longitude].
    destruct (truthy country); cbn [negb orb];
      [| split; [discriminate 1 | intros [H _]; discriminate H]].
    destruct (truthy city); cbn [negb orb];
      [| split; [discriminate 1 | intros (_ & H & _); discriminate H]].
    destruct latitude as [| | b | [| | | lat] | str | props];
      destruct longitude as [| | b' | [| | | lon] | str' | props'];
      cbn [defined orb isNaN];
      try (unfold gt, ofZ; cbn [lt orb]; rewrite ?orb_true_r;
           split;
           [ discriminate 1
           | intros (_ & _ & [[H1 H2] | (la & lo & H1 & H2 & _)]);
             congruence ]).
    + (* both absent *)
      split; [intros _ | reflexivity].
      repeat split. left. split; reflexivity.
    + (* both finite *)
      destruct (lt (Fin lat) (ofZ (-90)) || gt (Fin lat) (ofZ 90)) eqn:Elat.
      * cbn [orb].
        split; [discriminate 1 |].
        intros (_ & _ & [[H _] | (la & lo & H1 & H2 & Hla & _)]);
          [discriminate H |].
        injection H1 as <-.
        apply (in_range lat (-90) 90) in Hla. congruence.
      * cbn [orb].
        destruct (lt (Fin lon) (ofZ (-180)) || gt (Fin lon) (ofZ 180)) eqn:Elon.
        -- split; [discriminate 1 |].
           intros (_ & _ & [[H _] | (la & lo & H1 & H2 & _ & Hlo)]);
             [discriminate H |].
           injection H2 as <-.
           apply (in_range lon (-180) 180) in Hlo. congruence.
        -- split; [intros _ | reflexivity].
           repeat split. right. exists lat, lon.
           split; [reflexivity |]. split; [reflexivity |]. split.
           ++ apply (in_range lat (-90) 90), Elat.
           ++ apply (in_range lon (-180) 180), Elon.
  - intros s. cbn [truthy]. rewrite negb_true_iff. apply String.eqb_neq.
Qed.

End LocationFacts.

Section ProviderSequence.

Variable network : string -> Browser.Exchange.

(** One attempt never throws, sends exactly one request, and yields the same
    record from every state. *)
Lemma fetchFromProvider_spec (provider : Location.LocationProvider)
    (s : Effects) :
  exists s',
    Location.fetchFromProvider network provider s
    = (Ok (attempt network provider), s')
    /\ requests s' = (requests s ++ [(clock s, Location.url provider)])%list.
Proof.
  unfold attempt, Location.fetchFromProvider, Location.fetch.
  unfold tryCatch, bind, request, throw, ret, lift, warn, emit.
  destruct (Location.REQUEST_TIMEOUT <? Browser.latency (network (Location.url provider))).
  - cbn. eexists. split; reflexivity.
  - cbn.
    destruct (Browser.outcome (network (Location.url provider)))
      as [[errorName message | v] | [|] status statusText [data | e]]; cbn.
    + destruct (errorName =? "AbortError")%string; eexists; split; reflexivity.
    + eexists; split; reflexivity.
    + destruct (negb (truthy data) || negb (typeofObject data)); cbn;
        [eexists; split; reflexivity |].
      destruct (negb (truthy (Location.country (Location.parser provider data)))
                || negb (truthy (Location.city (Location.parser provider data))));
        cbn; eexists; split; reflexivity.
    + destruct e as [errorName message | v]; cbn;
        [destruct (errorName =? "AbortError")%string |];
        eexists; split; reflexivity.
    + eexists; split; reflexivity.
    + eexists; split; reflexivity.
Qed.

Lemma tryProviders_spec (providers : list Location.LocationProvider)
    (s : Effects) :
  exists s',
    Location.tryProviders network providers s
    = (Ok (firstAccepted network providers), s')
    /\ map snd (requests s')
       = (map snd (requests s)
          ++ map Location.url (consulted network providers))%list.
Proof.
  revert s. induction providers as [| provider rest IH]; intros s.
  - cbn. eexists. split; [reflexivity |]. cbn. rewrite app_nil_r. reflexivity.
  - cbn [Location.tryProviders firstAccepted consulted]. unfold bind at 1.
    destruct (fetchFromProvider_spec provider s) as (s1 & -> & Hreq).
    unfold accepted.
    destruct (attempt network provider) as [data |].
    + destruct (Location.validateLocationData data).
      * cbn. eexists. split; [reflexivity |]. cbn.
        rewrite Hreq, map_app. reflexivity.
      * destruct (IH s1) as (s' & -> & Hreq').
        exists s'. split; [reflexivity |].
        rewrite Hreq', Hreq, map_app, <- app_assoc. reflexivity.
    + destruct (IH s1) as (s' & -> & Hreq').
      exists s'. split; [reflexivity |].
      rewrite Hreq', Hreq, map_app, <- app_assoc. reflexivity.
Qed.

End ProviderSequence.

Section LocationClaims.

Lemma firstAccepted_split (network : string -> Browser.Exchange)
    (before after : list Location.LocationProvider)
    (provider : Location.LocationProvider) :
  forallb (fun p => negb (accepted network p)) before = true ->
  accepted network provider = true ->
  firstAccepted network (before ++ provider :: after)%list
  = attempt network provider
  /\ consulted network (before ++ provider :: after)%list
     = (before ++ [provider])%list.
Proof.
  intros Hb Hp. induction before as [| b before IH];
    cbn [app firstAccepted consulted].
  - rewrite Hp. split; reflexivity.
  - cbn [forallb] in Hb. apply andb_true_iff in Hb as [Hb Hrest].
    apply negb_true_iff in Hb. rewrite Hb.
    destruct (IH Hrest) as [-> ->]. split; reflexivity.
Qed.

Lemma firstAccepted_none (network : string -> Browser.Exchange)
    (providers : list Location.LocationProvider) :
  forallb (fun p => negb (accepted network p)) providers = true ->
  firstAccepted network providers = None
  /\ consulted network providers = providers.
Proof.
  induction providers as [| p providers IH]; cbn [forallb firstAccepted consulted].
  - split; reflexivity.
  - intros H. apply andb_true_iff in H as [Hp Hrest].
    apply negb_true_iff in Hp. rewrite Hp.
    destruct (IH Hrest) as [-> ->]. split; reflexivity.
Qed.

(** C8. [getLocation] always resolves, never rejects. It resolves to the
    record of the first provider, in declared order, whose result passes
    validation, having sent one request to each provider up to and including
    that one and none to a later provider; when no provider yields a valid
    record it resolves to [undefined], having asked each provider once, in
    order. *)
Theorem getLocation_first_valid_provider
    (network : string -> Browser.Exchange) (s : Effects) :
  exists result s',
    Location.getLocation network s = (Ok result, s')
    /\ map snd (requests s')
       = (map snd (requests s)
          ++ map Location.url
               (consulted network Location.LOCATION_PROVIDERS))%list
    /\ (forall before provider after,
           Location.LOCATION_PROVIDERS = (before ++ provider :: after)%list ->
           forallb (fun p => negb (accepted network p)) before = true ->
           accepted network provider = true ->
           result = attempt network provider
           /\ consulted network Location.LOCATION_PROVIDERS
              = (before ++ [provider])%list)
    /\ (forallb (fun p => negb (accepted network p))
                Location.LOCATION_PROVIDERS = true ->
        result = None
        /\ consulted network Location.LOCATION_PROVIDERS
           = Location.LOCATION_PROVIDERS)
    /\ map Location.url Location.LOCATION_PROVIDERS
       = ["https://ipapi.co/json/"; "http://ip-api.com/json/"].
Proof.
  destruct (tryProviders_spec network Location.LOCATION_PROVIDERS s)
    as (s' & Hrun & Hreq).
  exists (firstAccepted network Location.LOCATION_PROVIDERS), s'.
  split; [exact Hrun |]. split; [exact Hreq |].
  split; [| split; [| reflexivity]].
  - intros before provider after Hsplit Hb Hp. rewrite Hsplit.
    apply firstAccepted_split; assumption.
  - apply firstAccepted_none.
Qed.

Lemma getLocation_first_valid_provider_witness :
  exists result s',
    Location.getLocation (Sample.answering 120) start = (Ok result, s')
    /\ result
       = Some {| Location.ip := VUndefined;
                 Location.country := VStr "United States";
                 Location.city := VStr "New York";
                 Location.latitude := VNum (Fin 40.7128%Q);
                 Location.longitude := VNum (Fin (-74.006)%Q) |}
    /\ map snd (requests s') = ["https://ipapi.co/json/"].
Proof.
  destruct (getLocation_first_valid_provider (Sample.answering 120) start)
    as (result & s' & Hrun & Hreq & Hfirst & _).
  exists result, s'. split; [exact Hrun |].
  destruct (Hfirst [] _ _ eq_refl eq_refl eq_refl) as [Hres Hcons].
  split; [rewrite Hres; vm_compute; reflexivity |].
  rewrite Hreq, Hcons. reflexivity.
Defined.

End LocationClaims.

(* ================================================================== *)
(** ** The aggregator                                             *)
(* ================================================================== *)

Section Aggregator.

Lemma attempt_parsed (network : string -> Browser.Exchange)
    (provider : Location.LocationProvider) (data : Location.LocationData) :
  attempt network provider = Some data ->
  exists body, data = Location.parser provider body.
Proof.
  unfold attempt, Location.fetchFromProvider, Location.fetch.
  unfold tryCatch, bind, request, throw, ret, lift, warn, emit.
  destruct (Location.REQUEST_TIMEOUT <? Browser.latency (network (Location.url provider)));
    cbn; [discriminate 1 |].
  destruct (Browser.outcome (network (Location.url provider)))
    as [[errorName message | v] | [|] status statusText [body | e]]; cbn;
    try discriminate 1.
  - destruct (errorName =? "AbortError")%string; discriminate 1.
  - destruct (negb (truthy body) || negb (typeofObject body)); cbn;
      [discriminate 1 |].
    destruct (negb (truthy (Location.country (Location.parser provider body)))
              || negb (truthy (Location.city (Location.parser provider body))));
      cbn; [discriminate 1 |].
    intros [= <-]. exists body. reflexivity.
  - destruct e as [errorName message | v]; cbn;
      [destruct (errorName =? "AbortError")%string |]; discriminate 1.
Qed.

(** No provider's parser fills in [ip]. *)
Lemma firstAccepted_ip (network : string -> Browser.Exchange)
    (data : Location.LocationData) :
  firstAccepted network Location.LOCATION_PROVIDERS = Some data ->
  Location.ip data = VUndefined.
Proof.
  unfold Location.LOCATION_PROVIDERS. cbn [firstAccepted].
  repeat match goal with
         | |- context [accepted network ?p] => destruct (accepted network p)
         end;
    try discriminate 1;
    intros H; apply attempt_parsed in H as [body ->]; reflexivity.
Qed.

Lemma getFingerprint_fast_nonempty (env : Browser.Env) (fingerprint : string) :
  Fingerprint.getFingerprint env (Some false) = Ok fingerprint ->
  (fingerprint =? "")%string = false.
Proof.
  unfold Fingerprint.getFingerprint.
  pose proof (getFastFingerprint_spec env) as H.
  destruct (Fingerprint.getFastFingerprint env) as [fp | [n m | v]];
    try discriminate 1.
  intros [= <-]. apply String.eqb_neq, H.
Qed.

(** What the promise of [collectMetadata] resolves to once the classifier
    has returned. *)
Lemma collectMetadata_resolves (env : Browser.Env) (options : Metadata.Options)
    (s : Effects) (uaInfo : UaParser.UserAgentInfo) :
  UaParser.parseUserAgent env = Ok uaInfo ->
  exists s',
    Metadata.collectMetadata env options s
    = (Ok {| Metadata.userAgent := UaParser.userAgent uaInfo;
             Metadata.platform := UaParser.platform uaInfo;
             Metadata.browser := UaParser.browser uaInfo;
             Metadata.deviceType := UaParser.deviceType uaInfo;
             Metadata.ipAddress :=
               match resolvedLocation env options with
               | Some l => Location.ip l
               | None => VStr ""
               end;
             Metadata.fingerprint := resolvedFingerprint env options;
             Metadata.location :=
               match resolvedLocation env options with
               | Some l =>
                   Some {| Metadata.country := Location.country l;
                           Metadata.city := Location.city l;
                           Metadata.latitude :=
                             Metadata.present (Location.latitude l);
                           Metadata.longitude :=
                             Metadata.present (Location.longitude l) |}
               | None => None
               end |}, s').
Proof.
  intros Hua.
  unfold Metadata.collectMetadata, resolvedLocation, resolvedFingerprint.
  unfold bind, lift, Metadata.settle, tryCatch, ret, warn, emit,
    Location.getLocation.
  rewrite Hua.
  destruct (Metadata.orDefault (Metadata.includeFingerprint options) true);
    [destruct (Fingerprint.getFingerprint env (Some false)) as [fp | e] eqn:Hfp;
     [rewrite (getFingerprint_fast_nonempty env fp Hfp) |] |];
    (destruct (Metadata.orDefault (Metadata.includeLocation options) false);
     [ match goal with
       | |- context [Location.tryProviders ?n ?p ?s0] =>
           destruct (tryProviders_spec n p s0) as (s' & -> & _)
       end;
       exists s'; reflexivity
     | eexists; reflexivity ]).
Qed.

Lemma collectMetadata_rejects (env : Browser.Env) (options : Metadata.Options)
    (s : Effects) (e : exn) :
  UaParser.parseUserAgent env = Throw e ->
  Metadata.collectMetadata env options s = (Throw e, s).
Proof.
  intros Hua. unfold Metadata.collectMetadata.
  unfold bind at 1. unfold lift at 1. rewrite Hua. reflexivity.
Qed.

End Aggregator.

Section AggregatorClaims.

(** C4. The promise of [collectMetadata] rejects exactly when the classifier
    raises, and with what it raised. Once the classifier has returned, the
    promise resolves to a record carrying all four classifier fields; a
    fingerprint that could not be generated and a location that could not be
    resolved only leave their key out. *)
Theorem collectMetadata_rejects_iff_classifier_raises
    (env : Browser.Env) (options : Metadata.Options) (s : Effects) :
  (forall e,
      fst (Metadata.collectMetadata env options s) = Throw e
      <-> UaParser.parseUserAgent env = Throw e)
  /\ (forall uaInfo,
         UaParser.parseUserAgent env = Ok uaInfo ->
         exists metadata s',
           Metadata.collectMetadata env options s = (Ok metadata, s')
           /\ Metadata.userAgent metadata = UaParser.userAgent uaInfo
           /\ Metadata.platform metadata = UaParser.platform uaInfo
           /\ Metadata.browser metadata = UaParser.browser uaInfo
           /\ Metadata.deviceType metadata = UaParser.deviceType uaInfo
           /\ Metadata.fingerprint metadata = resolvedFingerprint env options
           /\ (Metadata.location metadata = None
               <-> resolvedLocation env options = None)
           /\ (isOk (Fingerprint.getFingerprint env (Some false)) = false ->
               Metadata.fingerprint metadata = None)
           /\ (firstAccepted (Browser.network env) Location.LOCATION_PROVIDERS
               = None ->
               Metadata.location metadata = None)).
Proof.
  split.
  - intros e. destruct (UaParser.parseUserAgent env) as [uaInfo | e'] eqn:Hua.
    + destruct (collectMetadata_resolves env options s uaInfo Hua) as [s' ->].
      split; discriminate 1.
    + rewrite (collectMetadata_rejects env options s e' Hua). cbn [fst].
      split; intros [= ->]; reflexivity.
  - intros uaInfo Hua.
    destruct (collectMetadata_resolves env options s uaInfo Hua) as [s' ->].
    eexists _, s'. split; [reflexivity |].
    cbn [Metadata.userAgent Metadata.platform Metadata.browser
         Metadata.deviceType Metadata.fingerprint Metadata.location].
    repeat (split; [reflexivity |]).
    split; [| split].
    + destruct (resolvedLocation env options); split; (discriminate 1 || reflexivity).
    + unfold resolvedFingerprint.
      destruct (Fingerprint.getFingerprint env (Some false)); cbn [isOk];
        [discriminate 1 |].
      intros _. destruct (Metadata.orDefault _ _); reflexivity.
    + unfold resolvedLocation. intros ->.
      destruct (Metadata.orDefault _ _); reflexivity.
Qed.

Lemma collectMetadata_rejects_iff_classifier_raises_witness :
  exists metadata s',
    Metadata.collectMetadata Sample.desktop Metadata.noOptions start
    = (Ok metadata, s')
    /\ Metadata.platform metadata = "macOS"
    /\ Metadata.browser metadata = "Chrome"
    /\ Metadata.deviceType metadata = "desktop".
Proof.
  destruct (proj2 (collectMetadata_rejects_iff_classifier_raises
                     Sample.desktop Metadata.noOptions start)
                  _ eq_refl)
    as (metadata & s' & H & _ & Hp & Hb & Hd & _).
  exists metadata, s'. split; [exact H |].
  split; [exact Hp |]. split; [exact Hb | exact Hd].
Defined.

(** C2 (as the code has it). No provider's parser copies an [ip] out of the
    response, so whenever a location is resolved [ipAddress] is [undefined];
    it is the empty string only when there is no location. With the first
    provider answering the test suite's New York record: *)
Theorem collectMetadata_ipAddress_undefined :
  (exists metadata s',
      Metadata.collectMetadata
        (Sample.withNetwork Sample.desktop (Sample.answering 120))
        (Sample.withLocation None) start
      = (Ok metadata, s')
      /\ Metadata.ipAddress metadata = VUndefined
      /\ ipAddressIsString metadata = false
      /\ Metadata.location metadata
         = Some {| Metadata.country := VStr "United States";
                   Metadata.city := VStr "New York";
                   Metadata.latitude := Some (VNum (Fin 40.7128%Q));
                   Metadata.longitude := Some (VNum (Fin (-74.006)%Q)) |})
  /\ (forall env options s metadata s',
         Metadata.collectMetadata env options s = (Ok metadata, s') ->
         Metadata.ipAddress metadata
         = match Metadata.location metadata with
           | Some _ => VUndefined
           | None => VStr ""
           end).
Proof.
  split.
  - eexists _, _. split; [vm_compute; reflexivity |].
    repeat split.
  - intros env options s metadata s' H.
    destruct (UaParser.parseUserAgent env) as [uaInfo | e] eqn:Hua.
    + destruct (collectMetadata_resolves env options s uaInfo Hua) as [s1 H1].
      rewrite H1 in H. injection H as <- _.
      cbn [Metadata.ipAddress Metadata.location].
      destruct (resolvedLocation env options) as [l |] eqn:Hl; [| reflexivity].
      unfold resolvedLocation in Hl.
      destruct (Metadata.orDefault _ _); [| discriminate Hl].
      apply (firstAccepted_ip _ _ Hl).
    + rewrite (collectMetadata_rejects env options s e Hua) in H.
      discriminate H.
Qed.

(** C3 (as the code has it). [collectMetadata] hands [locationTimeout] to
    [getLocation], which takes no argument: the result is the same for every
    timeout. With the first provider answering after 3000 ms and a timeout
    of 100 ms the location is still part of the record, resolved at 3000 ms,
    whereas [getLocationWithTimeout(100)] gives up at 100 ms. *)
Theorem collectMetadata_ignores_locationTimeout :
  (forall env location fingerprint timeout timeout' s,
      Metadata.collectMetadata env
        {| Metadata.includeLocation := location;
           Metadata.includeFingerprint := fingerprint;
           Metadata.locationTimeout := timeout |} s
      = Metadata.collectMetadata env
          {| Metadata.includeLocation := location;
             Metadata.includeFingerprint := fingerprint;
             Metadata.locationTimeout := timeout' |} s)
  /\ (exists metadata s',
         Metadata.collectMetadata
           (Sample.withNetwork Sample.desktop (Sample.answering 3000))
           (Sample.withLocation (Some 100)) start
         = (Ok metadata, s')
         /\ Metadata.location metadata <> None
         /\ clock s' = 3000
         /\ map snd (requests s') = ["https://ipapi.co/json/"])
  /\ (exists s',
         Location.getLocationWithTimeout (Sample.answering 3000) 100 start
         = (Ok None, s')
         /\ clock s' = 100).
Proof.
  split; [reflexivity |]. split.
  - eexists _, _. split; [vm_compute; reflexivity |].
    split; [discriminate 1 |]. split; reflexivity.
  - eexists. split; [vm_compute; reflexivity | reflexivity].
Qed.

End AggregatorClaims.

(* ================================================================== *)
(** ** The behaviour the test suite records                       *)
(* ================================================================== *)

Section TestSuite.

(** The rolling hash is the 32-bit [h * 31 + c] hash. *)
Example rollingHash_values :
  Fingerprint.rollingHash "hello" = 99162322
  /\ Fingerprint.rollingHash "hello world" = 1794106052
  /\ Fingerprint.rollingHash "The quick brown fox jumps over the lazy dog"
     = -609428141.
Proof. repeat split; vm_compute; reflexivity. Qed.

(** [uaParser.test.ts]: the expectations the classifier meets. *)
Example uaParser_tests_met :
  UaParser.detectPlatform "Mozilla/5.0 (Windows NT 10.0; Win64; x64) AppleWebKit/537.36 (KHTML, like Gecko) Chrome/91.0.4472.124 Safari/537.36" = "Windows 10/11"
  /\ UaParser.detectPlatform "Mozilla/5.0 (Windows NT 6.3; Win64; x64) AppleWebKit/537.36 (KHTML, like Gecko) Chrome/91.0.4472.124 Safari/537.36" = "Windows 8.1"
  /\ UaParser.detectPlatform "Mozilla/5.0 (iPhone; CPU iPhone OS 14_6 like Mac OS X) AppleWebKit/605.1.15 (KHTML, like Gecko) Version/14.0 Mobile/15E148 Safari/604.1" = "iOS"
  /\ UaParser.detectPlatform "Mozilla/5.0 (iPad; CPU OS 14_6 like Mac OS X) AppleWebKit/605.1.15 (KHTML, like Gecko) Version/14.0 Mobile/15E148 Safari/604.1" = "iPadOS"
  /\ UaParser.detectPlatform "Mozilla/5.0 (Linux; Android 11; SM-G991B) AppleWebKit/537.36 (KHTML, like Gecko) Chrome/91.0.4472.124 Mobile Safari/537.36" = "Android"
  /\ UaParser.detectPlatform "Mozilla/5.0 (X11; Ubuntu; Linux x86_64; rv:89.0) Gecko/20100101 Firefox/89.0" = "Ubuntu"
  /\ UaParser.detectBrowser "Mozilla/5.0 (Windows NT 10.0; Win64; x64; rv:89.0) Gecko/20100101 Firefox/89.0" = "Firefox"
  /\ UaParser.detectBrowser "Mozilla/5.0 (Macintosh; Intel Mac OS X 10_15_7) AppleWebKit/605.1.15 (KHTML, like Gecko) Version/14.1.1 Safari/605.1.15" = "Safari"
  /\ UaParser.detectBrowser "Mozilla/5.0 (Windows NT 10.0; Win64; x64) AppleWebKit/537.36 (KHTML, like Gecko) Chrome/91.0.4472.124 Safari/537.36 Edg/91.0.864.59" = "Edge"
  /\ UaParser.detectBrowser "Mozilla/5.0 (Windows NT 10.0; Win64; x64) AppleWebKit/537.36 (KHTML, like Gecko) Chrome/91.0.4472.124 Safari/537.36 OPR/77.0.4054.277" = "Opera"
  /\ UaParser.detectBrowser "Mozilla/5.0 (Windows NT 10.0; Win64; x64) AppleWebKit/537.36 (KHTML, like Gecko) Chrome/91.0.4472.124 Safari/537.36 Brave/91.1.26.74" = "Brave"
  /\ UaParser.detectBrowser "UnknownBrowser/1.0" = "Unknown"
  /\ UaParser.detectDeviceType "Mozilla/5.0 (iPad; CPU OS 14_6 like Mac OS X) AppleWebKit/605.1.15 (KHTML, like Gecko) Version/14.0 Mobile/15E148 Safari/604.1" = "tablet"
  /\ UaParser.detectDeviceType "Mozilla/5.0 (iPhone; CPU iPhone OS 14_6 like Mac OS X) AppleWebKit/605.1.15 (KHTML, like Gecko) Version/14.0 Mobile/15E148 Safari/604.1" = "mobile"
  /\ UaParser.detectPlatform "Malformed UA String Without Standard Format" = "Unknown"
  /\ UaParser.detectBrowser "Malformed UA String Without Standard Format" = "Unknown"
  /\ UaParser.detectDeviceType "Malformed UA String Without Standard Format" = "desktop".
Proof. repeat split; vm_compute; reflexivity. Qed.

(** [uaParser.test.ts]: three user agents for which the test suite expects
    "Chrome OS", "tablet" and "Samsung Internet". *)
Example uaParser_tests_not_met :
  UaParser.detectPlatform "Mozilla/5.0 (X11; CrOS x86_64 13904.77.0) AppleWebKit/537.36 (KHTML, like Gecko) Chrome/91.0.4472.124 Safari/537.36" = "Unknown"
  /\ UaParser.detectDeviceType "Mozilla/5.0 (Linux; Android 11; SM-T870) AppleWebKit/537.36 (KHTML, like Gecko) Chrome/91.0.4472.124 Safari/537.36" = "mobile"
  /\ UaParser.detectBrowser Sample.samsungInternet = "Chrome".
Proof. repeat split; vm_compute; reflexivity. Qed.

(** [location.test.ts]: the first provider answers, and one request is
    sent. *)
Example location_first_provider :
  Location.getLocation
    (Sample.providers (Sample.responding Sample.newYork)
                      (Sample.failing (Error "Network error")))
    start
  = (Ok (Some {| Location.ip := VUndefined;
                 Location.country := VStr "United States";
                 Location.city := VStr "New York";
                 Location.latitude := VNum (Fin 40.7128%Q);
                 Location.longitude := VNum (Fin (-74.006)%Q) |}),
     {| console :=
          [(10, ConsoleLog
                  [Text "Successfully retrieved location from ipapi.co"])];
        requests := [(0, "https://ipapi.co/json/")];
        clock := 10 |}).
Proof. vm_compute. reflexivity. Qed.

(** The first provider fails, the second answers in its own field names. *)
Example location_second_provider :
  Location.getLocation
    (Sample.providers (Sample.failing (Error "Network error"))
                      (Sample.responding Sample.toronto))
    start
  = (Ok (Some {| Location.ip := VUndefined;
                 Location.country := VStr "Canada";
                 Location.city := VStr "Toronto";
                 Location.latitude := VNum (Fin 43.6532%Q);
                 Location.longitude := VNum (Fin (-79.3832)%Q) |}),
     {| console :=
          [(10, ConsoleWarn [Text "Failed to fetch location from ipapi.co:";
                             Text "Network error"]);
           (20, ConsoleLog
                  [Text "Successfully retrieved location from ip-api.com"])];
        requests := [(0, "https://ipapi.co/json/");
                     (10, "http://ip-api.com/json/")];
        clock := 20 |}).
Proof. vm_compute. reflexivity. Qed.

(** An HTTP error, then a thrown value that is no [Error]: two requests,
    [undefined], and the final warning once. *)
Example location_all_providers_fail :
  Location.getLocation
    (Sample.providers (Sample.refusing 404 "Not Found")
                      (Sample.failing (JsThrown "String error")))
    start
  = (Ok None,
     {| console :=
          [(10, ConsoleWarn [Text "Failed to fetch location from ipapi.co:";
                             Text "HTTP 404: Not Found"]);
           (20, ConsoleWarn
                  [Text "Unknown error fetching location from ip-api.com:";
                   Thrown (JsThrown "String error")]);
           (20, ConsoleWarn
                  [Text "All location providers failed. Location data unavailable."])];
        requests := [(0, "https://ipapi.co/json/");
                     (10, "http://ip-api.com/json/")];
        clock := 20 |}).
Proof. vm_compute. reflexivity. Qed.

(** A body of [null], and a provider that does not answer within
    [REQUEST_TIMEOUT]. *)
Example location_invalid_body_and_abort :
  Location.getLocation
    (Sample.providers
       (Sample.responding VNull)
       {| Browser.latency := 60000;
          Browser.bodyLatency := 0;
          Browser.outcome :=
            Browser.FetchResponded true 200 "OK" (Ok Sample.toronto) |})
    start
  = (Ok None,
     {| console :=
          [(10, ConsoleWarn [Text "Failed to fetch location from ipapi.co:";
                             Text "Invalid response data format"]);
           (5010, ConsoleWarn
                    [Text "Location request to ip-api.com timed out after 5000ms"]);
           (5010, ConsoleWarn
                    [Text "All location providers failed. Location data unavailable."])];
        requests := [(0, "https://ipapi.co/json/");
                     (10, "http://ip-api.com/json/")];
        clock := 5010 |}).
Proof. vm_compute. reflexivity. Qed.

(** [metadata.test.ts]: the defaults give a fingerprint, no location and an
    empty [ipAddress]; without a [navigator] the promise rejects. *)
Example metadata_defaults :
  Metadata.collectMetadata Sample.desktop Metadata.noOptions start
  = (Ok {| Metadata.userAgent :=
             "Mozilla/5.0 (Macintosh; Intel Mac OS X 10_15_7) AppleWebKit/537.36 (KHTML, like Gecko) Chrome/91.0.4472.124 Safari/537.36";
           Metadata.platform := "macOS";
           Metadata.browser := "Chrome";
           Metadata.deviceType := "desktop";
           Metadata.ipAddress := VStr "";
           Metadata.fingerprint := Some "6f1851fd";
           Metadata.location := None |},
     start)
  /\ Metadata.collectMetadata Sample.serverSide Metadata.noOptions start
     = (Throw (ReferenceError "navigator"), start).
Proof. split; vm_compute; reflexivity. Qed.

(** [fingerprint.test.ts], on the ClientJS-delegating variant: a numeric
    fingerprint is rendered as a string; when nothing can be read the
    timestamp token is returned after two warnings. *)
Example clientjs_fingerprint_tiers :
  FingerprintClientJS.getFingerprint Sample.desktop start
  = (Ok "123456789", start)
  /\ FingerprintClientJS.getFingerprint Sample.serverSide start
     = (Ok "fallback_18bcfe56800",
        {| console :=
             [(0, ConsoleWarn [Text "Browser fingerprinting failed:";
                               Thrown (ReferenceError "window")]);
              (0, ConsoleWarn [Text "Fallback fingerprinting also failed:";
                               Thrown (ReferenceError "navigator")])];
           requests := [];
           clock := 0 |}).
Proof. split; vm_compute; reflexivity. Qed.

End TestSuite.

(* ================================================================== *)
(** ** The hash and the format of a fingerprint                    *)
(* ================================================================== *)

Section HashFacts.

Lemma toInt32_range (z : Z) : int32 (toInt32 z).
Proof.
  unfold int32, toInt32.
  pose proof (Z.mod_pos_bound (z + 2147483648) 4294967296 eq_refl). lia.
Qed.

Lemma toInt32_add_l (a b : Z) : toInt32 (toInt32 a + b) = toInt32 (a + b).
Proof.
  unfold toInt32. f_equal.
  replace ((a + 2147483648) mod 4294967296 - 2147483648 + b + 2147483648)
    with ((a + 2147483648) mod 4294967296 + b) by lia.
  rewrite Z.add_mod_idemp_l by lia. f_equal. lia.
Qed.

(** One turn of the loop is [hash * 31 + char], cut to 32 bits. *)
Lemma hash_step (hash char : Z) :
  toInt32 ((toInt32 (hash * 32) - hash) + char) = toInt32 (31 * hash + char).
Proof.
  replace (toInt32 (hash * 32) - hash + char)
    with (toInt32 (hash * 32) + (char - hash)) by lia.
  rewrite toInt32_add_l. f_equal. lia.
Qed.

Lemma list_ascii_of_string_app (s t : string) :
  list_ascii_of_string (s ++ t)
  = (list_ascii_of_string s ++ list_ascii_of_string t)%list.
Proof.
  induction s as [| c s IH]; cbn; [reflexivity | rewrite IH; reflexivity].
Qed.

Lemma rollingHash_snoc (data : string) (c : ascii) :
  Fingerprint.rollingHash (data ++ String c "")
  = toInt32 (31 * Fingerprint.rollingHash data + charCode c).
Proof.
  unfold Fingerprint.rollingHash.
  rewrite list_ascii_of_string_app, fold_left_app. cbn [list_ascii_of_string fold_left].
  apply hash_step.
Qed.

Lemma rollingHash_int32 (data : string) : int32 (Fingerprint.rollingHash data).
Proof.
  unfold Fingerprint.rollingHash.
  assert (H : forall l h, int32 h ->
            int32 (fold_left
                     (fun hash char =>
                        toInt32 ((toInt32 (hash * 32) - hash)
                                 + Z.of_nat (nat_of_ascii char))) l h)).
  { induction l as [| c l IH]; intros h Hh; cbn [fold_left]; [exact Hh |].
    apply IH, toInt32_range. }
  apply H. unfold int32. lia.
Qed.

Lemma hexDigit_spec (d : Z) :
  0 <= d < 16 ->
  isLowerHex (hexDigit d) = true /\ hexValueOf (hexDigit d) = d.
Proof.
  intros H.
  assert (E : d = 0 \/ d = 1 \/ d = 2 \/ d = 3 \/ d = 4 \/ d = 5 \/ d = 6
              \/ d = 7 \/ d = 8 \/ d = 9 \/ d = 10 \/ d = 11 \/ d = 12
              \/ d = 13 \/ d = 14 \/ d = 15) by lia.
  repeat (destruct E as [-> | E]; [split; vm_compute; reflexivity |]).
  subst d. split; vm_compute; reflexivity.
Qed.

Lemma hexDigits_hex (fuel : nat) (n : Z) (acc : string) :
  0 <= n ->
  forallb isLowerHex (list_ascii_of_string acc) = true ->
  forallb isLowerHex (list_ascii_of_string (hexDigits fuel n acc)) = true.
Proof.
  revert n acc. induction fuel as [| fuel IH]; intros n acc Hn Hacc;
    cbn [hexDigits].
  - cbn [list_ascii_of_string forallb]. rewrite Hacc, andb_true_r.
    apply hexDigit_spec. apply Z.mod_pos_bound. lia.
  - destruct (n <? 16) eqn:E.
    + cbn [list_ascii_of_string forallb]. rewrite Hacc, andb_true_r.
      apply hexDigit_spec. apply Z.ltb_lt in E. lia.
    + apply IH.
      * apply Z.div_pos; lia.
      * cbn [list_ascii_of_string forallb]. rewrite Hacc, andb_true_r.
        apply hexDigit_spec. apply Z.mod_pos_bound. lia.
Qed.

Lemma hexDigits_length (fuel : nat) (k : nat) (n : Z) (acc : string) :
  0 <= n < 16 ^ Z.of_nat (S k) ->
  (S (String.length acc) <= String.length (hexDigits fuel n acc)
   <= S k + String.length acc)%nat.
Proof.
  revert k n acc. induction fuel as [| fuel IH]; intros k n acc Hn;
    cbn [hexDigits].
  - cbn [String.length]. lia.
  - destruct (n <? 16) eqn:E.
    + cbn [String.length]. lia.
    + apply Z.ltb_ge in E.
      destruct k as [| k].
      { change (16 ^ Z.of_nat 1) with 16 in Hn. lia. }
      assert (Hq : 0 <= n / 16 < 16 ^ Z.of_nat (S k)).
      { split; [apply Z.div_pos; lia |].
        apply Z.div_lt_upper_bound; [lia |].
        replace (Z.of_nat (S (S k))) with (Z.succ (Z.of_nat (S k))) in Hn by lia.
        rewrite Z.pow_succ_r in Hn by lia. lia. }
      specialize (IH k (n / 16) (String (hexDigit (n mod 16)) acc) Hq).
      cbn [String.length] in IH. lia.
Qed.

Lemma hexDigits_value (fuel : nat) (n : Z) (acc : string) :
  0 <= n < 16 ^ Z.of_nat (S fuel) ->
  fold_left (fun v c => 16 * v + hexValueOf c)
            (list_ascii_of_string (hexDigits fuel n acc)) 0
  = fold_left (fun v c => 16 * v + hexValueOf c) (list_ascii_of_string acc) n.
Proof.
  revert n acc. induction fuel as [| fuel IH]; intros n acc Hn;
    cbn [hexDigits].
  - change (16 ^ Z.of_nat 1) with 16 in Hn.
    cbn [list_ascii_of_string fold_left].
    rewrite Z.mod_small by lia.
    rewrite (proj2 (hexDigit_spec n Hn)). f_equal.
  - destruct (n <? 16) eqn:E.
    + apply Z.ltb_lt in E. cbn [list_ascii_of_string fold_left].
      rewrite (proj2 (hexDigit_spec n (conj (proj1 Hn) E))). f_equal.
    + apply Z.ltb_ge in E.
      assert (Hq : 0 <= n / 16 < 16 ^ Z.of_nat (S fuel)).
      { split; [apply Z.div_pos; lia |].
        apply Z.div_lt_upper_bound; [lia |].
        replace (Z.of_nat (S (S fuel))) with (Z.succ (Z.of_nat (S fuel)))
          in Hn by lia.
        rewrite Z.pow_succ_r in Hn by lia. lia. }
      rewrite (IH (n / 16) _ Hq). cbn [list_ascii_of_string fold_left].
      rewrite (proj2 (hexDigit_spec (n mod 16)
                        (Z.mod_pos_bound n 16 eq_refl))).
      f_equal. pose proof (Z.div_mod n 16). lia.
Qed.

(** [n.toString(16)] of a natural number below 16^8: its hexadecimal
    numeral, of at most eight digits. *)
Lemma toString16_spec (n : Z) :
  0 <= n < 16 ^ 8 ->
  forallb isLowerHex (list_ascii_of_string (toString16 n)) = true
  /\ (1 <= String.length (toString16 n) <= 8)%nat
  /\ parseHex (toString16 n) = n.
Proof.
  intros Hn. unfold toString16, parseHex.
  destruct (n <? 0) eqn:E; [apply Z.ltb_lt in E; lia |].
  rewrite Z.abs_eq by lia.
  split; [apply hexDigits_hex; [lia | reflexivity] |]. split.
  - pose proof (hexDigits_length (Z.to_nat (Z.log2 n)) 7 n "" Hn) as H.
    cbn [String.length] in H. lia.
  - apply hexDigits_value. split; [lia |].
    destruct (Z.eq_dec n 0) as [-> | Hz]; [reflexivity |].
    pose proof (Z.log2_spec n ltac:(lia)) as [_ Hlog].
    pose proof (Z.log2_nonneg n) as Hnn.
    replace (Z.of_nat (S (Z.to_nat (Z.log2 n)))) with (Z.succ (Z.log2 n)) by lia.
    eapply Z.lt_le_trans; [exact Hlog |].
    apply Z.pow_le_mono_l. lia.
Qed.

End HashFacts.

Section HashTheorems.

Lemma hashCharacteristics_spec (cs : list Fingerprint.characteristic) :
  (1 <= String.length (Fingerprint.hashCharacteristics cs) <= 8)%nat
  /\ forallb isLowerHex
       (list_ascii_of_string (Fingerprint.hashCharacteristics cs)) = true
  /\ parseHex (Fingerprint.hashCharacteristics cs)
     = Z.abs (Fingerprint.rollingHash
                (String.concat "|" (map Fingerprint.render cs))).
Proof.
  unfold Fingerprint.hashCharacteristics.
  pose proof (rollingHash_int32
                (String.concat "|" (map Fingerprint.render cs))) as Hr.
  unfold int32 in Hr.
  assert (Hn : 0 <= Z.abs (Fingerprint.rollingHash
                             (String.concat "|" (map Fingerprint.render cs)))
               < 16 ^ 8).
  { change (16 ^ 8) with 4294967296. lia. }
  destruct (toString16_spec _ Hn) as (Hhex & Hlen & Hval).
  repeat split; try assumption; lia.
Qed.

Lemma getFingerprint_hashed (env : Browser.Env) (comprehensive : option bool)
    (fingerprint : string) :
  Fingerprint.getFingerprint env comprehensive = Ok fingerprint ->
  exists cs, fingerprint = Fingerprint.hashCharacteristics cs.
Proof.
  unfold Fingerprint.getFingerprint.
  assert (Hfast : forall fp, Fingerprint.getFastFingerprint env = Ok fp ->
                             exists cs, fp = Fingerprint.hashCharacteristics cs).
  { unfold Fingerprint.getFastFingerprint. intros fp.
    repeat match goal with
           | |- context [rbind ?r _] => destruct r; cbn [rbind]
           end; try discriminate 1.
    intros [= <-]. eexists. reflexivity. }
  assert (Hfull : forall fp,
             Fingerprint.getComprehensiveFingerprint env = Ok fp ->
             exists cs, fp = Fingerprint.hashCharacteristics cs).
  { unfold Fingerprint.getComprehensiveFingerprint. intros fp.
    destruct (Fingerprint.getBasicCharacteristics env); cbn [rbind];
      [| discriminate 1].
    intros [= <-]. eexists. reflexivity. }
  destruct comprehensive as [[|] |].
  - destruct (Fingerprint.getComprehensiveFingerprint env) as [fp | [n m | v]];
      try discriminate 1.
    intros [= <-]. apply Hfull. reflexivity.
  - destruct (Fingerprint.getFastFingerprint env) as [fp | [n m | v]];
      try discriminate 1.
    intros [= <-]. apply Hfast. reflexivity.
  - destruct (Fingerprint.getFastFingerprint env) as [fp | [n m | v]];
      try discriminate 1.
    intros [= <-]. apply Hfast. reflexivity.
Qed.

(** X3. Whatever [getFingerprint] returns, with or without the comprehensive
    flag, consists of one to eight characters, all of them among [0-9a-f]:
    it is the hexadecimal numeral of the absolute value of a 32-bit hash. *)
Theorem getFingerprint_format (env : Browser.Env) (comprehensive : option bool)
    (fingerprint : string) :
  Fingerprint.getFingerprint env comprehensive = Ok fingerprint ->
  (1 <= String.length fingerprint <= 8)%nat
  /\ forallb isLowerHex (list_ascii_of_string fingerprint) = true
  /\ 0 <= parseHex fingerprint <= 2147483648.
Proof.
  intros H. destruct (getFingerprint_hashed env comprehensive fingerprint H)
    as [cs ->].
  destruct (hashCharacteristics_spec cs) as (Hlen & Hhex & Hval).
  split; [exact Hlen |]. split; [exact Hhex |].
  rewrite Hval.
  pose proof (rollingHash_int32
                (String.concat "|" (map Fingerprint.render cs))) as Hr.
  unfold int32 in Hr. lia.
Qed.

Lemma getFingerprint_format_witness :
  (1 <= String.length "6f1851fd" <= 8)%nat
  /\ forallb isLowerHex (list_ascii_of_string "6f1851fd") = true
  /\ 0 <= parseHex "6f1851fd" <= 2147483648.
Proof.
  apply (getFingerprint_format Sample.desktop None).
  vm_compute. reflexivity.
Defined.

(** X4. The rolling hash is the polynomial hash with multiplier 31 in
    32-bit arithmetic: it is 0 on the empty string, appending a character
    [c] turns a hash [h] into [h * 31 + c] wrapped to a signed 32-bit
    integer, and every hash is a signed 32-bit integer. *)
Theorem rollingHash_polynomial :
  Fingerprint.rollingHash "" = 0
  /\ (forall data c,
         Fingerprint.rollingHash (data ++ String c "")
         = toInt32 (31 * Fingerprint.rollingHash data + charCode c))
  /\ (forall data, int32 (Fingerprint.rollingHash data)).
Proof.
  split; [reflexivity |]. split.
  - apply rollingHash_snoc.
  - apply rollingHash_int32.
Qed.

(** X5. Comprehensive mode reads everything fast mode reads: whenever
    [getFingerprint(true)] returns, so does [getFingerprint()]. *)
Theorem getFingerprint_comprehensive_implies_fast (env : Browser.Env) :
  isOk (Fingerprint.getFingerprint env (Some true)) = true ->
  isOk (Fingerprint.getFingerprint env None) = true
  /\ isOk (Fingerprint.getFingerprint env (Some false)) = true.
Proof.
  unfold Fingerprint.getFingerprint.
  pose proof (getComprehensiveFingerprint_spec env) as Hc.
  pose proof (getFastFingerprint_spec env) as Hf.
  destruct (Fingerprint.getComprehensiveFingerprint env) as [fp | [n m | v]];
    cbn [isOk]; try discriminate 1.
  intros _. destruct Hc as [_ Hb].
  assert (Hfast : fastReadable env = true).
  { unfold basicReadable in Hb. unfold fastReadable.
    destruct (Browser.navigator env) as [nav |]; [| discriminate Hb].
    destruct (Browser.screen env) as [scr |]; [| discriminate Hb].
    repeat match goal with
           | H : _ && _ = true |- _ => apply andb_true_iff in H as [H ?]
           end.
    repeat (apply andb_true_iff; split); assumption. }
  destruct (Fingerprint.getFastFingerprint env) as [fp' | [n m | v]];
    cbn [isOk]; try (split; reflexivity); congruence.
Qed.

Lemma getFingerprint_comprehensive_implies_fast_witness :
  isOk (Fingerprint.getFingerprint Sample.desktop None) = true
  /\ isOk (Fingerprint.getFingerprint Sample.desktop (Some false)) = true.
Proof.
  apply getFingerprint_comprehensive_implies_fast.
  vm_compute. reflexivity.
Defined.

End HashTheorems.

(* ================================================================== *)
(** ** The font probe                                              *)
(* ================================================================== *)

Section Probes.

Lemma probeFonts_filter (context : Browser.Context2D) (baseWidth : number)
    (widthOf : string -> number) (fonts : list string) :
  (forall font, In font fonts ->
                Browser.measureText context (probeFont font) = Ok (widthOf font)) ->
  Fingerprint.probeFonts context baseWidth fonts
  = Ok (filter (fun font => strictNeq (widthOf font) baseWidth) fonts).
Proof.
  induction fonts as [| font fonts IH]; intros H; cbn [Fingerprint.probeFonts filter].
  - reflexivity.
  - change ("72px" ++ " " ++ font ++ ", monospace") with (probeFont font).
    rewrite (H font (or_introl eq_refl)). cbn [rbind].
    rewrite IH by (intros f Hf; apply H; right; exact Hf).
    cbn [rbind]. destruct (strictNeq (widthOf font) baseWidth); reflexivity.
Qed.

Lemma filter_none {A} (f : A -> bool) (l : list A) :
  (forall a, In a l -> f a = false) -> filter f l = [].
Proof.
  induction l as [| a l IH]; intros H; cbn [filter]; [reflexivity |].
  rewrite (H a (or_introl eq_refl)). apply IH. intros b Hb. apply H. right. exact Hb.
Qed.

(** X6. With a 2D context on which every measurement succeeds, the font
    fingerprint is the comma-separated list of exactly those fonts of the
    probe list, in the order of the list, under which the probe text is not
    as wide as under the bare monospace font; when no font changes the width
    it is the empty string. When there is no 2D context it is "no-canvas",
    and when creating the canvas throws it is "font-error". *)
Theorem getFontFingerprint_available_fonts
    (env : Browser.Env) (canvas : Browser.Canvas) :
  Browser.createCanvas env = Ok canvas ->
  (forall context baseWidth widthOf,
      Browser.getContext2d canvas = Ok (Some context) ->
      Browser.measureText context "72px monospace" = Ok baseWidth ->
      (forall font, In font Fingerprint.fontList ->
                    Browser.measureText context (probeFont font)
                    = Ok (widthOf font)) ->
      Fingerprint.getFontFingerprint env
      = String.concat ","
          (filter (fun font => strictNeq (widthOf font) baseWidth)
                  Fingerprint.fontList)
      /\ ((forall font, In font Fingerprint.fontList ->
                        strictNeq (widthOf font) baseWidth = false) ->
          Fingerprint.getFontFingerprint env = ""))
  /\ (Browser.getContext2d canvas = Ok None ->
      Fingerprint.getFontFingerprint env = "no-canvas")
  /\ (forall e, Browser.getContext2d canvas = Throw e ->
                Fingerprint.getFontFingerprint env = "font-error").
Proof.
  intros Hcanvas. unfold Fingerprint.getFontFingerprint. rewrite Hcanvas.
  cbn [rbind]. split; [| split].
  - intros context baseWidth widthOf Hctx Hbase Hfonts.
    rewrite Hctx. cbn [rbind].
    change ("72px" ++ " monospace") with "72px monospace". rewrite Hbase.
    cbn [rbind].
    rewrite (probeFonts_filter context baseWidth widthOf _ Hfonts).
    cbn [rbind Fingerprint.orSentinel]. split; [reflexivity |].
    intros Hsame. rewrite (filter_none _ _ Hsame). reflexivity.
  - intros ->. reflexivity.
  - intros e ->. reflexivity.
Qed.

Lemma getFontFingerprint_available_fonts_witness :
  Fingerprint.getFontFingerprint Sample2.drawing = "Arial,Verdana".
Proof.
  refine (eq_trans
            (proj1 (proj1 (getFontFingerprint_available_fonts
                             Sample2.drawing _ eq_refl)
                          Sample2.twoFonts (ofZ 720)
                          (fun font =>
                             if (font =? "Arial")%string then ofZ 803
                             else if (font =? "Verdana")%string then ofZ 912
                             else ofZ 720)
                          eq_refl eq_refl _)) _).
  - intros font Hin. cbn in Hin.
    repeat (destruct Hin as [<- | Hin]; [vm_compute; reflexivity |]).
    destruct Hin.
  - vm_compute. reflexivity.
Defined.

End Probes.

(* ================================================================== *)
(** ** The classifier: case and precedence                         *)
(* ================================================================== *)

Section Classifier.

Lemma test_rei_foldCase (alts : list string) (ua ua' : string) :
  foldCase ua = foldCase ua' -> test (rei alts) ua = test (rei alts) ua'.
Proof.
  intros H. unfold test, rei. cbn [ignoreCase alternatives]. rewrite H.
  reflexivity.
Qed.

Lemma firstMatch_foldCase (table : list UaParser.Entry) (ua ua' : string) :
  forallb plainEntry table = true ->
  foldCase ua = foldCase ua' ->
  UaParser.firstMatch table (toLowerCase ua)
  = UaParser.firstMatch table (toLowerCase ua').
Proof.
  intros Hp H. induction table as [| e table IH]; cbn [UaParser.firstMatch];
    [reflexivity |].
  cbn [forallb] in Hp. apply andb_true_iff in Hp as [He Ht].
  rewrite !(test_entry e _ He). unfold matches.
  rewrite (test_rei_foldCase _ ua ua' H), (IH Ht). reflexivity.
Qed.

(** A case-insensitive test on the lower-cased user agent. *)
Lemma test_markers (alts : list string) (ua : string) :
  forallb plain alts = true ->
  test (rei alts) (toLowerCase ua) = existsb (fun m => contains m ua) alts.
Proof.
  intros Hp. rewrite (test_toLowerCase (rei alts) ua Hp).
  unfold contains, test, rei. cbn [ignoreCase alternatives].
  induction alts as [| a alts IH]; cbn [existsb]; [reflexivity |].
  cbn [forallb] in Hp. apply andb_true_iff in Hp as [_ Hp].
  rewrite (IH Hp), orb_false_r. reflexivity.
Qed.

(** [detectDeviceType], on the original user agent. *)
Lemma detectDeviceType_markers (ua : string) :
  UaParser.detectDeviceType ua
  = if tabletMarked ua then "tablet"
    else if mobileMarked ua then "mobile"
    else "desktop".
Proof.
  unfold UaParser.detectDeviceType.
  rewrite !test_markers by reflexivity.
  cbn [existsb]. rewrite !orb_false_r.
  unfold tabletMarked, mobileMarked. rewrite !orb_assoc. reflexivity.
Qed.

(** A pattern of the platform table on the lower-cased user agent. *)
Lemma test_platform_marker (alts : list string) (ua : string) :
  forallb plain alts = true ->
  test (re alts) (toLowerCase ua) = existsb (fun m => contains m ua) alts.
Proof.
  intros Hp. rewrite (test_toLowerCase (re alts) ua Hp).
  rewrite <- (test_markers alts ua Hp).
  symmetry. apply (test_toLowerCase (rei alts) ua Hp).
Qed.

(** The first nine entries of the platform table, on the original user
    agent. *)
Lemma detectPlatform_head (ua : string) :
  UaParser.detectPlatform ua
  = if contains "windows nt 10" ua then "Windows 10/11"
    else if contains "windows nt 6.3" ua then "Windows 8.1"
    else if contains "windows nt 6.2" ua then "Windows 8"
    else if contains "windows nt 6.1" ua then "Windows 7"
    else if contains "windows" ua then "Windows"
    else if contains "iphone" ua || contains "ipod" ua then "iOS"
    else if contains "ipad" ua then "iPadOS"
    else if contains "macintosh" ua || contains "mac os x" ua then "macOS"
    else if contains "android" ua then "Android"
    else UaParser.firstMatch (skipn 9 UaParser.platforms) (toLowerCase ua).
Proof.
  unfold UaParser.detectPlatform, UaParser.platforms.
  cbn [UaParser.firstMatch UaParser.pattern UaParser.name skipn].
  rewrite !test_platform_marker by reflexivity.
  cbn [existsb]. rewrite !orb_false_r. reflexivity.
Qed.

Lemma contains_app_l (p q ua : string) :
  contains (p ++ q) ua = true -> contains p ua = true.
Proof.
  unfold contains, test, rei. cbn [ignoreCase alternatives existsb].
  rewrite !orb_false_r.
  assert (E : foldCase (p ++ q) = foldCase p ++ foldCase q).
  { induction p as [| c p IH]; cbn; [reflexivity | rewrite IH; reflexivity]. }
  rewrite E. apply includes_app_l.
Qed.

Lemma firstMatch_names (table : list UaParser.Entry) (s : string) :
  UaParser.firstMatch table s = "Unknown"
  \/ In (UaParser.firstMatch table s) (map UaParser.name table).
Proof.
  induction table as [| e table IH]; cbn [UaParser.firstMatch map].
  - left. reflexivity.
  - destruct (test (UaParser.pattern e) s).
    + right. left. reflexivity.
    + destruct IH as [IH | IH]; [left | right; right]; exact IH.
Qed.

End Classifier.

Section ClassifierTheorems.

(** X7. The classification does not depend on letter case: two user agents
    that differ only in the case of their ASCII letters get the same
    platform, browser and device type. *)
Theorem classification_ignores_case (ua ua' : string) :
  foldCase ua = foldCase ua' ->
  UaParser.detectPlatform ua = UaParser.detectPlatform ua'
  /\ UaParser.detectBrowser ua = UaParser.detectBrowser ua'
  /\ UaParser.detectDeviceType ua = UaParser.detectDeviceType ua'.
Proof.
  intros H. split; [| split].
  - apply (firstMatch_foldCase _ ua ua' platforms_plain H).
  - unfold UaParser.detectBrowser.
    rewrite (test_rei_foldCase ["safari"] ua ua' H),
      (test_rei_foldCase ["chrome"] ua ua' H),
      (firstMatch_foldCase _ ua ua' browsers_plain H).
    reflexivity.
  - unfold UaParser.detectDeviceType.
    rewrite !(test_toLowerCase (rei _) ua) by reflexivity.
    rewrite !(test_toLowerCase (rei _) ua') by reflexivity.
    cbn [alternatives rei].
    rewrite !(test_rei_foldCase _ ua ua' H). reflexivity.
Qed.

Lemma classification_ignores_case_witness :
  UaParser.detectPlatform "MOZILLA/5.0 (IPAD; CPU OS 14_6 LIKE MAC OS X) SAFARI/604.1"
  = UaParser.detectPlatform "mozilla/5.0 (ipad; cpu os 14_6 like mac os x) safari/604.1"
  /\ UaParser.detectBrowser "MOZILLA/5.0 (IPAD; CPU OS 14_6 LIKE MAC OS X) SAFARI/604.1"
     = UaParser.detectBrowser "mozilla/5.0 (ipad; cpu os 14_6 like mac os x) safari/604.1"
  /\ UaParser.detectDeviceType "MOZILLA/5.0 (IPAD; CPU OS 14_6 LIKE MAC OS X) SAFARI/604.1"
     = UaParser.detectDeviceType "mozilla/5.0 (ipad; cpu os 14_6 like mac os x) safari/604.1".
Proof.
  apply classification_ignores_case. vm_compute. reflexivity.
Defined.

(** X8. A user agent is given one of the five Windows names exactly when it
    contains "windows": no other entry of the platform table can take a
    Windows user agent, and no other user agent is called Windows. With
    "windows nt 10" the name is "Windows 10/11". *)
Theorem detectPlatform_windows (ua : string) :
  (In (UaParser.detectPlatform ua) windowsNames <-> contains "windows" ua = true)
  /\ (contains "windows nt 10" ua = true ->
      UaParser.detectPlatform ua = "Windows 10/11").
Proof.
  rewrite detectPlatform_head. split.
  - split.
    + destruct (contains "windows nt 10" ua) eqn:E10;
        [intros _; apply (contains_app_l "windows" " nt 10"), E10 |].
      destruct (contains "windows nt 6.3" ua) eqn:E63;
        [intros _; apply (contains_app_l "windows" " nt 6.3"), E63 |].
      destruct (contains "windows nt 6.2" ua) eqn:E62;
        [intros _; apply (contains_app_l "windows" " nt 6.2"), E62 |].
      destruct (contains "windows nt 6.1" ua) eqn:E61;
        [intros _; apply (contains_app_l "windows" " nt 6.1"), E61 |].
      destruct (contains "windows" ua); [reflexivity |].
      intros Hin. exfalso. revert Hin.
      destruct (contains "iphone" ua || contains "ipod" ua);
        [cbn; intuition discriminate |].
      destruct (contains "ipad" ua); [cbn; intuition discriminate |].
      destruct (contains "macintosh" ua || contains "mac os x" ua);
        [cbn; intuition discriminate |].
      destruct (contains "android" ua); [cbn; intuition discriminate |].
      destruct (firstMatch_names (skipn 9 UaParser.platforms) (toLowerCase ua))
        as [-> | Hin]; [cbn; intuition discriminate |].
      revert Hin. generalize (UaParser.firstMatch (skipn 9 UaParser.platforms)
                                (toLowerCase ua)).
      intros n Hn Hw. cbn in Hn, Hw.
      repeat (destruct Hn as [<- | Hn]; [intuition discriminate |]).
      destruct Hn.
    + intros Hw.
      destruct (contains "windows nt 10" ua); [cbn; tauto |].
      destruct (contains "windows nt 6.3" ua); [cbn; tauto |].
      destruct (contains "windows nt 6.2" ua); [cbn; tauto |].
      destruct (contains "windows nt 6.1" ua); [cbn; tauto |].
      rewrite Hw. cbn. tauto.
  - intros ->. reflexivity.
Qed.

(** X9. The device type is "tablet" exactly when the user agent carries a
    tablet marker (ipad, tablet, kindle, playbook, silk), whatever else it
    carries; "mobile" exactly when it carries no tablet marker but a mobile
    marker (mobile, android, iphone, ipod, blackberry, opera mini, iemobile,
    wpdesktop); and "desktop" exactly when it carries neither. *)
Theorem detectDeviceType_precedence (ua : string) :
  (UaParser.detectDeviceType ua = "tablet" <-> tabletMarked ua = true)
  /\ (UaParser.detectDeviceType ua = "mobile"
      <-> tabletMarked ua = false /\ mobileMarked ua = true)
  /\ (UaParser.detectDeviceType ua = "desktop"
      <-> tabletMarked ua = false /\ mobileMarked ua = false).
Proof.
  rewrite detectDeviceType_markers.
  destruct (tabletMarked ua), (mobileMarked ua);
    repeat split; intros; try discriminate; try tauto;
    match goal with H : _ /\ _ |- _ => destruct H; discriminate end.
Qed.

(** X10. Precedence among the Apple and Android entries: unless it contains
    "windows", a user agent with "iphone" or "ipod" is iOS, also when it
    says "like Mac OS X" or "iPad"; a user agent with "android" and none of
    the Windows, Apple markers is Android, also when it says "Linux". *)
Theorem detectPlatform_ios_android (ua : string) :
  contains "windows" ua = false ->
  (contains "iphone" ua || contains "ipod" ua = true ->
   UaParser.detectPlatform ua = "iOS")
  /\ (contains "iphone" ua || contains "ipod" ua = false ->
      contains "ipad" ua = true ->
      UaParser.detectPlatform ua = "iPadOS")
  /\ (contains "iphone" ua || contains "ipod" ua = false ->
      contains "ipad" ua = false ->
      contains "macintosh" ua || contains "mac os x" ua = false ->
      contains "android" ua = true ->
      UaParser.detectPlatform ua = "Android").
Proof.
  intros Hw. rewrite detectPlatform_head.
  assert (H10 : contains "windows nt 10" ua = false).
  { destruct (contains "windows nt 10" ua) eqn:E; [| reflexivity].
    apply (contains_app_l "windows" " nt 10") in E. congruence. }
  assert (H63 : contains "windows nt 6.3" ua = false).
  { destruct (contains "windows nt 6.3" ua) eqn:E; [| reflexivity].
    apply (contains_app_l "windows" " nt 6.3") in E. congruence. }
  assert (H62 : contains "windows nt 6.2" ua = false).
  { destruct (contains "windows nt 6.2" ua) eqn:E; [| reflexivity].
    apply (contains_app_l "windows" " nt 6.2") in E. congruence. }
  assert (H61 : contains "windows nt 6.1" ua = false).
  { destruct (contains "windows nt 6.1" ua) eqn:E; [| reflexivity].
    apply (contains_app_l "windows" " nt 6.1") in E. congruence. }
  rewrite H10, H63, H62, H61, Hw.
  split; [| split].
  - intros ->. reflexivity.
  - intros -> ->. reflexivity.
  - intros -> -> -> ->. reflexivity.
Qed.

Lemma detectPlatform_ios_android_witness :
  UaParser.detectPlatform Sample2.androidPhone = "Android".
Proof.
  apply (proj2 (proj2 (detectPlatform_ios_android Sample2.androidPhone
                         eq_refl)));
    reflexivity.
Defined.

End ClassifierTheorems.

(* ================================================================== *)
(** ** The resolver: requests, console and clock                   *)
(* ================================================================== *)

Section ProviderEffects.

Variable network : string -> Browser.Exchange.

Ltac elapsed :=
  cbn [clock]; unfold headWait, bodyWait, Location.REQUEST_TIMEOUT;
  repeat match goal with
         | H : Browser.outcome _ = _ |- _ => rewrite H
         end;
  repeat match goal with
         | |- context [?a <=? ?b] => destruct (Z.leb_spec a b)
         end;
  lia.

Lemma fetchFromProvider_effects (provider : Location.LocationProvider)
    (s : Effects) :
  exists s',
    Location.fetchFromProvider network provider s
    = (Ok (attempt network provider), s')
    /\ requests s' = (requests s ++ [(clock s, Location.url provider)])%list
    /\ clock s'
       = clock s + headWait (network (Location.url provider))
         + bodyWait (network (Location.url provider))
    /\ match attempt network provider with
       | Some data =>
           console s' = console s
           /\ truthy (Location.country data) = true
           /\ truthy (Location.city data) = true
       | None =>
           exists args,
             console s' = (console s ++ [(clock s', ConsoleWarn args)])%list
             /\ ConsoleWarn args <> allFailed
             /\ forall error, ConsoleWarn args <> fingerprintWarning error
       end.
Proof.
  unfold attempt, Location.fetchFromProvider, Location.fetch.
  unfold tryCatch, bind, request, wait, throw, ret, lift, warn, emit.
  unfold Location.REQUEST_TIMEOUT, allFailed, fingerprintWarning.
  destruct (5000 <? Browser.latency (network (Location.url provider))) eqn:Et.
  - apply Z.ltb_lt in Et. cbn. eexists. split; [reflexivity |].
    split; [reflexivity |]. split; [elapsed |].
    eexists. split; [reflexivity |]. split; [| intros error]; intros H; inversion H.
  - apply Z.ltb_ge in Et. cbn.
    destruct (Browser.outcome (network (Location.url provider)))
      as [[errorName message | v] | [|] status statusText [data | e]] eqn:Eo;
      cbn.
    + destruct (errorName =? "AbortError")%string; cbn; eexists;
        (split; [reflexivity |]); (split; [reflexivity |]);
        (split; [elapsed |]); eexists; (split; [reflexivity |]);
        (split; [| intros error]); intros H; inversion H.
    + eexists. split; [reflexivity |]. split; [reflexivity |].
      split; [elapsed |]. eexists. split; [reflexivity |]. split; [| intros error]; intros H; inversion H.
    + destruct (negb (truthy data) || negb (typeofObject data)); cbn.
      { eexists. split; [reflexivity |]. split; [reflexivity |].
        split; [elapsed |]. eexists. split; [reflexivity |]. split; [| intros error]; intros H; inversion H. }
      destruct (truthy (Location.country (Location.parser provider data)))
        eqn:Ecountry; cbn.
      2:{ eexists. split; [reflexivity |]. split; [reflexivity |].
          split; [elapsed |]. eexists. split; [reflexivity |]. split; [| intros error]; intros H; inversion H. }
      destruct (truthy (Location.city (Location.parser provider data)))
        eqn:Ecity; cbn.
      2:{ eexists. split; [reflexivity |]. split; [reflexivity |].
          split; [elapsed |]. eexists. split; [reflexivity |]. split; [| intros error]; intros H; inversion H. }
      eexists. split; [reflexivity |]. split; [reflexivity |].
      split; [elapsed |]. repeat split; assumption.
    + destruct e as [errorName message | v]; cbn;
        [destruct (errorName =? "AbortError")%string; cbn |];
        eexists; (split; [reflexivity |]); (split; [reflexivity |]);
        (split; [elapsed |]); eexists; (split; [reflexivity |]);
        (split; [| intros error]); intros H; inversion H.
    + eexists. split; [reflexivity |]. split; [reflexivity |].
      split; [elapsed |]. eexists. split; [reflexivity |]. split; [| intros error]; intros H; inversion H.
    + eexists. split; [reflexivity |]. split; [reflexivity |].
      split; [elapsed |]. eexists. split; [reflexivity |]. split; [| intros error]; intros H; inversion H.
Qed.

End ProviderEffects.

Section SequenceEffects.

Variable network : string -> Browser.Exchange.

Lemma tryProviders_effects (providers : list Location.LocationProvider)
    (s : Effects) :
  exists s' attempts,
    Location.tryProviders network providers s
    = (Ok (firstAccepted network providers), s')
    /\ console s'
       = (console s ++ attempts ++ [(clock s', closing network providers)])%list
    /\ Forall attemptWarning attempts
    /\ (length attempts <= length (consulted network providers))%nat
    /\ length (requests s')
       = (length (requests s) + length (consulted network providers))%nat
    /\ clock s' = clock s + waits network (consulted network providers).
Proof.
  revert s. induction providers as [| provider rest IH]; intros s.
  - cbn. eexists _, []. split; [reflexivity |]. cbn.
    repeat split; try constructor; try lia.
  - cbn [Location.tryProviders firstAccepted consulted]. unfold bind at 1.
    destruct (fetchFromProvider_effects network provider s)
      as (s1 & -> & Hreq & Hclock & Hconsole).
    unfold closing. cbn [winner]. unfold accepted.
    destruct (attempt network provider) as [data |].
    + destruct Hconsole as (Hconsole & _ & _).
      destruct (Location.validateLocationData data).
      * cbn. exists (mkEffects
                       (console s1
                        ++ [(clock s1,
                             ConsoleLog
                               [Text ("Successfully retrieved location from "
                                      ++ Location.name provider)])])
                       (requests s1) (clock s1)), [].
        split; [reflexivity |]. cbn. rewrite Hconsole, Hreq, length_app.
        cbn. repeat split; try constructor; try lia.
      * destruct (IH s1) as (s' & attempts & -> & Hc & Hw & Hl & Hr & Ht).
        exists s', attempts. split; [reflexivity |].
        fold (closing network rest). fold (accepted network).
        rewrite Hc, Hconsole, Hr, Hreq, length_app. cbn [length].
        unfold waits in *. cbn [map fold_right].
        repeat split; try assumption; try lia.
    + destruct Hconsole as (args & Hconsole & Hne & _).
      destruct (IH s1) as (s' & attempts & -> & Hc & Hw & Hl & Hr & Ht).
      exists s', ((clock s1, ConsoleWarn args) :: attempts).
      split; [reflexivity |].
      rewrite Hc, Hconsole, Hr, Hreq, length_app, <- app_assoc. cbn [length app].
      unfold waits in *. cbn [map fold_right].
      repeat split; try lia.
      constructor; [| exact Hw]. exists args. split; [reflexivity | exact Hne].
Qed.

Lemma headWait_le (exchange : Browser.Exchange) :
  headWait exchange <= Location.REQUEST_TIMEOUT.
Proof. unfold headWait. lia. Qed.

Lemma bodyWait_le (exchange : Browser.Exchange) :
  bodyWait exchange <= Z.max 0 (Browser.bodyLatency exchange).
Proof.
  unfold bodyWait.
  destruct (_ <=? _); [| lia].
  destruct (Browser.outcome exchange) as [e | [|] status statusText body]; lia.
Qed.

(** The two attempts of [getLocation] take at most twice [REQUEST_TIMEOUT]
    and the time it takes to read the bodies. *)
Lemma waits_le :
  waits network (consulted network Location.LOCATION_PROVIDERS)
  <= 10000
     + Z.max 0 (Browser.bodyLatency (network "https://ipapi.co/json/"))
     + Z.max 0 (Browser.bodyLatency (network "http://ip-api.com/json/")).
Proof.
  unfold Location.LOCATION_PROVIDERS. cbn [consulted].
  pose proof (headWait_le (network "https://ipapi.co/json/")) as H1.
  pose proof (headWait_le (network "http://ip-api.com/json/")) as H2.
  pose proof (bodyWait_le (network "https://ipapi.co/json/")) as B1.
  pose proof (bodyWait_le (network "http://ip-api.com/json/")) as B2.
  unfold Location.REQUEST_TIMEOUT in *.
  repeat match goal with
         | |- context [accepted network ?p] => destruct (accepted network p)
         end;
    unfold waits; cbn [map fold_right Location.url]; lia.
Qed.

Lemma firstAccepted_valid (providers : list Location.LocationProvider)
    (data : Location.LocationData) :
  firstAccepted network providers = Some data ->
  Location.validateLocationData data = true
  /\ exists provider body,
       In provider providers /\ data = Location.parser provider body.
Proof.
  induction providers as [| provider rest IH]; cbn [firstAccepted];
    [discriminate 1 |].
  unfold accepted.
  destruct (attempt network provider) as [d |] eqn:Ea.
  - destruct (Location.validateLocationData d) eqn:Ev.
    + intros [= <-]. split; [exact Ev |].
      destruct (attempt_parsed network provider d Ea) as [body ->].
      exists provider, body. split; [left |]; reflexivity.
    + intros H. destruct (IH H) as (Hv & p & body & Hin & Hd).
      split; [exact Hv |]. exists p, body. split; [right |]; assumption.
  - intros H. destruct (IH H) as (Hv & p & body & Hin & Hd).
    split; [exact Hv |]. exists p, body. split; [right |]; assumption.
Qed.




Lemma tryProviders_console (providers : list Location.LocationProvider)
    (s : Effects) :
  exists more,
    console (snd (Location.tryProviders network providers s))
    = (console s ++ more)%list.
Proof.
  destruct (tryProviders_effects providers s)
    as (s' & attempts & -> & Hc & _). cbn [snd].
  eexists. exact Hc.
Qed.



Lemma consulted_length (providers : list Location.LocationProvider) :
  (length (consulted network providers) <= length providers)%nat
  /\ (providers <> [] -> 1 <= length (consulted network providers))%nat.
Proof.
  induction providers as [| provider rest IH]; cbn [consulted length].
  - split; [lia | congruence].
  - destruct (accepted network provider); cbn [length]; lia.
Qed.

End SequenceEffects.

Section ValidationFacts.

Lemma validateLocationData_sound (location : Location.LocationData) :
  Location.validateLocationData location = true ->
  truthy (Location.country location) = true
  /\ truthy (Location.city location) = true
  /\ coordinatesOk (Location.latitude location) (Location.longitude location).
Proof.
  destruct location as [ip country city latitude longitude].
  unfold Location.validateLocationData, coordinatesOk.
  cbn [Location.country Location.city Location.latitude Location.longitude].
  destruct (truthy country); cbn [negb orb]; [| discriminate 1].
  destruct (truthy city); cbn [negb orb]; [| discriminate 1].
  destruct latitude as [| | b | [| | | lat] | str | props];
    destruct longitude as [| | b' | [| | | lon] | str' | props'];
    cbn [defined orb isNaN]; try discriminate 1;
    try (unfold gt, ofZ; cbn [lt orb]; rewrite ?orb_true_r; discriminate 1).
  - intros _. repeat split. left. split; reflexivity.
  - destruct (lt (Fin lat) (ofZ (-90)) || gt (Fin lat) (ofZ 90)) eqn:Elat;
      cbn [orb]; [discriminate 1 |].
    destruct (lt (Fin lon) (ofZ (-180)) || gt (Fin lon) (ofZ 180)) eqn:Elon;
      [discriminate 1 |].
    intros _. repeat split. right. exists lat, lon.
    split; [reflexivity |]. split; [reflexivity |]. split.
    + apply (in_range lat (-90) 90), Elat.
    + apply (in_range lon (-180) 180), Elon.
Qed.

End ValidationFacts.

Section LocationTheorems.

(** X11. One attempt on a provider never rejects and sends at most one
    request, to the provider's URL and at the moment of the call. The abort
    timer guards the wait for the promise of [fetch] only, which therefore
    takes at most [REQUEST_TIMEOUT] (5000 ms); the timer is cleared before
    the body is read, so the attempt lasts that wait and then as long as
    [response.json()] takes: on a response that came in time and with an ok
    status the attempt takes [latency + bodyLatency], however long the body
    takes to arrive. When the attempt yields a record, the record has a
    non-empty country and city and nothing was written to the console; when
    it yields [undefined], exactly one warning was. *)
Theorem fetchFromProvider_one_attempt
    (network : string -> Browser.Exchange)
    (provider : Location.LocationProvider) (s : Effects) :
  let exchange := network (Location.url provider) in
  exists yielded s',
    Location.fetchFromProvider network provider s = (Ok yielded, s')
    /\ (requests s' = requests s
        \/ requests s'
           = (requests s ++ [(clock s, Location.url provider)])%list)
    /\ clock s' = clock s + headWait exchange + bodyWait exchange
    /\ headWait exchange <= 5000
    /\ (forall status statusText body,
           Browser.latency exchange <= 5000 ->
           Browser.outcome exchange
           = Browser.FetchResponded true status statusText body ->
           clock s'
           = clock s + Browser.latency exchange + Browser.bodyLatency exchange)
    /\ match yielded with
       | Some data =>
           console s' = console s
           /\ truthy (Location.country data) = true
           /\ truthy (Location.city data) = true
       | None =>
           exists args,
             console s' = (console s ++ [(clock s', ConsoleWarn args)])%list
       end.
Proof.
  cbv zeta.
  destruct (fetchFromProvider_effects network provider s)
    as (s' & Hrun & Hreq & Hclock & Hconsole).
  exists (attempt network provider), s'.
  split; [exact Hrun |]. split; [right; exact Hreq |].
  split; [exact Hclock |].
  split; [apply (headWait_le (network (Location.url provider))) |].
  split.
  - intros status statusText body Hl Ho. rewrite Hclock.
    unfold headWait, bodyWait, Location.REQUEST_TIMEOUT. rewrite Ho.
    destruct (Z.leb_spec (Browser.latency (network (Location.url provider)))
                         5000); lia.
  - destruct (attempt network provider); [exact Hconsole |].
    destruct Hconsole as (args & Hc & _). exists args. exact Hc.
Qed.

(** X12. A record [getLocation] resolves to has passed validation: its
    country and city are non-empty, its coordinates are both missing or both
    finite with the latitude in [-90, 90] and the longitude in [-180, 180] -
    and it carries no [ip]. *)
Theorem getLocation_result_valid
    (network : string -> Browser.Exchange) (s s' : Effects)
    (data : Location.LocationData) :
  Location.getLocation network s = (Ok (Some data), s') ->
  Location.validateLocationData data = true
  /\ truthy (Location.country data) = true
  /\ truthy (Location.city data) = true
  /\ coordinatesOk (Location.latitude data) (Location.longitude data)
  /\ Location.ip data = VUndefined.
Proof.
  intros Hrun. unfold Location.getLocation in Hrun.
  destruct (tryProviders_spec network Location.LOCATION_PROVIDERS s)
    as (s1 & Hspec & _).
  rewrite Hspec in Hrun.
  assert (Hfirst : firstAccepted network Location.LOCATION_PROVIDERS
                   = Some data) by congruence.
  destruct (firstAccepted_valid network _ data Hfirst) as (Hv & _).
  split; [exact Hv |].
  destruct (validateLocationData_sound data Hv) as (Hc & Hy & Hxy).
  repeat (split; [assumption |]).
  apply (firstAccepted_ip network data Hfirst).
Qed.

Lemma getLocation_result_valid_witness :
  exists data s',
    Location.getLocation (Sample.answering 120) start = (Ok (Some data), s')
    /\ Location.validateLocationData data = true
    /\ coordinatesOk (Location.latitude data) (Location.longitude data).
Proof.
  eexists _, _. split; [vm_compute; reflexivity |].
  destruct (getLocation_result_valid (Sample.answering 120) start _ _
              ltac:(vm_compute; reflexivity))
    as (Hv & _ & _ & Hxy & _).
  split; [exact Hv | exact Hxy].
Defined.

(** X13. Whatever the network does, [getLocation] resolves, having sent at
    most two requests, after the attempts on the providers it consulted, one
    after the other. That is at most 10000 ms (twice [REQUEST_TIMEOUT]) and
    the time it takes to read the bodies of the two responses, on which the
    module sets no bound. *)
Theorem getLocation_bounds
    (network : string -> Browser.Exchange) (s : Effects) :
  exists result s',
    Location.getLocation network s = (Ok result, s')
    /\ (length (requests s') <= length (requests s) + 2)%nat
    /\ clock s'
       = clock s + waits network (consulted network Location.LOCATION_PROVIDERS)
    /\ clock s'
       <= clock s + 10000
          + Z.max 0 (Browser.bodyLatency (network "https://ipapi.co/json/"))
          + Z.max 0 (Browser.bodyLatency (network "http://ip-api.com/json/")).
Proof.
  unfold Location.getLocation.
  destruct (tryProviders_effects network Location.LOCATION_PROVIDERS s)
    as (s' & attempts & Hrun & _ & _ & _ & Hreq & Hclock).
  exists (firstAccepted network Location.LOCATION_PROVIDERS), s'.
  split; [exact Hrun |].
  destruct (consulted_length network Location.LOCATION_PROVIDERS)
    as [Hle _].
  change (length Location.LOCATION_PROVIDERS) with 2%nat in Hle.
  split; [lia |]. split; [exact Hclock |].
  pose proof (waits_le network). lia.
Qed.




(** X16. [isLocationServiceAvailable] sends no request and takes no time.
    It answers [false], and writes nothing, exactly when [window] or
    [fetch] does not exist. When both exist and the page has no location,
    it answers [true] and writes nothing. When the page has a location, it
    calls [startsWith] on its protocol unguarded: on a protocol that is not
    a string the call raises a [TypeError] and nothing is written; on a
    string the answer is [true], whatever the origin, and an insecure
    origin only costs one warning, written exactly when the protocol does
    not start with "https:" and the host name is not "localhost". *)
Theorem isLocationServiceAvailable_answer
    (globals : LocationService.Globals) (s : Effects) :
  let run := LocationService.isLocationServiceAvailable globals s in
  requests (snd run) = requests s
  /\ clock (snd run) = clock s
  /\ (fst run = Ok false
      <-> LocationService.window globals = None
          \/ LocationService.fetchDefined globals = false)
  /\ (fst run = Ok false -> snd run = s)
  /\ (forall win,
         LocationService.window globals = Some win ->
         LocationService.fetchDefined globals = true ->
         match LocationService.location win with
         | None => run = (Ok true, s)
         | Some page =>
             match LocationService.protocol page with
             | VStr protocol =>
                 fst run = Ok true
                 /\ (prefix "https:" protocol = false ->
                     LocationService.hostname page <> VStr "localhost" ->
                     console (snd run)
                     = (console s
                        ++ [(clock s,
                             ConsoleWarn [Text "Location services may not work reliably on non-HTTPS sites"])])%list)
                 /\ (prefix "https:" protocol = true
                     \/ LocationService.hostname page = VStr "localhost" ->
                     snd run = s)
             | _ => exists message, run = (Throw (TypeError message), s)
             end
         end).
Proof.
  cbv zeta. unfold LocationService.isLocationServiceAvailable.
  destruct (LocationService.window globals) as [[location] |].
  2:{ cbn. repeat split; try reflexivity; try discriminate.
      - intros _. left. reflexivity. }
  destruct (LocationService.fetchDefined globals); cbn [negb].
  2:{ cbn. repeat split; try reflexivity; try discriminate.
      - intros _. right. reflexivity. }
  assert (Hno : forall (A : Type) (a : A), Some a = None \/ true = false -> False)
    by (intros A a [H | H]; discriminate H).
  destruct location as [[protocol hostname] |].
  2:{ cbn. split; [reflexivity |]. split; [reflexivity |].
      split; [split; [discriminate 1 | intros H; destruct (Hno _ _ H)] |].
      split; [discriminate 1 |].
      intros win [= <-] _. reflexivity. }
  unfold bind at 1. unfold bind at 1. unfold lift.
  destruct protocol as [| | b | n | protocol | props];
    cbn [LocationService.startsWith LocationService.protocol
         LocationService.hostname LocationService.location];
    try (cbn; split; [reflexivity |]; split; [reflexivity |];
         split; [split; [discriminate 1 | intros H; destruct (Hno _ _ H)] |];
         split; [discriminate 1 |];
         intros win [= <-] _; cbn; eexists; reflexivity).
  destruct (prefix "https:" protocol) eqn:Ep; cbn [negb andb].
  - cbn. split; [reflexivity |]. split; [reflexivity |].
    split; [split; [discriminate 1 | intros H; destruct (Hno _ _ H)] |].
    split; [discriminate 1 |].
    intros win [= <-] _. cbn. rewrite Ep.
    split; [reflexivity |]. split; [discriminate 1 | reflexivity].
  - destruct (LocationService.isNot hostname "localhost") eqn:Eh.
    + cbn. split; [reflexivity |]. split; [reflexivity |].
      split; [split; [discriminate 1 | intros H; destruct (Hno _ _ H)] |].
      split; [discriminate 1 |].
      intros win [= <-] _. cbn. rewrite Ep.
      split; [reflexivity |]. split; [reflexivity |].
      intros [H | ->]; [discriminate H |].
      cbn in Eh. discriminate Eh.
    + cbn. split; [reflexivity |]. split; [reflexivity |].
      split; [split; [discriminate 1 | intros H; destruct (Hno _ _ H)] |].
      split; [discriminate 1 |].
      intros win [= <-] _. cbn. rewrite Ep.
      split; [reflexivity |]. split; [| reflexivity].
      intros _ Hne. exfalso. apply Hne.
      destruct hostname as [| | b | n | h | props]; try discriminate Eh.
      cbn in Eh. apply negb_false_iff, String.eqb_eq in Eh. subst h. reflexivity.
Qed.

(** An origin served over plain HTTP is usable and costs a warning; a page
    location without a protocol makes the probe raise. *)
Example isLocationServiceAvailable_samples :
  LocationService.isLocationServiceAvailable Sample2.insecurePage start
  = (Ok true,
     {| console :=
          [(0, ConsoleWarn [Text "Location services may not work reliably on non-HTTPS sites"])];
        requests := [];
        clock := 0 |})
  /\ LocationService.isLocationServiceAvailable
       {| LocationService.window := Some
            {| LocationService.location := Some
                 {| LocationService.protocol := VUndefined;
                    LocationService.hostname := VStr "example.com" |} |};
          LocationService.fetchDefined := true |}
       start
     = (Throw (TypeError
                 "Cannot read properties of undefined (reading 'startsWith')"),
        start).
Proof. split; vm_compute; reflexivity. Qed.

(** A response whose head arrives after 100 ms and whose body takes a
    minute: the attempt outlasts [REQUEST_TIMEOUT], and [getLocation] with
    it. *)
Example getLocation_slow_body :
  exists result s',
    Location.getLocation (Sample2.trickling 100 60000) start = (Ok result, s')
    /\ result <> None
    /\ clock s' = 60100
    /\ map snd (requests s') = ["https://ipapi.co/json/"].
Proof.
  eexists _, _. split; [vm_compute; reflexivity |].
  split; [discriminate 1 |]. split; reflexivity.
Qed.

End LocationTheorems.

(* ================================================================== *)
(** ** The aggregator: effects and the shape of the record         *)
(* ================================================================== *)

Section AggregatorEffects.

Lemma collectMetadata_effects (env : Browser.Env) (options : Metadata.Options)
    (s : Effects) (uaInfo : UaParser.UserAgentInfo) :
  UaParser.parseUserAgent env = Ok uaInfo ->
  exists metadata,
    Metadata.collectMetadata env options s
    = (Ok metadata,
       if Metadata.orDefault (Metadata.includeLocation options) false
       then snd (Location.getLocation (Browser.network env)
                   (afterFingerprint env options s))
       else afterFingerprint env options s).
Proof.
  intros Hua.
  unfold Metadata.collectMetadata, afterFingerprint.
  unfold bind, lift, Metadata.settle, tryCatch, ret, warn, emit,
    Location.getLocation.
  rewrite Hua.
  destruct (Metadata.orDefault (Metadata.includeFingerprint options) true);
    [destruct (Fingerprint.getFingerprint env (Some false)) as [fp | e] |];
    (destruct (Metadata.orDefault (Metadata.includeLocation options) false);
     [ match goal with
       | |- context [Location.tryProviders ?n ?p ?s0] =>
           destruct (tryProviders_spec n p s0) as (s' & Hrun & _);
           rewrite Hrun
       end;
       eexists; reflexivity
     | eexists; reflexivity ]).
Qed.

Lemma afterFingerprint_frame (env : Browser.Env) (options : Metadata.Options)
    (s : Effects) :
  requests (afterFingerprint env options s) = requests s
  /\ clock (afterFingerprint env options s) = clock s.
Proof.
  unfold afterFingerprint.
  destruct (Metadata.orDefault _ _); [| split; reflexivity].
  destruct (Fingerprint.getFingerprint env (Some false)); split; reflexivity.
Qed.

End AggregatorEffects.

Section AggregatorTheorems.

(** X17. Unless location is asked for, [collectMetadata] touches neither the
    network nor the clock - no request is sent, whether the promise resolves
    or rejects - and a record it resolves to has the empty string as
    [ipAddress] and no [location] key. *)
Theorem collectMetadata_without_location
    (env : Browser.Env) (options : Metadata.Options) (s : Effects) :
  Metadata.orDefault (Metadata.includeLocation options) false = false ->
  requests (snd (Metadata.collectMetadata env options s)) = requests s
  /\ clock (snd (Metadata.collectMetadata env options s)) = clock s
  /\ (forall metadata s',
         Metadata.collectMetadata env options s = (Ok metadata, s') ->
         Metadata.ipAddress metadata = VStr ""
         /\ Metadata.location metadata = None).
Proof.
  intros Hoff.
  destruct (UaParser.parseUserAgent env) as [uaInfo | e] eqn:Hua.
  - destruct (collectMetadata_effects env options s uaInfo Hua) as [m Hrun].
    destruct (collectMetadata_resolves env options s uaInfo Hua) as [s1 Hres].
    rewrite Hoff in Hrun.
    destruct (afterFingerprint_frame env options s) as [Hr Hc].
    split; [rewrite Hrun; exact Hr |]. split; [rewrite Hrun; exact Hc |].
    intros metadata s' H. rewrite Hres in H.
    injection H as <- _.
    unfold resolvedLocation. rewrite Hoff. split; reflexivity.
  - rewrite (collectMetadata_rejects env options s e Hua). cbn [snd].
    split; [reflexivity |]. split; [reflexivity |]. discriminate 1.
Qed.

Lemma collectMetadata_without_location_witness :
  requests (snd (Metadata.collectMetadata Sample.desktop Metadata.noOptions
                   start)) = []
  /\ clock (snd (Metadata.collectMetadata Sample.desktop Metadata.noOptions
                   start)) = 0.
Proof.
  destruct (collectMetadata_without_location Sample.desktop Metadata.noOptions
              start eq_refl) as (Hr & Hc & _).
  split; [exact Hr | exact Hc].
Defined.

(** X18. A [location] object in a resolved record is never partial: its
    country and city are non-empty, and its [latitude] and [longitude] keys
    are either both missing or both present, each a finite number, the
    latitude in [-90, 90] and the longitude in [-180, 180]. *)
Theorem collectMetadata_location_complete
    (env : Browser.Env) (options : Metadata.Options) (s s' : Effects)
    (metadata : Metadata.ClientMetadata) (info : Metadata.LocationInfo) :
  Metadata.collectMetadata env options s = (Ok metadata, s') ->
  Metadata.location metadata = Some info ->
  truthy (Metadata.country info) = true
  /\ truthy (Metadata.city info) = true
  /\ ((Metadata.latitude info = None /\ Metadata.longitude info = None)
      \/ exists x y,
           Metadata.latitude info = Some (VNum (Fin x))
           /\ Metadata.longitude info = Some (VNum (Fin y))
           /\ (-90 <= x <= 90)%Q /\ (-180 <= y <= 180)%Q).
Proof.
  intros Hrun Hloc.
  destruct (UaParser.parseUserAgent env) as [uaInfo | e] eqn:Hua.
  2:{ rewrite (collectMetadata_rejects env options s e Hua) in Hrun.
      discriminate Hrun. }
  destruct (collectMetadata_resolves env options s uaInfo Hua) as [s1 Hres].
  rewrite Hres in Hrun. injection Hrun as <- _.
  cbn [Metadata.location] in Hloc.
  destruct (resolvedLocation env options) as [l |] eqn:Hl; [| discriminate Hloc].
  injection Hloc as <-.
  cbn [Metadata.country Metadata.city Metadata.latitude Metadata.longitude].
  unfold resolvedLocation in Hl.
  destruct (Metadata.orDefault _ _); [| discriminate Hl].
  destruct (firstAccepted_valid _ _ l Hl) as (Hv & _).
  destruct (validateLocationData_sound l Hv) as (Hc & Hy & Hxy).
  split; [exact Hc |]. split; [exact Hy |].
  destruct Hxy as [[-> ->] | (x & y & -> & -> & Hx & Hyr)].
  - left. split; reflexivity.
  - right. exists x, y. repeat split; try reflexivity; tauto.
Qed.

Lemma collectMetadata_location_complete_witness :
  exists metadata s' info,
    Metadata.collectMetadata
      (Sample.withNetwork Sample.desktop (Sample.answering 120))
      (Sample.withLocation None) start
    = (Ok metadata, s')
    /\ Metadata.location metadata = Some info
    /\ truthy (Metadata.country info) = true
    /\ truthy (Metadata.city info) = true.
Proof.
  eexists _, _, _. split; [vm_compute; reflexivity |].
  split; [reflexivity |].
  destruct (collectMetadata_location_complete
              (Sample.withNetwork Sample.desktop (Sample.answering 120))
              (Sample.withLocation None) start _ _ _
              ltac:(vm_compute; reflexivity) eq_refl)
    as (Hc & Hy & _).
  split; [exact Hc | exact Hy].
Defined.

(** X19. Whatever the options - [locationTimeout] included - and whatever
    the network does, [collectMetadata] sends at most two requests, and its
    promise settles no later than 10000 ms, and the time it takes to read
    the bodies of the two responses, after the call: the only timers at
    work are those of the two fetches, and they are cleared as soon as the
    head of a response has arrived. When location is asked for and the
    classifier returns, the promise settles exactly when the attempts on
    the providers consulted are over. *)
Theorem collectMetadata_time_bound
    (env : Browser.Env) (options : Metadata.Options) (s : Effects) :
  let s' := snd (Metadata.collectMetadata env options s) in
  (length (requests s') <= length (requests s) + 2)%nat
  /\ clock s'
     <= clock s + 10000
        + Z.max 0 (Browser.bodyLatency
                     (Browser.network env "https://ipapi.co/json/"))
        + Z.max 0 (Browser.bodyLatency
                     (Browser.network env "http://ip-api.com/json/"))
  /\ (isOk (UaParser.parseUserAgent env) = true ->
      Metadata.orDefault (Metadata.includeLocation options) false = true ->
      clock s'
      = clock s
        + waits (Browser.network env)
            (consulted (Browser.network env) Location.LOCATION_PROVIDERS)).
Proof.
  cbv zeta.
  destruct (UaParser.parseUserAgent env) as [uaInfo | e] eqn:Hua.
  - destruct (collectMetadata_effects env options s uaInfo Hua) as [m Hrun].
    rewrite Hrun. cbn [snd].
    destruct (afterFingerprint_frame env options s) as [Hr Hc].
    destruct (Metadata.orDefault (Metadata.includeLocation options) false).
    + unfold Location.getLocation.
      destruct (tryProviders_effects (Browser.network env)
                  Location.LOCATION_PROVIDERS (afterFingerprint env options s))
        as (s' & attempts & Hrun' & _ & _ & _ & Hreq & Hclock).
      rewrite Hrun'. cbn [snd].
      destruct (consulted_length (Browser.network env)
                  Location.LOCATION_PROVIDERS) as [Hle _].
      change (length Location.LOCATION_PROVIDERS) with 2%nat in Hle.
      pose proof (waits_le (Browser.network env)) as Hw.
      rewrite Hreq, Hr. rewrite Hc in Hclock.
      split; [lia |]. split; [lia |]. intros _ _. exact Hclock.
    + rewrite Hr, Hc. split; [lia |]. split; [lia | discriminate 2].
  - rewrite (collectMetadata_rejects env options s e Hua). cbn [snd].
    split; [lia |]. split; [lia | discriminate 1].
Qed.



End AggregatorTheorems.

(* ================================================================== *)
(** ** The React hook                                              *)
(* ================================================================== *)

Section HookTheorems.

(** X21. [collectData] of the React hook never rejects and always ends with
    [loading] false. When the classifier returns, [metadata] holds the
    record [collectMetadata] resolved to and [error] is null; when the
    classifier raises, [metadata] is null, [error] holds the message of what
    was raised ("Unknown error occurred" for a value that is no [Error]) and
    the failure is the last line on the console. The outcome does not depend
    on the state before the call: a refetch keeps nothing of an earlier
    result. *)
Theorem collectData_settles
    (env : Browser.Env) (options : ReactHook.UseClientMetadataOptions)
    (st : ReactHook.HookState) (s : Effects) :
  (exists st' s',
      ReactHook.collectData env options st s = (Ok st', s')
      /\ ReactHook.loading st' = false
      /\ match UaParser.parseUserAgent env with
         | Ok uaInfo =>
             ReactHook.error st' = None
             /\ exists data,
                  ReactHook.metadata st' = Some data
                  /\ Metadata.userAgent data = UaParser.userAgent uaInfo
                  /\ fst (Metadata.collectMetadata env
                            {| Metadata.includeLocation :=
                                 Some (Metadata.orDefault
                                         (ReactHook.includeLocation options)
                                         false);
                               Metadata.includeFingerprint :=
                                 Some (Metadata.orDefault
                                         (ReactHook.includeFingerprint options)
                                         true);
                               Metadata.locationTimeout :=
                                 Some (Metadata.orDefault
                                         (ReactHook.locationTimeout options)
                                         2000) |} s)
                     = Ok data
         | Throw e =>
             ReactHook.metadata st' = None
             /\ ReactHook.error st' = Some (messageOf e)
             /\ s' = mkEffects
                       (console s
                        ++ [(clock s,
                             ConsoleWarn
                               [Text "Failed to collect client metadata:";
                                Thrown e])])
                       (requests s) (clock s)
         end)
  /\ (forall st0,
         ReactHook.collectData env options st0 s
         = ReactHook.collectData env options st s).
Proof.
  unfold ReactHook.collectData.
  set (opts := {| Metadata.includeLocation := _ |}).
  destruct (UaParser.parseUserAgent env) as [uaInfo | e] eqn:Hua.
  - destruct (collectMetadata_resolves env opts s uaInfo Hua) as [s1 Hres].
    unfold bind, tryCatch, ret. rewrite Hres. split.
    + eexists _, _. split; [reflexivity |]. split; [reflexivity |].
      split; [reflexivity |]. eexists. split; [reflexivity |].
      split; reflexivity.
    + intros st0. reflexivity.
  - pose proof (collectMetadata_rejects env opts s e Hua) as Hrej.
    unfold bind, tryCatch, ret, warn, emit. rewrite Hrej. split.
    + eexists _, _. split; [reflexivity |]. split; [reflexivity |].
      split; [reflexivity |]. split; [| reflexivity].
      destruct e; reflexivity.
    + intros st0. reflexivity.
Qed.

End HookTheorems.

(* ================================================================== *)
(** ** The tiers of the ClientJS variant                           *)
(* ================================================================== *)

Section ClientJSTiers.


End ClientJSTiers.

(* ================================================================== *)
(** ** When an attempt yields a record                             *)
(* ================================================================== *)

Section AttemptOutcome.

(** X23. An attempt on a provider yields a record exactly when the exchange
    is over within [REQUEST_TIMEOUT], the response has an ok status, its
    body parses to an object, and the record the provider's parser builds
    from it has a non-empty country and city; the record yielded is that
    one. A rejected request, an aborted one, an HTTP error status, an
    unparsable or non-object body and a missing field all yield
    [undefined]. *)
Theorem fetchFromProvider_yields_iff
    (network : string -> Browser.Exchange)
    (provider : Location.LocationProvider) (s : Effects)
    (data : Location.LocationData) :
  fst (Location.fetchFromProvider network provider s) = Ok (Some data)
  <-> exists status statusText body,
        Browser.latency (network (Location.url provider)) <= 5000
        /\ Browser.outcome (network (Location.url provider))
           = Browser.FetchResponded true status statusText (Ok body)
        /\ truthy body = true
        /\ typeofObject body = true
        /\ data = Location.parser provider body
        /\ truthy (Location.country data) = true
        /\ truthy (Location.city data) = true.
Proof.
  destruct (fetchFromProvider_effects network provider s)
    as (s' & Hrun & _). rewrite Hrun. cbn [fst].
  unfold attempt, Location.fetchFromProvider, Location.fetch.
  unfold tryCatch, bind, request, throw, ret, lift, warn, emit.
  unfold Location.REQUEST_TIMEOUT.
  destruct (5000 <? Browser.latency (network (Location.url provider))) eqn:Et.
  - apply Z.ltb_lt in Et. cbn. split; [discriminate 1 |].
    intros (status & statusText & body & Hl & _). lia.
  - apply Z.ltb_ge in Et. cbn.
    destruct (Browser.outcome (network (Location.url provider)))
      as [[errorName message | v] | [|] status statusText [body | e]]; cbn.
    + split; [destruct (errorName =? "AbortError")%string; discriminate 1 |].
      intros (? & ? & ? & _ & H & _). discriminate H.
    + split; [discriminate 1 |].
      intros (? & ? & ? & _ & H & _). discriminate H.
    + destruct (truthy body) eqn:Eb; cbn.
      2:{ split; [discriminate 1 |].
          intros (? & ? & b & _ & H & Hb & _). injection H as _ _ <-.
          congruence. }
      destruct (typeofObject body) eqn:Eo; cbn.
      2:{ split; [discriminate 1 |].
          intros (? & ? & b & _ & H & _ & Ho & _). injection H as _ _ <-.
          congruence. }
      destruct (truthy (Location.country (Location.parser provider body)))
        eqn:Ec; cbn.
      2:{ split; [discriminate 1 |].
          intros (? & ? & b & _ & H & _ & _ & -> & Hc & _).
          injection H as _ _ <-. congruence. }
      destruct (truthy (Location.city (Location.parser provider body)))
        eqn:Ey; cbn.
      2:{ split; [discriminate 1 |].
          intros (? & ? & b & _ & H & _ & _ & -> & _ & Hy).
          injection H as _ _ <-. congruence. }
      split.
      * intros [= <-]. exists status, statusText, body.
        repeat split; assumption.
      * intros (? & ? & b & _ & H & _ & _ & -> & _).
        injection H as _ _ <-. reflexivity.
    + split; [destruct e as [errorName message | v]; cbn;
              [destruct (errorName =? "AbortError")%string |];
              discriminate 1 |].
      intros (? & ? & ? & _ & H & _). discriminate H.
    + split; [discriminate 1 |].
      intros (? & ? & ? & _ & H & _). discriminate H.
    + split; [discriminate 1 |].
      intros (? & ? & ? & _ & H & _). discriminate H.
Qed.

End AttemptOutcome.
